(** * Coverage tools of the MCP testing agent: a shallow embedding

    This development embeds the coverage tools of [server.py]
    ([divide], [find_jacoco_path], [total_coverage], [missing_coverage])
    and of its second copy [codebase/server.py], and states the
    properties of the specification about them.

    Conventions of the embedding:
    - a Python [str] is a [string]; [in], [str.replace] and the f-string
      concatenations are the functions [str_contains], [str_replace]
      and [+:+];
    - a Python [dict] with string keys is a [gmap string _];
    - a Python [float] is an IEEE-754 binary64 number, a [spec_float]
      handled with the operations of [SpecFloat] at precision 53;
    - a Python [int] is a [Z];
    - code that can raise returns a [result]: [Ret v] or [Raise e];
      [try]/[except] is [try_except];
    - what the operating system and the libraries decide ([os.path],
      the XML parser, the numerals [int] accepts) is a [Host];
    - the decorator [@mcp.tool()] registers a function and leaves it
      as it is, so that a tool can call another.

    It also embeds the other tools of the two files: the analysis of
    Java sources ([analyze_java_code], [generate_test_template],
    [generate_specification_tests], [code_review]) and the git tools
    ([git_status], [git_add_all], [git_commit], [git_push],
    [git_pull_request]).  For these:
    - a character is a code point below 256;
    - code that can raise an exception of any class returns an
      [outcome]: [Done v] or [Raised cls msg], with the name of the
      class and [str(e)];
    - a tool that runs commands is a [prog]: from the state of the
      machine it gives its outcome, the state after and the commands
      it ran; [subprocess.run] is the field of a [Shell];
    - [open(path).read()] is a function [open_read];
    - a regular expression of [re] is a [regex], matched by [rmatch]
      with the order of choices of [re];
    - a dictionary whose order matters is the list of its items, and
      the dictionaries the tools return are inductive types with the
      keys as the names of the fields. *)

From Stdlib Require Import ZArith String Ascii List Lia Bool.
From Stdlib Require Import Floats.SpecFloat.
From Stdlib Require Import DecimalString.
From stdpp Require Import gmap strings list fin_maps.

Local Open Scope string_scope.
Local Open Scope Z_scope.

Set Warnings "-register-all".

(** ** Python strings *)

(** [needle in hay]: [needle] occurs in [hay] as a substring. *)
Fixpoint str_contains (needle hay : string) : bool :=
  String.prefix needle hay ||
  match hay with
  | EmptyString => false
  | String _ rest => str_contains needle rest
  end.

(** [s.replace(old, new)]: every occurrence of [old], found from the
    left and not overlapping, is replaced.  [skip] counts the characters
    of an occurrence just replaced that are still to be dropped.  For an
    empty [old] Python puts [new] before every character and at the end. *)
Fixpoint str_replace_from (old new : string) (skip : nat) (s : string) : string :=
  match s with
  | EmptyString =>
      match skip with
      | O => if String.prefix old EmptyString then new else EmptyString
      | S _ => EmptyString
      end
  | String c rest =>
      match skip with
      | S k => str_replace_from old new k rest
      | O =>
          if String.prefix old s then
            match String.length old with
            | O => new +:+ String c (str_replace_from old new O rest)
            | S k => new +:+ str_replace_from old new k rest
            end
          else String c (str_replace_from old new O rest)
      end
  end.

Definition str_replace (s old new : string) : string :=
  str_replace_from old new O s.

(** [posixpath.basename]: what follows the last slash. *)
Fixpoint basename_from (acc : string) (p : string) : string :=
  match p with
  | EmptyString => String.rev acc
  | String c rest =>
      if Ascii.eqb c "/"%char then basename_from EmptyString rest
      else basename_from (String c acc) rest
  end.

Definition posix_basename (p : string) : string := basename_from EmptyString p.

(** ** Exceptions *)

Inductive exn_class :=
  | ParseError | ValueError | TypeError | OverflowError
  | ZeroDivisionError | OSError.

(** An exception: its class and [str(e)]. *)
Record exn := mk_exn { exn_cls : exn_class; exn_msg : string }.

Inductive result (A : Type) :=
  | Ret (a : A)
  | Raise (e : exn).
Arguments Ret {A} a.
Arguments Raise {A} e.

Definition bind {A B} (m : result A) (k : A -> result B) : result B :=
  match m with
  | Ret a => k a
  | Raise e => Raise e
  end.

Notation "x <- m ;; k" := (bind m (fun x => k))
  (at level 100, m at next level, right associativity).

(** [try: body except ...: handler]. *)
Definition try_except {A} (body : result A) (handler : exn -> result A) : result A :=
  match body with
  | Ret a => Ret a
  | Raise e => handler e
  end.

(** [for x in xs: acc = step acc x], stopping at the first exception. *)
Fixpoint for_each {A S} (step : S -> A -> result S) (xs : list A) (acc : S) : result S :=
  match xs with
  | [] => Ret acc
  | x :: rest => acc' <- step acc x ;; for_each step rest acc'
  end.

(** ** Python floats and integer division *)

Definition prec : Z := 53.
Definition emax : Z := 1024.

Definition float_mul : spec_float -> spec_float -> spec_float := SFmul prec emax.
Definition float_div : spec_float -> spec_float -> spec_float := SFdiv prec emax.
Definition float_inf : spec_float := S754_infinity false.
Definition float_zero : spec_float := S754_zero false.

(** The float of a Python [int] that a float holds exactly. *)
Definition float_of_int (z : Z) : spec_float := binary_normalize prec emax z 0 false.

(** The binary64 number nearest to [n / d] ([n], [d] positive), ties
    to even, with sign [neg]: the quotient is taken with enough bits and
    the remainder tells on which side of the half-way point it lies. *)
Definition round_ratio (neg : bool) (n d : Z) : spec_float :=
  let k := Z.max 0 (prec + 2 + Z.log2_up d - Z.log2 n) in
  let '(q, r) := Z.div_eucl (n * 2 ^ k) d in
  binary_round_aux prec emax neg q (- k) (new_location d r).

(** The least magnitude that rounds to 2^1024: half-way between the
    largest float and 2^1024. *)
Definition overflow_threshold : Z := 2 ^ 1024 - 2 ^ 970.

(** [a / b] on Python ints: the correctly rounded quotient;
    [ZeroDivisionError] for [b = 0] and [OverflowError] when the
    quotient rounds out of the range of a float. *)
Definition int_truediv (a b : Z) : result spec_float :=
  if b =? 0 then Raise (mk_exn ZeroDivisionError "division by zero")
  else if overflow_threshold * Z.abs b <=? Z.abs a then
    Raise (mk_exn OverflowError "integer division result too large for a float")
  else
    let neg := xorb (a <? 0) (b <? 0) in
    if a =? 0 then Ret (S754_zero neg)
    else Ret (round_ratio neg (Z.abs a) (Z.abs b)).

(** [a / b] on Python floats: IEEE division, but a zero divisor raises. *)
Definition float_truediv (a b : spec_float) : result spec_float :=
  match b with
  | S754_zero _ => Raise (mk_exn ZeroDivisionError "float division by zero")
  | _ => Ret (float_div a b)
  end.

(** [b == 0] for a float [b]. *)
Definition float_eq_zero (b : spec_float) : bool := SFeqb b float_zero.

(** The integer nearest to [m * 2^e], ties to even ([m] not negative). *)
Definition round_half_even (m e : Z) : Z :=
  match e with
  | Zneg p =>
      let d := 2 ^ Zpos p in
      let '(q, r) := Z.div_eucl m d in
      match 2 * r ?= d with
      | Lt => q
      | Gt => q + 1
      | Eq => if Z.even q then q else q + 1
      end
  | _ => m * 2 ^ e
  end.

(** [round(x, 2)]: the value of [x] rounded to two decimals, ties to
    even, then read back as the nearest float; zeros, infinities and
    NaN round to themselves. *)
Definition round2 (x : spec_float) : spec_float :=
  match x with
  | S754_finite s m e =>
      let n := round_half_even (Zpos m * 100) e in
      if n =? 0 then S754_zero s else round_ratio s n 100
  | _ => x
  end.

(** [round((covered / total) * 100, 2)]. *)
Definition percentage (covered total : Z) : result spec_float :=
  q <- int_truediv covered total ;;
  Ret (round2 (float_mul q (float_of_int 100))).

(** ** Python values and XML elements *)

(** The values the tools put in the dictionaries they return. *)
Inductive pyval :=
  | PyInt (z : Z)
  | PyFloat (f : spec_float)
  | PyStr (s : string)
  | PyList (l : list pyval)
  | PyDict (d : gmap string pyval).

(** An [xml.etree.ElementTree.Element]: tag, attribute dictionary and
    child elements in document order. *)
Inductive Element :=
  mkElement { tag : string; attrib : gmap string string; children : list Element }.

(** [elem.iter()]: the element and all elements below it, in document
    order. *)
Fixpoint iter (e : Element) : list Element :=
  e :: flat_map iter (children e).

(** What the path [.//] ranges over: [iter] without the element the
    search starts from. *)
Definition descendants (e : Element) : list Element :=
  flat_map iter (children e).

(** [root.findall(".//t")]. *)
Definition findall (root : Element) (t : string) : list Element :=
  filter (fun e => tag e = t) (descendants root).

(** [root.findall(".//t[@key='value']")]. *)
Definition findall_attr (root : Element) (t key value : string) : list Element :=
  filter (fun e => attrib e !! key = Some value) (findall root t).

(** The argument of an [int(...)] call in the tools: an attribute
    value, or the default that [get] was given. *)
Inductive arg :=
  | ArgStr (s : string)
  | ArgInt (z : Z)
  | ArgNone.

(** [elem.get(key, default)]. *)
Definition get (e : Element) (key : string) (default : arg) : arg :=
  match attrib e !! key with
  | Some s => ArgStr s
  | None => default
  end.

(** [elem.get(key, default)] with a string default. *)
Definition get_str (e : Element) (key : string) (default : string) : string :=
  match attrib e !! key with
  | Some s => s
  | None => default
  end.

(** ** The host: file system, XML parser, numerals *)

Record Host := {
  (** [os.path.exists] *)
  os_path_exists : string -> bool;
  (** [os.path.basename] *)
  os_path_basename : string -> string;
  (** [ET.parse(path).getroot()]: the root element, or the exception
      raised ([ParseError] for a document that is not well-formed). *)
  ET_parse : string -> result Element;
  (** [int(s)] for a string [s]. *)
  int_of_str : string -> result Z;
}.

(** [int(x)]. *)
Definition py_int (h : Host) (x : arg) : result Z :=
  match x with
  | ArgStr s => int_of_str h s
  | ArgInt z => Ret z
  | ArgNone =>
      Raise (mk_exn TypeError
        "int() argument must be a string, a bytes-like object or a real number, not 'NoneType'")
  end.

(** ** server.py *)

(** [divide], lines 25-30. *)
Definition divide (a b : spec_float) : result spec_float :=
  if float_eq_zero b then Ret float_inf
  else float_truediv a b.

(** [find_jacoco_path], lines 37-50. *)
Definition jacoco_paths (project_path : string) : list string :=
  [ project_path +:+ "/target/site/jacoco/jacoco.xml";
    project_path +:+ "/target/jacoco.xml";
    project_path +:+ "/build/jacoco/jacoco.xml" ].

Definition not_found_message : string :=
  "JaCoCo report not found. Run 'mvn clean test' first.".

(** The loop over [jacoco_paths]: the paths handed to [os.path.exists],
    in the order of the calls, and the path returned from inside the
    loop, if any. *)
Fixpoint probe (h : Host) (paths : list string) : list string * option string :=
  match paths with
  | [] => ([], None)
  | path :: rest =>
      if os_path_exists h path then ([path], Some path)
      else let '(asked, found) := probe h rest in (path :: asked, found)
  end.

Definition find_jacoco_path (h : Host) (project_path : string) : string :=
  match snd (probe h (jacoco_paths project_path)) with
  | Some path => path
  | None => not_found_message
  end.

(** The [os.path.exists] calls of [find_jacoco_path]. *)
Definition find_jacoco_path_probes (h : Host) (project_path : string) : list string :=
  fst (probe h (jacoco_paths project_path)).

(** [total_coverage], lines 103-157.  The body of each of the four
    loops, for the key it assigns. *)
Definition count_counter (h : Host) (key : string)
    (coverage_data : gmap string pyval) (counter : Element)
    : result (gmap string pyval) :=
  covered <- py_int h (get counter "covered" (ArgInt 0)) ;;
  missed <- py_int h (get counter "missed" (ArgInt 0)) ;;
  let total := covered + missed in
  if 0 <? total then
    (p <- percentage covered total ;;
     Ret (<[key := PyFloat p]> coverage_data))
  else Ret coverage_data.

Definition error_dict (msg : string) : gmap string pyval :=
  {[ "error" := PyStr msg ]}.

Definition total_coverage (h : Host) (project_path : string)
    : result (gmap string pyval) :=
  let jacoco_path := find_jacoco_path h project_path in
  if str_contains "not found" jacoco_path then Ret (error_dict jacoco_path)
  else
    try_except
      (root <- ET_parse h jacoco_path ;;
       let coverage_data : gmap string pyval :=
         <["line_coverage" := PyInt 0]>
         (<["branch_coverage" := PyInt 0]>
         (<["method_coverage" := PyInt 0]>
         (<["instruction_coverage" := PyInt 0]> ∅))) in
       coverage_data <-
         for_each (count_counter h "line_coverage")
           (findall_attr root "counter" "type" "LINE") coverage_data ;;
       coverage_data <-
         for_each (count_counter h "branch_coverage")
           (findall_attr root "counter" "type" "BRANCH") coverage_data ;;
       coverage_data <-
         for_each (count_counter h "method_coverage")
           (findall_attr root "counter" "type" "METHOD") coverage_data ;;
       coverage_data <-
         for_each (count_counter h "instruction_coverage")
           (findall_attr root "counter" "type" "INSTRUCTION") coverage_data ;;
       Ret coverage_data)
      (fun e =>
         match exn_cls e with
         | ParseError => Ret (error_dict ("Invalid JaCoCo XML: " +:+ exn_msg e))
         | _ => Ret (error_dict ("Coverage parsing failed: " +:+ exn_msg e))
         end).

(** [missing_coverage], lines 186-217.  The dictionary appended for a line. *)
Definition line_entry (h : Host) (line : Element) : result pyval :=
  line_number <- py_int h (get line "nr" ArgNone) ;;
  instruction_count <- py_int h (get line "ci" (ArgInt 0)) ;;
  branch_count <- py_int h (get line "cb" (ArgInt 0)) ;;
  Ret (PyDict (<["line_number" := PyInt line_number]>
              (<["instruction_count" := PyInt instruction_count]>
              (<["branch_count" := PyInt branch_count]> ∅)))).

(** The body of the inner loop. *)
Definition check_line (h : Host) (uncovered_lines : list pyval) (line : Element)
    : result (list pyval) :=
  ci <- py_int h (get line "ci" (ArgInt 0)) ;;
  if ci =? 0 then
    (entry <- line_entry h line ;; Ret (uncovered_lines ++ [entry])%list)
  else Ret uncovered_lines.

(** The condition of the [if] on a [sourcefile] element. *)
Definition sourcefile_selected (file_name file_path : string) (sourcefile : Element) : bool :=
  str_contains file_name (get_str sourcefile "name" "")
  || str_contains file_path (get_str sourcefile "name" "").

(** The body of the outer loop. *)
Definition check_sourcefile (h : Host) (file_name file_path : string)
    (uncovered_lines : list pyval) (sourcefile : Element) : result (list pyval) :=
  if sourcefile_selected file_name file_path sourcefile then
    for_each (check_line h) (findall sourcefile "line") uncovered_lines
  else Ret uncovered_lines.

Definition target_file_name (h : Host) (file_path : string) : string :=
  str_replace (os_path_basename h file_path) ".java" ".class".

Definition missing_coverage (h : Host) (file_path project_path : string)
    : result (gmap string pyval) :=
  let jacoco_path := find_jacoco_path h project_path in
  if str_contains "not found" jacoco_path then Ret (error_dict jacoco_path)
  else
    try_except
      (root <- ET_parse h jacoco_path ;;
       let file_name := target_file_name h file_path in
       uncovered_lines <-
         for_each (check_sourcefile h file_name file_path)
           (findall root "sourcefile") [] ;;
       Ret (<["file" := PyStr file_path]>
           (<["total_uncovered_lines" := PyInt (Z.of_nat (length uncovered_lines))]>
           (<["uncovered_lines" := PyList uncovered_lines]> ∅))))
      (fun e => Ret (error_dict ("Coverage analysis failed: " +:+ exn_msg e))).

(** ** codebase/server.py

    The second copy of the coverage tools, embedded from its own text
    (lines 36-216 of [final_project_se333_sidiqa/codebase/server.py]). *)
Module Codebase.

Definition jacoco_paths (project_path : string) : list string :=
  [ project_path +:+ "/target/site/jacoco/jacoco.xml";
    project_path +:+ "/target/jacoco.xml";
    project_path +:+ "/build/jacoco/jacoco.xml" ].

Fixpoint probe (h : Host) (paths : list string) : list string * option string :=
  match paths with
  | [] => ([], None)
  | path :: rest =>
      if os_path_exists h path then ([path], Some path)
      else let '(asked, found) := probe h rest in (path :: asked, found)
  end.

Definition find_jacoco_path (h : Host) (project_path : string) : string :=
  match snd (probe h (jacoco_paths project_path)) with
  | Some path => path
  | None => "JaCoCo report not found. Run 'mvn clean test' first."
  end.

Definition count_counter (h : Host) (key : string)
    (coverage_data : gmap string pyval) (counter : Element)
    : result (gmap string pyval) :=
  covered <- py_int h (get counter "covered" (ArgInt 0)) ;;
  missed <- py_int h (get counter "missed" (ArgInt 0)) ;;
  let total := covered + missed in
  if 0 <? total then
    (q <- int_truediv covered total ;;
     Ret (<[key := PyFloat (round2 (float_mul q (float_of_int 100)))]> coverage_data))
  else Ret coverage_data.

Definition total_coverage (h : Host) (project_path : string)
    : result (gmap string pyval) :=
  let jacoco_path := find_jacoco_path h project_path in
  if str_contains "not found" jacoco_path then
    Ret ({[ "error" := PyStr jacoco_path ]} : gmap string pyval)
  else
    try_except
      (root <- ET_parse h jacoco_path ;;
       let coverage_data : gmap string pyval :=
         <["line_coverage" := PyInt 0]>
         (<["branch_coverage" := PyInt 0]>
         (<["method_coverage" := PyInt 0]>
         (<["instruction_coverage" := PyInt 0]> ∅))) in
       coverage_data <-
         for_each (count_counter h "line_coverage")
           (findall_attr root "counter" "type" "LINE") coverage_data ;;
       coverage_data <-
         for_each (count_counter h "branch_coverage")
           (findall_attr root "counter" "type" "BRANCH") coverage_data ;;
       coverage_data <-
         for_each (count_counter h "method_coverage")
           (findall_attr root "counter" "type" "METHOD") coverage_data ;;
       coverage_data <-
         for_each (count_counter h "instruction_coverage")
           (findall_attr root "counter" "type" "INSTRUCTION") coverage_data ;;
       Ret coverage_data)
      (fun e =>
         match exn_cls e with
         | ParseError =>
             Ret ({[ "error" := PyStr ("Invalid JaCoCo XML: " +:+ exn_msg e) ]}
                  : gmap string pyval)
         | _ =>
             Ret ({[ "error" := PyStr ("Coverage parsing failed: " +:+ exn_msg e) ]}
                  : gmap string pyval)
         end).

Definition check_line (h : Host) (uncovered_lines : list pyval) (line : Element)
    : result (list pyval) :=
  ci <- py_int h (get line "ci" (ArgInt 0)) ;;
  if ci =? 0 then
    (line_number <- py_int h (get line "nr" ArgNone) ;;
     instruction_count <- py_int h (get line "ci" (ArgInt 0)) ;;
     branch_count <- py_int h (get line "cb" (ArgInt 0)) ;;
     Ret (uncovered_lines ++
          [PyDict (<["line_number" := PyInt line_number]>
                  (<["instruction_count" := PyInt instruction_count]>
                  (<["branch_count" := PyInt branch_count]> ∅)))])%list)
  else Ret uncovered_lines.

Definition check_sourcefile (h : Host) (file_name file_path : string)
    (uncovered_lines : list pyval) (sourcefile : Element) : result (list pyval) :=
  if str_contains file_name (get_str sourcefile "name" "")
     || str_contains file_path (get_str sourcefile "name" "")
  then for_each (check_line h) (findall sourcefile "line") uncovered_lines
  else Ret uncovered_lines.

Definition missing_coverage (h : Host) (file_path project_path : string)
    : result (gmap string pyval) :=
  let jacoco_path := find_jacoco_path h project_path in
  if str_contains "not found" jacoco_path then
    Ret ({[ "error" := PyStr jacoco_path ]} : gmap string pyval)
  else
    try_except
      (root <- ET_parse h jacoco_path ;;
       let file_name := str_replace (os_path_basename h file_path) ".java" ".class" in
       uncovered_lines <-
         for_each (check_sourcefile h file_name file_path)
           (findall root "sourcefile") [] ;;
       Ret (<["file" := PyStr file_path]>
           (<["total_uncovered_lines" := PyInt (Z.of_nat (length uncovered_lines))]>
           (<["uncovered_lines" := PyList uncovered_lines]> ∅))))
      (fun e =>
         Ret ({[ "error" := PyStr ("Coverage analysis failed: " +:+ exn_msg e) ]}
              : gmap string pyval)).

End Codebase.

(** ** Vocabulary of the specification *)

(** The four counter kinds of the data model, the [type] attribute of
    each and the key of its percentage in the result. *)
Inductive counter_kind := LINE | BRANCH | METHOD | INSTRUCTION.

Definition all_kinds : list counter_kind := [LINE; BRANCH; METHOD; INSTRUCTION].

Definition kind_type (k : counter_kind) : string :=
  match k with
  | LINE => "LINE"
  | BRANCH => "BRANCH"
  | METHOD => "METHOD"
  | INSTRUCTION => "INSTRUCTION"
  end.

Definition kind_key (k : counter_kind) : string :=
  match k with
  | LINE => "line_coverage"
  | BRANCH => "branch_coverage"
  | METHOD => "method_coverage"
  | INSTRUCTION => "instruction_coverage"
  end.

(** The counter nodes of kind [k] in the document, in document order. *)
Definition counters (root : Element) (k : counter_kind) : list Element :=
  findall_attr root "counter" "type" (kind_type k).



(** [covered] and [missed] as a loop body reads them. *)
Definition counts (h : Host) (counter : Element) : result (Z * Z) :=
  covered <- py_int h (get counter "covered" (ArgInt 0)) ;;
  missed <- py_int h (get counter "missed" (ArgInt 0)) ;;
  Ret (covered, missed).

Definition positive_total (h : Host) (counter : Element) : bool :=
  match counts h counter with
  | Ret (covered, missed) => 0 <? covered + missed
  | Raise _ => false
  end.


(** The percentage a loop body of [total_coverage] stores for a
    counter it counts. *)
Definition stored (h : Host) (counter : Element) : option pyval :=
  match counts h counter with
  | Ret (covered, missed) =>
      if 0 <? covered + missed then
        match percentage covered (covered + missed) with
        | Ret p => Some (PyFloat p)
        | Raise _ => None
        end
      else None
  | Raise _ => None
  end.

(** The value under a key after its loop: what the last counter with
    a positive total stored, or the value from before the loop. *)
Definition after_loop (h : Host) (cs : list Element) (before : pyval) : pyval :=
  match last (filter (fun c => positive_total h c = true) cs) with
  | Some c => default before (stored h c)
  | None => before
  end.

(** A counter that conforms to the schema of the data model:
    [covered] and [missed], where present, are numerals of integers
    that are not negative. *)
Definition counter_ok (h : Host) (counter : Element) : bool :=
  match counts h counter with
  | Ret (covered, missed) => (0 <=? covered) && (0 <=? missed)
  | Raise _ => false
  end.

(** A well-formed report: every counter of the four kinds conforms. *)
Definition well_formed_report (h : Host) (root : Element) : bool :=
  forallb (fun k => forallb (counter_ok h) (counters root k)) all_kinds.

(** The report of the project is found and handed to the parser: the
    located path passes the guard of lines 107 and 190. *)
Definition report_located (h : Host) (project_path : string) : Prop :=
  str_contains "not found" (find_jacoco_path h project_path) = false.

(** The [line] nodes that [missing_coverage] inspects: those below the
    selected [sourcefile] entries, in the order of the two loops. *)
Definition inspected_lines (file_name file_path : string) (root : Element) : list Element :=
  flat_map (fun sf => findall sf "line")
    (filter (fun sf => sourcefile_selected file_name file_path sf = true)
       (findall root "sourcefile")).

(** The covered-instruction count of a line is read and is zero. *)
Definition ci_zero (h : Host) (line : Element) : bool :=
  match py_int h (get line "ci" (ArgInt 0)) with
  | Ret ci => ci =? 0
  | Raise _ => false
  end.

(** The call returned. *)
Definition is_ret {A} (r : result A) : bool :=
  match r with
  | Ret _ => true
  | Raise _ => false
  end.

(** A [line] node that conforms to the schema: [nr] is present and
    [nr], [ci], [cb] are numerals where present. *)
Definition line_ok (h : Host) (line : Element) : bool :=
  is_ret (py_int h (get line "nr" ArgNone))
  && is_ret (py_int h (get line "ci" (ArgInt 0)))
  && is_ret (py_int h (get line "cb" (ArgInt 0))).

(** [needle] is a substring of [hay]. *)
Definition substring_of (needle hay : string) : Prop :=
  exists before after, hay = before +:+ needle +:+ after.


(** ** A host for the examples

    Paths are the keys of a table of files; a file holds the outcome of
    parsing it.  Numerals are an optional sign and decimal digits. *)
Definition digit_of (c : ascii) : option Z :=
  let n := Z.of_nat (nat_of_ascii c) in
  if (48 <=? n) && (n <=? 57) then Some (n - 48) else None.

Fixpoint digits_value (acc : Z) (s : string) : option Z :=
  match s with
  | EmptyString => Some acc
  | String c rest =>
      match digit_of c with
      | Some d => digits_value (10 * acc + d) rest
      | None => None
      end
  end.

Definition numeral_value (s : string) : option Z :=
  match s with
  | EmptyString => None
  | String c rest =>
      if Ascii.eqb c "-"%char then
        match rest with
        | EmptyString => None
        | _ => Z.opp <$> digits_value 0 rest
        end
      else if Ascii.eqb c "+"%char then
        match rest with
        | EmptyString => None
        | _ => digits_value 0 rest
        end
      else digits_value 0 s
  end.

Definition int_of_numeral (s : string) : result Z :=
  match numeral_value s with
  | Some z => Ret z
  | None =>
      Raise (mk_exn ValueError
        ("invalid literal for int() with base 10: '" +:+ s +:+ "'"))
  end.

Definition example_host (files : gmap string (result Element)) : Host :=
  {| os_path_exists := fun p => bool_decide (is_Some (files !! p));
     os_path_basename := posix_basename;
     ET_parse := fun p =>
       match files !! p with
       | Some outcome => outcome
       | None =>
           Raise (mk_exn OSError
             ("[Errno 2] No such file or directory: '" +:+ p +:+ "'"))
       end;
     int_of_str := int_of_numeral |}.

(** The project of the examples holds its report at the first
    candidate location. *)
Definition project_with (outcome : result Element) : Host :=
  example_host {[ "proj/target/site/jacoco/jacoco.xml" := outcome ]}.

Definition counter_node (type covered missed : string) : Element :=
  mkElement "counter"
    {[ "type" := type; "covered" := covered; "missed" := missed ]} [].

Definition line_node (nr ci cb : string) : Element :=
  mkElement "line" {[ "nr" := nr; "ci" := ci; "cb" := cb ]} [].

(** [<report><counter type="LINE" covered="80" missed="20"/></report>] *)
Definition report_80_20 : Element :=
  mkElement "report" ∅ [counter_node "LINE" "80" "20"].

(** A report in the layout JaCoCo writes: the counters of a package
    come after its classes, the counters of the report come last. *)
Definition report_nested : Element :=
  mkElement "report" {[ "name" := "demo" ]}
    [ mkElement "package" {[ "name" := "demo" ]}
        [ mkElement "class" {[ "name" := "demo/Calc" ]}
            [ counter_node "INSTRUCTION" "7" "5";
              counter_node "LINE" "1" "2";
              counter_node "METHOD" "1" "1" ];
          counter_node "INSTRUCTION" "7" "5";
          counter_node "LINE" "1" "2";
          counter_node "COMPLEXITY" "x" "y";
          counter_node "METHOD" "1" "1" ];
      counter_node "INSTRUCTION" "30" "10";
      counter_node "LINE" "2" "1";
      mkElement "counter" {[ "type" := "BRANCH" ]} [];
      counter_node "METHOD" "0" "0" ].

(** A positive [LINE] counter followed by a [LINE] counter with
    [covered=0] and [missed=0]. *)
Definition zero_counter : Element := counter_node "LINE" "0" "0".

Definition report_zero_last : Element :=
  mkElement "report" ∅
    [ mkElement "package" ∅ [counter_node "LINE" "80" "20"];
      zero_counter ].


(** A [sourcefile] entry with two lines, one with [ci="0"] and one
    with [ci="3"] and a partly covered branch. *)
Definition sourcefile_two_lines : Element :=
  mkElement "sourcefile" {[ "name" := "Calc.java" ]}
    [ line_node "12" "0" "0"; line_node "13" "3" "1" ].

Definition report_two_lines : Element :=
  mkElement "report" ∅ [mkElement "package" ∅ [sourcefile_two_lines]].



(** 80.0 *)
Definition float_80 : spec_float := S754_finite false 5629499534213120 (-46).

(** The dictionary of the four percentages. *)
Definition coverage_dict (v : counter_kind -> pyval) : gmap string pyval :=
  <["instruction_coverage" := v INSTRUCTION]>
  (<["method_coverage" := v METHOD]>
  (<["branch_coverage" := v BRANCH]>
  (<["line_coverage" := v LINE]>
  (<["line_coverage" := PyInt 0]>
  (<["branch_coverage" := PyInt 0]>
  (<["method_coverage" := PyInt 0]>
  (<["instruction_coverage" := PyInt 0]> ∅))))))).

(** C3 as it is stated: a counter of kind [k] with [covered=0] and
    [missed=0] that no counter of the kind with a positive total
    follows leaves the percentage of the kind at the default 0. *)
Definition zero_total_gives_default
    (h : Host) (project_path : string) (root : Element) (k : counter_kind) : Prop :=
  forall before c after,
    counters root k = (before ++ c :: after)%list ->
    counts h c = Ret (0, 0) ->
    Forall (fun c' => positive_total h c' = false) after ->
    exists data,
      total_coverage h project_path = Ret data /\
      data !! kind_key k = Some (PyInt 0).



(** The dictionary reported for an uncovered line. *)
Definition uncovered_entry (line_number branch_count : Z) : pyval :=
  PyDict (<["line_number" := PyInt line_number]>
         (<["instruction_count" := PyInt 0]>
         (<["branch_count" := PyInt branch_count]> ∅))).

(** [entry] is the dictionary reported for [line]: its number, a zero
    instruction count and its covered-branch count. *)
Definition reports (h : Host) (line : Element) (entry : pyval) : Prop :=
  exists line_number branch_count,
    py_int h (get line "nr" ArgNone) = Ret line_number /\
    py_int h (get line "cb" (ArgInt 0)) = Ret branch_count /\
    entry = uncovered_entry line_number branch_count.

(** ** More of Python's strings

    In the tools below a character is a code point below 256. *)

(** [c.isspace()], which is also the class [\s] of [re]. *)
Definition is_space (c : ascii) : bool :=
  let n := Z.of_nat (nat_of_ascii c) in
  ((9 <=? n) && (n <=? 13)) || ((28 <=? n) && (n <=? 32))
  || (n =? 133) || (n =? 160).

(** The character [\n]. *)
Definition newline : ascii := "010"%char.

(** [s.lstrip()], [s.rstrip()], [s.strip()]. *)
Fixpoint str_lstrip (s : string) : string :=
  match s with
  | EmptyString => EmptyString
  | String c rest => if is_space c then str_lstrip rest else s
  end.

Fixpoint str_rstrip (s : string) : string :=
  match s with
  | EmptyString => EmptyString
  | String c rest =>
      match str_rstrip rest with
      | EmptyString => if is_space c then EmptyString else String c EmptyString
      | kept => String c kept
      end
  end.

Definition str_strip (s : string) : string := str_rstrip (str_lstrip s).

(** [s.split(sep)] for a separator of one character. *)
Fixpoint str_split (sep : ascii) (s : string) : list string :=
  match s with
  | EmptyString => [EmptyString]
  | String c rest =>
      if Ascii.eqb c sep then EmptyString :: str_split sep rest
      else
        match str_split sep rest with
        | piece :: pieces => String c piece :: pieces
        | [] => [String c EmptyString]
        end
  end.

(** [s[:n]] and [s[n:]]. *)
Fixpoint str_take (n : nat) (s : string) : string :=
  match n, s with
  | S n', String c rest => String c (str_take n' rest)
  | _, _ => EmptyString
  end.

Fixpoint str_drop (n : nat) (s : string) : string :=
  match n, s with
  | S n', String _ rest => str_drop n' rest
  | _, _ => s
  end.

(** ** Exceptions of any class *)

(** The outcome of code that may raise: the value, or the name of the
    class of the exception and [str(e)]. *)
Inductive outcome (A : Type) :=
  | Done (a : A)
  | Raised (cls msg : string).
Arguments Done {A} a.
Arguments Raised {A} cls msg.

Definition obind {A B} (m : outcome A) (k : A -> outcome B) : outcome B :=
  match m with
  | Done a => k a
  | Raised cls msg => Raised cls msg
  end.

Notation "x <-- m ;; k" := (obind m (fun x => k))
  (at level 100, m at next level, right associativity).

(** [for x in xs: acc = step acc x]. *)
Fixpoint ofold {A S} (step : S -> A -> outcome S) (xs : list A) (acc : S) : outcome S :=
  match xs with
  | [] => Done acc
  | x :: rest => acc' <-- step acc x ;; ofold step rest acc'
  end.

(** [s[i]]. *)
Definition str_index (s : string) (i : nat) : outcome string :=
  match String.get i s with
  | Some c => Done (String c EmptyString)
  | None => Raised "IndexError" "string index out of range"
  end.

(** ** Running commands *)

(** A [subprocess.CompletedProcess] with captured text. *)
Record completed := mk_completed { returncode : Z; stdout : string; stderr : string }.

(** A call of [subprocess.run]: the argument list and [cwd]. *)
Definition command : Type := list string * string.

(** The machine the commands run on: a state [W] of the repository and
    of the file system, which a command reads and changes. *)
Record Shell (W : Type) := {
  subprocess_run : list string -> string -> W -> outcome completed * W
}.
Arguments subprocess_run {W} _ _ _ _.

(** A tool that runs commands: from the state before, its outcome, the
    state after, and the commands it ran, in order. *)
Definition prog (W A : Type) : Type := W -> outcome A * W * list command.

Definition pret {W A} (a : A) : prog W A := fun w => (Done a, w, []).

Definition pbind {W A B} (m : prog W A) (k : A -> prog W B) : prog W B :=
  fun w =>
    let '(r, w1, ran1) := m w in
    match r with
    | Done a => let '(r2, w2, ran2) := k a w1 in (r2, w2, (ran1 ++ ran2)%list)
    | Raised cls msg => (Raised cls msg, w1, ran1)
    end.

Notation "x <~~ m ;; k" := (pbind m (fun x => k))
  (at level 100, m at next level, right associativity).

(** Code that runs no command. *)
Definition plift {W A} (o : outcome A) : prog W A := fun w => (o, w, []).

(** [subprocess.run(args, cwd=cwd, capture_output=True, text=True)]. *)
Definition run {W} (sh : Shell W) (args : list string) (cwd : string) : prog W completed :=
  fun w => let '(r, w') := subprocess_run sh args cwd w in (r, w', [(args, cwd)]).

(** [try: body except Exception as e: handler]. *)
Definition ptry {W A} (body : prog W A) (handler : string -> string -> prog W A) : prog W A :=
  fun w =>
    let '(r, w1, ran1) := body w in
    match r with
    | Done a => (Done a, w1, ran1)
    | Raised cls msg =>
        let '(r2, w2, ran2) := handler cls msg w1 in (r2, w2, (ran1 ++ ran2)%list)
    end.

(** ** codebase/server.py: the git tools *)

(** An entry [{"file": ..., "status": ...}]. *)
Record change := mk_change { change_file : string; change_status : string }.

(** The dictionary [git_status] returns: the five keys of lines
    251-257, or the key [error]. *)
Inductive status_reply :=
  | StatusReply (is_clean : bool) (staged_changes unstaged_changes : list change)
      (conflicts : list string) (total_changes : Z)
  | StatusFailed (error : string).

(** The three lists of [git_status]. *)
Record status_lists := mk_lists {
  staged : list change;
  unstaged : list change;
  conflicted : list string
}.

(** The body of the loop of [git_status], lines 237-247. *)
Definition status_line (acc : status_lists) (line : string) : outcome status_lists :=
  if String.eqb line "" then Done acc
  else
    let status := str_take 2 line in
    let file := str_drop 3 line in
    s0 <-- str_index status 0 ;;
    let acc :=
      if negb (String.eqb s0 " ")
      then mk_lists (staged acc ++ [mk_change file s0]) (unstaged acc) (conflicted acc)
      else acc in
    s1 <-- str_index status 1 ;;
    let acc :=
      if negb (String.eqb s1 " ")
      then mk_lists (staged acc) (unstaged acc ++ [mk_change file s1]) (conflicted acc)
      else acc in
    let acc :=
      if str_contains "U" status
      then mk_lists (staged acc) (unstaged acc) (conflicted acc ++ [file])
      else acc in
    Done acc.

(** [not xs] for a list. *)
Definition is_empty {A} (xs : list A) : bool :=
  match xs with
  | [] => true
  | _ => false
  end.

(** [git_status], lines 221-259. *)
Definition git_status {W} (sh : Shell W) (repo_path : string) : prog W status_reply :=
  ptry
    (result <~~ run sh ["git"; "status"; "--porcelain"] repo_path ;;
     lists <~~ plift (ofold status_line
                        (str_split newline (str_strip (stdout result)))
                        (mk_lists [] [] [])) ;;
     let is_clean :=
       is_empty (staged lists) && is_empty (unstaged lists)
       && is_empty (conflicted lists) in
     pret (StatusReply is_clean (staged lists) (unstaged lists) (conflicted lists)
             (Z.of_nat (length (staged lists)) + Z.of_nat (length (unstaged lists)))))
    (fun _ msg => pret (StatusFailed ("Failed to get git status: " +:+ msg))).

(** The dictionary [git_add_all] returns: the five keys of lines
    313-319 ([success] is [True]), or the key [error]. *)
Inductive add_reply :=
  | AddReply (files_staged files_excluded : list string)
      (total_staged total_excluded : Z)
  | AddFailed (error : string).

Definition exclude_patterns : list string :=
  [ "target/"; "build/"; ".class"; ".jar"; "__pycache__/"; "*.pyc";
    ".DS_Store"; "node_modules/" ].

(** The inner loop, lines 296-300: some pattern occurs in the file. *)
Fixpoint should_exclude (patterns : list string) (file : string) : bool :=
  match patterns with
  | [] => false
  | pattern :: rest =>
      if str_contains pattern file then true else should_exclude rest file
  end.

(** The body of the outer loop, lines 289-303, on the two lists. *)
Definition add_line (acc : list string * list string) (line : string)
    : list string * list string :=
  let '(files_to_add, excluded_files) := acc in
  if String.eqb line "" then acc
  else
    let file := str_drop 3 line in
    if should_exclude exclude_patterns file
    then (files_to_add, (excluded_files ++ [file])%list)
    else ((files_to_add ++ [file])%list, excluded_files).

(** [git_add_all], lines 262-321. *)
Definition git_add_all {W} (sh : Shell W) (repo_path : string) : prog W add_reply :=
  ptry
    (status_result <~~ run sh ["git"; "status"; "--porcelain"] repo_path ;;
     let '(files_to_add, excluded_files) :=
       fold_left add_line
         (str_split newline (str_strip (stdout status_result))) ([], []) in
     added <~~ (if is_empty files_to_add then pret tt
                else (added <~~ run sh ("git" :: "add" :: files_to_add) repo_path ;;
                      pret tt)) ;;
     pret (AddReply files_to_add excluded_files
             (Z.of_nat (length files_to_add)) (Z.of_nat (length excluded_files))))
    (fun _ msg => pret (AddFailed ("Failed to stage changes: " +:+ msg))).

(** The dictionary [git_push] returns. *)
Inductive push_reply :=
  | PushWarning (warning branch : string)
  | PushDone (message push_output : string)
  | PushRejected (error : string)
  | PushFailed (error : string).

Definition protected_branches : list string := ["main"; "master"].

(** [x in xs] for a list of strings. *)
Definition str_in (x : string) (xs : list string) : bool :=
  existsb (String.eqb x) xs.

(** [git_push], lines 361-403.  [branch] is [None], or a string. *)
Definition git_push {W} (sh : Shell W) (repo_path remote : string)
    (branch : option string) : prog W push_reply :=
  ptry
    (branch <~~
       (match branch with
        | Some b =>
            if String.eqb b "" then
              (branch_result <~~
                 run sh ["git"; "rev-parse"; "--abbrev-ref"; "HEAD"] repo_path ;;
               pret (str_strip (stdout branch_result)))
            else pret b
        | None =>
            (branch_result <~~
               run sh ["git"; "rev-parse"; "--abbrev-ref"; "HEAD"] repo_path ;;
             pret (str_strip (stdout branch_result)))
        end) ;;
     if str_in branch protected_branches then
       pret (PushWarning
               ("Branch '" +:+ branch +:+
                "' is protected. Consider creating a pull request instead.")
               branch)
     else
       (result <~~ run sh ["git"; "push"; "-u"; remote; branch] repo_path ;;
        if returncode result =? 0 then
          pret (PushDone
                  ("Successfully pushed '" +:+ branch +:+ "' to '" +:+ remote +:+ "'")
                  (str_strip (stdout result)))
        else
          pret (PushRejected
                  (if String.eqb (stderr result) "" then "Push failed"
                   else str_strip (stderr result)))))
    (fun _ msg => pret (PushFailed ("Failed to push: " +:+ msg))).

(** What the loop of [git_status] keeps: every conflicted file is the
    file of a staged or of an unstaged change. *)
Definition conflicts_counted (acc : status_lists) : Prop :=
  forall f, f ∈ conflicted acc ->
    exists c, c ∈ (staged acc ++ unstaged acc)%list /\ change_file c = f.

(** Every character of the string satisfies [p]. *)
Fixpoint str_all (p : ascii -> bool) (s : string) : bool :=
  match s with
  | EmptyString => true
  | String c rest => p c && str_all p rest
  end.

(** A shell for the examples: every command prints [out] and succeeds. *)
Definition printing_shell (out : string) : Shell unit :=
  {| subprocess_run := fun _ _ w => (Done (mk_completed 0 out ""), w) |}.

(** The dictionary [git_pull_request] returns: the key [error]; the
    keys of a created pull request ([success] is [True]); or the note
    and the steps for a manual one ([success] is [False]). *)
Inductive pr_reply :=
  | PrError (error : string)
  | PrCreated (message pr_url base_branch head_branch : string)
  | PrManual (note : string) (steps : list string).

(** The string of one character [\n]. *)
Definition nl : string := String newline "".

(** [f"{coverage.get(key, 'N/A')}"], with [fmt] the conversion of a
    value to text. *)
Definition coverage_text (fmt : pyval -> string) (coverage : gmap string pyval)
    (key : string) : string :=
  match coverage !! key with
  | Some v => fmt v
  | None => "N/A"
  end.

(** The body of the pull request, lines 424-436. *)
Definition pr_body_text (fmt : pyval -> string) (body : string)
    (coverage : option (gmap string pyval)) : string :=
  let pr_body :=
    if String.eqb body "" then
      "## Changes" +:+ nl +:+
      "- Automated test generation and coverage improvements" +:+ nl
    else body in
  let pr_body :=
    match coverage with
    | Some d =>
        if bool_decide (d = ∅) then pr_body
        else
          pr_body +:+ nl +:+ "## Coverage Improvements" +:+ nl
          +:+ "- **Line Coverage**: " +:+ coverage_text fmt d "line_coverage"
          +:+ "%" +:+ nl
          +:+ "- **Branch Coverage**: " +:+ coverage_text fmt d "branch_coverage"
          +:+ "%" +:+ nl
          +:+ "- **Method Coverage**: " +:+ coverage_text fmt d "method_coverage"
          +:+ "%" +:+ nl
          +:+ "- **Instruction Coverage**: "
          +:+ coverage_text fmt d "instruction_coverage" +:+ "%" +:+ nl
    | None => pr_body
    end in
  pr_body +:+ nl +:+ "## Test Quality Metrics" +:+ nl
  +:+ "- All tests pass" +:+ nl
  +:+ "- Generated by AI Testing Agent" +:+ nl
  +:+ "- Coverage gaps identified and addressed" +:+ nl.

(** The title, lines 444 and 470. *)
Definition pr_title_text (title current_branch : string) : string :=
  if String.eqb title "" then "Test Coverage Improvement: " +:+ current_branch
  else title.

(** The command of lines 439-450. *)
Definition gh_pr_create (base current_branch pr_title pr_body : string) : list string :=
  [ "gh"; "pr"; "create"; "--base"; base; "--head"; current_branch;
    "--title"; pr_title; "--body"; pr_body ].

(** [git_pull_request], lines 407-476. *)
Definition git_pull_request {W} (sh : Shell W) (fmt : pyval -> string)
    (repo_path base title body : string) (coverage : option (gmap string pyval))
    : prog W pr_reply :=
  ptry
    (branch_result <~~
       run sh ["git"; "rev-parse"; "--abbrev-ref"; "HEAD"] repo_path ;;
     let current_branch := str_strip (stdout branch_result) in
     if String.eqb current_branch base then
       pret (PrError ("Cannot create PR from '" +:+ base +:+ "' to itself"))
     else
       let pr_body := pr_body_text fmt body coverage in
       let pr_title := pr_title_text title current_branch in
       (result <~~
          run sh (gh_pr_create base current_branch pr_title pr_body) repo_path ;;
        if returncode result =? 0 then
          pret (PrCreated "Pull request created successfully"
                  (str_strip (stdout result)) base current_branch)
        else
          pret (PrManual "GitHub CLI (gh) not found. Manual PR creation required."
                  [ "1. Push your branch: git push -u origin " +:+ current_branch;
                    "2. Open GitHub and create PR from '" +:+ current_branch
                    +:+ "' to '" +:+ base +:+ "'";
                    "3. Use this title: " +:+ pr_title;
                    "4. Paste this description: " +:+ pr_body ])))
    (fun _ msg => pret (PrError ("Failed to create PR: " +:+ msg))).

(** The files of the lines of a porcelain output, as [git_add_all]
    reads them. *)
Definition porcelain_files (out : string) : list string :=
  str_drop 3 <$> filter (fun line => line <> "") (str_split newline (str_strip out)).

(** A shell for the examples, with a current branch: [git rev-parse]
    prints it; every other command fails with code 1. *)
Definition branch_shell (current : string) : Shell unit :=
  {| subprocess_run := fun args _ w =>
       match args with
       | "git" :: "rev-parse" :: _ => (Done (mk_completed 0 (current +:+ nl) ""), w)
       | _ => (Done (mk_completed 1 "" "rejected"), w)
       end |}.


(** ** Regular expressions

    The patterns of the tools are built from literals, repetitions of
    one character class, sequences, alternatives, an optional group
    and capturing groups.  The matcher tries the choices in the order
    of Python's [re]: the first alternative first, the longest run of a
    greedy repetition first, the shortest of a lazy one first, and it
    returns the first choice with which the rest of the pattern, the
    continuation [k], succeeds. *)

(** The class [\w] of [re]. *)
Definition is_word (c : ascii) : bool :=
  let n := Z.of_nat (nat_of_ascii c) in
  ((48 <=? n) && (n <=? 57)) || ((65 <=? n) && (n <=? 90)) || (n =? 95)
  || ((97 <=? n) && (n <=? 122)) || (n =? 170) || ((178 <=? n) && (n <=? 179))
  || (n =? 181) || ((185 <=? n) && (n <=? 186)) || ((188 <=? n) && (n <=? 190))
  || ((192 <=? n) && (n <=? 214)) || ((216 <=? n) && (n <=? 246))
  || ((248 <=? n) && (n <=? 255)).

(** The lower case of a character, as [re.IGNORECASE] compares. *)
Definition lower (c : ascii) : ascii :=
  let n := nat_of_ascii c in
  if ((65 <=? n) && (n <=? 90))%nat
     || ((192 <=? n) && (n <=? 222) && negb (n =? 215))%nat
  then ascii_of_nat (n + 32)
  else c.

(** [lit] opens [s], exactly or ignoring case: what follows it. *)
Fixpoint after_literal (ignorecase : bool) (lit s : string) : option string :=
  match lit, s with
  | EmptyString, _ => Some s
  | String a lit', String b s' =>
      if (if ignorecase then Ascii.eqb (lower a) (lower b) else Ascii.eqb a b)
      then after_literal ignorecase lit' s'
      else None
  | String _ _, EmptyString => None
  end.

Inductive regex :=
  | Lit (ignorecase : bool) (lit : string)
  | Rep (lazy : bool) (min : nat) (cls : ascii -> bool)
  | Seq (r1 r2 : regex)
  | Alt (r1 r2 : regex)
  | Opt (r : regex)
  | Group (r : regex).

(** [first] unless it fails, then [second]. *)
Definition or_else {A} (first second : option A) : option A :=
  match first with
  | Some a => Some a
  | None => second
  end.

(** A repetition of the class [cls], at least [min] times. *)
Fixpoint rep {A} (lazy : bool) (cls : ascii -> bool) (min : nat) (s : string)
    (k : string -> option A) : option A :=
  let stop := match min with O => k s | S _ => None end in
  match s with
  | String c rest =>
      if cls c then
        if lazy then or_else stop (rep lazy cls (pred min) rest k)
        else or_else (rep lazy cls (pred min) rest k) stop
      else stop
  | EmptyString => stop
  end.

(** What was consumed between [s] and its suffix [rest]. *)
Definition consumed (s rest : string) : string :=
  str_take (String.length s - String.length rest) s.

(** [rmatch r s caps k]: match [r] at the start of [s].  [caps] holds
    the texts of the groups closed so far; in the patterns of the tools
    no group is nested or optional, so that they come in the order of
    their numbers. *)
Fixpoint rmatch {A} (r : regex) (s : string) (caps : list string)
    (k : string -> list string -> option A) : option A :=
  match r with
  | Lit ignorecase lit =>
      match after_literal ignorecase lit s with
      | Some rest => k rest caps
      | None => None
      end
  | Rep lazy min cls => rep lazy cls min s (fun rest => k rest caps)
  | Seq r1 r2 => rmatch r1 s caps (fun s1 caps1 => rmatch r2 s1 caps1 k)
  | Alt r1 r2 => or_else (rmatch r1 s caps k) (rmatch r2 s caps k)
  | Opt r1 => or_else (rmatch r1 s caps k) (k s caps)
  | Group r1 =>
      rmatch r1 s caps (fun rest caps1 => k rest (caps1 ++ [consumed s rest])%list)
  end.

(** A match object: [start()], [group(0)], the other groups, and the
    text after [end()]. *)
Record match_object := mk_match {
  m_start : nat;
  m_text : string;
  m_groups : list string;
  m_rest : string
}.

(** A match of [r] that starts at the start of [s], which is at
    position [pos]. *)
Definition match_here (r : regex) (pos : nat) (s : string) : option match_object :=
  rmatch r s [] (fun rest caps => Some (mk_match pos (consumed s rest) caps rest)).

(** [re.search]: the match at the leftmost position that has one. *)
Fixpoint search_from (r : regex) (pos : nat) (s : string) : option match_object :=
  or_else (match_here r pos s)
    match s with
    | String _ rest => search_from r (S pos) rest
    | EmptyString => None
    end.

Definition re_search (r : regex) (content : string) : option match_object :=
  search_from r 0 content.

(** [re.finditer]: the matches from left to right, each search starting
    where the match before ended.  [skip] counts the characters of the
    last match that are still to be passed.  (No pattern of the tools
    matches the empty string; after an empty match this search moves on
    by one character.) *)
Fixpoint finditer_from (r : regex) (skip pos : nat) (s : string) : list match_object :=
  match skip with
  | S skip' =>
      match s with
      | String _ rest => finditer_from r skip' (S pos) rest
      | EmptyString => []
      end
  | O =>
      match match_here r pos s with
      | Some m =>
          m :: match s with
               | String _ rest =>
                   finditer_from r (pred (String.length (m_text m))) (S pos) rest
               | EmptyString => []
               end
      | None =>
          match s with
          | String _ rest => finditer_from r O (S pos) rest
          | EmptyString => []
          end
      end
  end.

Definition re_finditer (r : regex) (content : string) : list match_object :=
  finditer_from r 0 0 content.

(** [match.group(n)] for [n] at least 1. *)
Definition group (m : match_object) (n : nat) : string :=
  nth (pred n) (m_groups m) "".

(** The double quote character. *)
Definition double_quote : ascii := "034"%char.

(** The character classes of the patterns. *)
Definition not_close_paren (c : ascii) : bool := negb (Ascii.eqb c ")").
Definition not_newline (c : ascii) : bool := negb (Ascii.eqb c newline).
Definition any_char (c : ascii) : bool := true.
Definition word_or_dot (c : ascii) : bool := is_word c || Ascii.eqb c ".".

(** [r1 r2 ... rn] *)
Fixpoint seq (rs : list regex) : regex :=
  match rs with
  | [] => Lit false ""
  | [r] => r
  | r :: rest => Seq r (seq rest)
  end.

(** [(public|private|protected)] *)
Definition visibility : regex :=
  Group (Alt (Lit false "public") (Alt (Lit false "private") (Lit false "protected"))).

(** [(public|private|protected)\s+(?:static\s+)?(\w+)\s+(\w+)\s*\([^)]*\)],
    lines 62 and 487. *)
Definition method_pattern : regex :=
  seq [ visibility; Rep false 1 is_space;
        Opt (Seq (Lit false "static") (Rep false 1 is_space));
        Group (Rep false 1 is_word); Rep false 1 is_space;
        Group (Rep false 1 is_word); Rep false 0 is_space;
        Lit false "("; Rep false 0 not_close_paren; Lit false ")" ].

(** [(public|private|protected)\s+\w+\s+(\w+)\s*\([^)]*\)\s*\{], line 560. *)
Definition long_method_pattern : regex :=
  seq [ visibility; Rep false 1 is_space; Rep false 1 is_word;
        Rep false 1 is_space; Group (Rep false 1 is_word); Rep false 0 is_space;
        Lit false "("; Rep false 0 not_close_paren; Lit false ")";
        Rep false 0 is_space; Lit false "{" ].

(** The pattern of line 572, with [re.IGNORECASE]: a double quote, then
    [.*\+.*SELECT], or else [UPDATE], or else [DELETE]. *)
Definition sql_pattern : regex :=
  Alt (seq [ Lit true (String double_quote ""); Rep false 0 not_newline; Lit true "+";
             Rep false 0 not_newline; Lit true "SELECT" ])
      (Alt (Lit true "UPDATE") (Lit true "DELETE")).

(** [System\.out\.println|printStackTrace], line 576. *)
Definition logging_pattern : regex :=
  Alt (Lit false "System.out.println") (Lit false "printStackTrace").

(** [Runtime\.getRuntime\(\)\.exec], line 580. *)
Definition exec_pattern : regex := Lit false "Runtime.getRuntime().exec".

(** [public\s+\w+\s+\w+\s*\([^)]*\)], line 584. *)
Definition public_method_pattern : regex :=
  seq [ Lit false "public"; Rep false 1 is_space; Rep false 1 is_word;
        Rep false 1 is_space; Rep false 1 is_word; Rep false 0 is_space;
        Lit false "("; Rep false 0 not_close_paren; Lit false ")" ].

(** [/\*\*.*?\*/] with [re.DOTALL], line 585. *)
Definition javadoc_pattern : regex :=
  seq [ Lit false "/**"; Rep true 0 any_char; Lit false "*/" ].

(** [import\s+([\w.]+);], line 590. *)
Definition import_pattern : regex :=
  seq [ Lit false "import"; Rep false 1 is_space; Group (Rep false 1 word_or_dot);
        Lit false ";" ].

(** What a pattern matches: the text [s] is matched by [r], closing the
    groups with the texts [caps]. *)
Inductive matches : regex -> string -> list string -> Prop :=
  | matches_lit ignorecase lit s :
      after_literal ignorecase lit s = Some "" -> matches (Lit ignorecase lit) s []
  | matches_rep lazy min cls s :
      str_all cls s = true -> (min <= String.length s)%nat ->
      matches (Rep lazy min cls) s []
  | matches_seq r1 r2 s1 s2 caps1 caps2 :
      matches r1 s1 caps1 -> matches r2 s2 caps2 ->
      matches (Seq r1 r2) (s1 +:+ s2) (caps1 ++ caps2)
  | matches_alt_left r1 r2 s caps : matches r1 s caps -> matches (Alt r1 r2) s caps
  | matches_alt_right r1 r2 s caps : matches r2 s caps -> matches (Alt r1 r2) s caps
  | matches_opt_some r s caps : matches r s caps -> matches (Opt r) s caps
  | matches_opt_none r : matches (Opt r) "" []
  | matches_group r s caps : matches r s caps -> matches (Group r) s (caps ++ [s]).

(** ** Dictionaries in the order of their keys *)

(** [d[k] = v] on a dictionary kept as the list of its items: the value
    of a key that is present is replaced where it stands, a new key is
    put last. *)
Fixpoint odict_set {K V} `{EqDecision K} (k : K) (v : V) (d : list (K * V))
    : list (K * V) :=
  match d with
  | [] => [(k, v)]
  | (k', v') :: rest =>
      if decide (k = k') then (k, v) :: rest else (k', v') :: odict_set k v rest
  end.

(** The elements of a list without repetition, each at the place of
    its first occurrence. *)
Fixpoint first_occurrences {K} `{EqDecision K} (seen : list K) (ks : list K) : list K :=
  match ks with
  | [] => []
  | k :: rest =>
      if decide (k ∈ seen) then first_occurrences seen rest
      else k :: first_occurrences (k :: seen) rest
  end.

(** ** Reading a file *)

(** [try: body except FileNotFoundError: ... except Exception as e: ...]. *)
Definition otry {A} (body : outcome A) (not_found : A) (failed : string -> A) : A :=
  match body with
  | Done a => a
  | Raised cls msg =>
      if String.eqb cls "FileNotFoundError" then not_found else failed msg
  end.

(** [s.count(c)] for a character [c]. *)
Fixpoint str_count (c : ascii) (s : string) : nat :=
  match s with
  | EmptyString => O
  | String x rest => if Ascii.eqb x c then S (str_count c rest) else str_count c rest
  end.

(** ** server.py: the analysis of Java sources *)

(** The dictionary [analyze_java_code] returns: the three keys of lines
    74-78, with [methods] in the order of its keys, or the key [error]. *)
Inductive analysis :=
  | Analysis (file : string) (total_methods : Z)
      (methods : list (Z * gmap string pyval))
  | AnalysisError (error : string).

(** [content[:match.start()].count('\n') + 1] *)
Definition line_of (content : string) (m : match_object) : Z :=
  Z.of_nat (str_count newline (str_take (m_start m) content)) + 1.

(** The dictionary of lines 68-72. *)
Definition method_entry (m : match_object) : gmap string pyval :=
  <["name" := PyStr (group m 3)]>
  (<["return_type" := PyStr (group m 2)]>
  (<["signature" := PyStr (m_text m)]> ∅)).

(** The body of the loop, lines 64-72. *)
Definition record_method (content : string) (methods : list (Z * gmap string pyval))
    (m : match_object) : list (Z * gmap string pyval) :=
  odict_set (line_of content m) (method_entry m) methods.

(** [analyze_java_code], lines 53-82.  [open_read] is
    [open(path, 'r').read()]. *)
Definition analyze_java_code (open_read : string -> outcome string)
    (file_path : string) : analysis :=
  otry
    (content <-- open_read file_path ;;
     let methods :=
       fold_left (record_method content) (re_finditer method_pattern content) [] in
     Done (Analysis file_path (Z.of_nat (length methods)) methods))
    (AnalysisError ("File not found: " +:+ file_path))
    (fun msg => AnalysisError ("Analysis failed: " +:+ msg)).

(** [method_info["name"]] *)
Definition subscript_name (method_info : pyval) : outcome pyval :=
  match method_info with
  | PyDict d =>
      match d !! "name" with
      | Some v => Done v
      | None => Raised "KeyError" "'name'"
      end
  | PyStr _ => Raised "TypeError" "string indices must be integers, not 'str'"
  | PyList _ => Raised "TypeError" "list indices must be integers or slices, not str"
  | PyInt _ => Raised "TypeError" "'int' object is not subscriptable"
  | PyFloat _ => Raised "TypeError" "'float' object is not subscriptable"
  end.

(** [method_name.capitalize()], with [capitalize] the method of [str]. *)
Definition call_capitalize (capitalize : string -> string) (method_name : pyval)
    : outcome string :=
  match method_name with
  | PyStr s => Done (capitalize s)
  | PyInt _ => Raised "AttributeError" "'int' object has no attribute 'capitalize'"
  | PyFloat _ => Raised "AttributeError" "'float' object has no attribute 'capitalize'"
  | PyList _ => Raised "AttributeError" "'list' object has no attribute 'capitalize'"
  | PyDict _ => Raised "AttributeError" "'dict' object has no attribute 'capitalize'"
  end.

(** The lines of lines 87-89. *)
Definition template_header (class_name : string) : string :=
  "import org.junit.jupiter.api.Test;" +:+ nl
  +:+ "import static org.junit.jupiter.api.Assertions.*;" +:+ nl +:+ nl
  +:+ "public class " +:+ class_name +:+ "Test {" +:+ nl.

(** The lines of lines 93-97 for a capitalized name. *)
Definition template_test (capitalized : string) : string :=
  "    @Test" +:+ nl
  +:+ "    void test" +:+ capitalized +:+ "() {" +:+ nl
  +:+ "        // Placeholder: Replace with actual test assertions" +:+ nl
  +:+ "        assertTrue(true);" +:+ nl
  +:+ "    }" +:+ nl +:+ nl.

(** The body of the loop, lines 91-97. *)
Definition template_step (capitalize : string -> string) {K} (test_class : string)
    (item : K * pyval) : outcome string :=
  method_name <-- subscript_name (snd item) ;;
  capitalized <-- call_capitalize capitalize method_name ;;
  Done (test_class +:+ template_test capitalized).

(** [generate_test_template], lines 84-100.  [methods] is the list of
    the items of the dictionary, in its order. *)
Definition generate_test_template (capitalize : string -> string) {K}
    (class_name : string) (methods : list (K * pyval)) : outcome string :=
  test_class <-- ofold (template_step capitalize) methods (template_header class_name) ;;
  Done (test_class +:+ "}" +:+ nl).

(** ** codebase/server.py: specification tests and code review *)

(** A test method of lines 500-539: its comment line, if any, its name
    and its body. *)
Definition spec_test (comment : string) (name : string) (body : list string) : string :=
  comment
  +:+ "    @Test" +:+ nl
  +:+ "    void " +:+ name +:+ "() {" +:+ nl
  +:+ String.concat "" ((fun line => "        " +:+ line +:+ nl) <$> body)
  +:+ "    }" +:+ nl +:+ nl.

(** The seven tests of a method, lines 500-539. *)
Definition spec_tests_of (method_name : string) : string :=
  let call := "assertDoesNotThrow(() -> instance." +:+ method_name +:+ "());" in
  spec_test ("    // Boundary Value Analysis" +:+ nl)
    ("test" +:+ method_name +:+ "WithMinValue") [call]
  +:+ spec_test "" ("test" +:+ method_name +:+ "WithMaxValue") [call]
  +:+ spec_test ("    // Equivalence Class Partitioning" +:+ nl)
        ("test" +:+ method_name +:+ "WithValidInput") [call]
  +:+ spec_test "" ("test" +:+ method_name +:+ "WithInvalidInput")
        ["assertThrows(Exception.class, () -> instance." +:+ method_name +:+ "());"]
  +:+ spec_test ("    // Decision Table Testing" +:+ nl)
        ("test" +:+ method_name +:+ "DecisionTable")
        ["boolean condition1 = true;"; "boolean condition2 = false;";
         "assertNotNull(instance);"]
  +:+ spec_test ("    // Contract-Based Testing" +:+ nl)
        ("test" +:+ method_name +:+ "Preconditions") ["assertNotNull(instance);"]
  +:+ spec_test "" ("test" +:+ method_name +:+ "Postconditions") [call].

(** The lines of lines 494-497. *)
Definition spec_header (class_name : string) : string :=
  "import org.junit.jupiter.api.Test;" +:+ nl
  +:+ "import static org.junit.jupiter.api.Assertions.*;" +:+ nl +:+ nl
  +:+ "public class " +:+ class_name +:+ "SpecificationTest {" +:+ nl +:+ nl
  +:+ "    private " +:+ class_name +:+ " instance = new " +:+ class_name +:+ "();"
  +:+ nl +:+ nl.

(** The dictionary of lines 486-492: the return type of each method name. *)
Definition method_types (content : string) : list (string * string) :=
  fold_left (fun methods m => odict_set (group m 3) (group m 2) methods)
    (re_finditer method_pattern content) [].

(** [generate_specification_tests], lines 481-547. *)
Definition generate_specification_tests (open_read : string -> outcome string)
    (java_file_path class_name : string) : string :=
  otry
    (content <-- open_read java_file_path ;;
     let methods := method_types content in
     let test_class :=
       fold_left (fun test_class method_name => test_class +:+ spec_tests_of method_name)
         (take 5 (fst <$> methods)) (spec_header class_name) in
     Done (test_class +:+ "}" +:+ nl))
    ("// File not found: " +:+ java_file_path)
    (fun msg => "// Error: " +:+ msg).

(** An issue of [code_review]: a dictionary with the keys [smell],
    [method], [fix], or [security], [fix], or [style], [fix]. *)
Inductive issue :=
  | Smell (smell method fix_ : string)
  | Security (security fix_ : string)
  | Style (style fix_ : string).

(** The dictionary [code_review] returns. *)
Inductive review :=
  | Review (file : string) (issues : list issue) (total : Z)
  | ReviewError (error : string).

(** The loop of lines 563-567 on the text after the match: the count
    of lines when it stops. *)
Fixpoint count_lines (brace lines : Z) (s : string) : Z :=
  match s with
  | EmptyString => lines
  | String c rest =>
      if brace >? 0 then
        if Ascii.eqb c "{" then count_lines (brace + 1) lines rest
        else if Ascii.eqb c "}" then count_lines (brace - 1) lines rest
        else if Ascii.eqb c newline then count_lines brace (lines + 1) rest
        else count_lines brace lines rest
      else lines
  end.

(** [str(n)] for an integer. *)
Definition str_of_int (n : Z) : string := NilZero.string_of_int (Z.to_int n).

(** [i.split('.')[-1]] *)
Definition last_segment (i : string) : string := List.last (str_split "." i) "".

(** The issues of lines 559-569. *)
Definition long_method_issues (content : string) : list issue :=
  flat_map
    (fun m =>
       if count_lines 1 1 (m_rest m) >? 50
       then [Smell "Long Method" (group m 2) "Extract methods"] else [])
    (re_finditer long_method_pattern content).

(** The issue of lines 571-581, if the pattern is found. *)
Definition search_issue (r : regex) (content : string) (found : issue) : list issue :=
  match re_search r content with
  | Some _ => [found]
  | None => []
  end.

(** The issue of lines 583-587. *)
Definition documentation_issues (content : string) : list issue :=
  let methods := Z.of_nat (length (re_finditer public_method_pattern content)) in
  let docs := Z.of_nat (length (re_finditer javadoc_pattern content)) in
  if methods >? docs
  then [Style "Missing Documentation"
          ("Add " +:+ str_of_int (methods - docs) +:+ " Javadoc comments")]
  else [].

(** The imports of line 590 and those of line 591. *)
Definition imports_of (content : string) : list string :=
  (fun m => group m 1) <$> re_finditer import_pattern content.

Definition unused_imports (content : string) : list string :=
  List.filter (fun i => negb (str_contains (last_segment i) content)) (imports_of content).

(** The issue of lines 589-593. *)
Definition import_issues (content : string) : list issue :=
  match unused_imports content with
  | [] => []
  | unused =>
      [Style "Unused Imports"
         ("Remove " +:+ str_of_int (Z.of_nat (length unused)) +:+ " imports")]
  end.

(** The list [issues] at line 595. *)
Definition review_issues (content : string) : list issue :=
  (long_method_issues content
   ++ search_issue sql_pattern content
        (Security "SQL Injection" "Use PreparedStatement")
   ++ search_issue logging_pattern content
        (Security "Insecure Logging" "Use logger.info()")
   ++ search_issue exec_pattern content
        (Security "Command Injection" "Validate input")
   ++ documentation_issues content
   ++ import_issues content)%list.

(** [code_review], lines 551-600. *)
Definition code_review (open_read : string -> outcome string) (file_path : string)
    : review :=
  otry
    (content <-- open_read file_path ;;
     let issues := review_issues content in
     Done (Review file_path issues (Z.of_nat (length issues))))
    (ReviewError ("File not found: " +:+ file_path))
    (fun msg => ReviewError msg).

(** [s.lower()]. *)
Fixpoint str_lower (s : string) : string :=
  match s with
  | EmptyString => EmptyString
  | String c rest => String (lower c) (str_lower rest)
  end.

(** The texts that the pattern of line 572 matches: [update] or
    [delete] in any letter case, or a double quote, a [+] later on its
    line and [select], in any letter case, later on that line. *)
Definition sql_text (text : string) : Prop :=
  str_lower text = "update" \/ str_lower text = "delete"
  \/ exists a b sel,
       text = String double_quote a +:+ "+" +:+ b +:+ sel
       /\ str_all not_newline a = true /\ str_all not_newline b = true
       /\ str_lower sel = "select".

(** A name of Java as the patterns see it: characters of [\w], at
    least one. *)
Definition is_name (s : string) : Prop := str_all is_word s = true /\ s <> "".

(** White space: characters of [\s]. *)
Definition is_blank (s : string) : Prop := str_all is_space s = true.

(** The texts that the pattern of line 62 matches, with the texts of
    its second and third groups: a visibility, white space, [static]
    and white space or nothing, a name, white space, a name, white space
    or nothing, and a pair of parentheses with no closing parenthesis
    between them. *)
Definition is_signature (signature return_type name : string) : Prop :=
  exists visibility gap1 static_ gap2 gap3 params,
    signature = visibility +:+ gap1 +:+ static_ +:+ return_type +:+ gap2
                +:+ name +:+ gap3 +:+ "(" +:+ params +:+ ")"
    /\ visibility ∈ ["public"; "private"; "protected"]
    /\ is_blank gap1 /\ gap1 <> ""
    /\ (static_ = "" \/ exists gap, static_ = "static" +:+ gap /\ is_blank gap /\ gap <> "")
    /\ is_name return_type /\ is_blank gap2 /\ gap2 <> ""
    /\ is_name name /\ is_blank gap3
    /\ str_all not_close_paren params = true.

(** A file system for the examples: one file. *)
Definition one_file (path content : string) : string -> outcome string :=
  fun p =>
    if String.eqb p path then Done content
    else Raised "FileNotFoundError"
           ("[Errno 2] No such file or directory: '" +:+ p +:+ "'").


(** ** codebase/server.py: the commit *)

(** The dictionary [git_commit] returns: the keys of a commit that was
    made ([success] is [True]); [success] [False] and [error]; or the
    key [error] alone. *)
Inductive commit_reply :=
  | CommitDone (message commit_output : string)
  | CommitRejected (error : string)
  | CommitFailed (error : string).

(** The text of lines 330-335 for the four values. *)
Definition coverage_report (line branch method instruction : string) : string :=
  nl +:+ nl +:+ "[Coverage Report]" +:+ nl
  +:+ "Line Coverage: " +:+ line +:+ "%" +:+ nl
  +:+ "Branch Coverage: " +:+ branch +:+ "%" +:+ nl
  +:+ "Method Coverage: " +:+ method +:+ "%" +:+ nl
  +:+ "Instruction Coverage: " +:+ instruction +:+ "%".

(** [commit_msg], lines 327-336. *)
Definition commit_msg_text (fmt : pyval -> string) (message : string)
    (coverage : option (gmap string pyval)) : string :=
  match coverage with
  | Some d =>
      if bool_decide (d = ∅) then message
      else
        message
        +:+ coverage_report (coverage_text fmt d "line_coverage")
              (coverage_text fmt d "branch_coverage")
              (coverage_text fmt d "method_coverage")
              (coverage_text fmt d "instruction_coverage")
  | None => message
  end.

(** [git_commit], lines 324-358. *)
Definition git_commit {W} (sh : Shell W) (fmt : pyval -> string)
    (repo_path message : string) (coverage : option (gmap string pyval))
    : prog W commit_reply :=
  ptry
    (let commit_msg := commit_msg_text fmt message coverage in
     result <~~ run sh ["git"; "commit"; "-m"; commit_msg] repo_path ;;
     if returncode result =? 0 then
       pret (CommitDone "Commit successful" (str_strip (stdout result)))
     else
       pret (CommitRejected
               (if String.eqb (stderr result) "" then "No changes to commit"
                else str_strip (stderr result))))
    (fun _ msg => pret (CommitFailed ("Failed to commit: " +:+ msg))).

(** A value that [total_coverage] leaves under a key: the default [0]
    or a float. *)
Definition percent_value (v : pyval) : Prop := v = PyInt 0 \/ exists p, v = PyFloat p.

(** The four percentages with the one of kind [k] replaced. *)
Definition with_kind (v : counter_kind -> pyval) (k : counter_kind) (x : pyval)
    : counter_kind -> pyval :=
  fun k' =>
    match k, k' with
    | LINE, LINE | BRANCH, BRANCH | METHOD, METHOD | INSTRUCTION, INSTRUCTION => x
    | _, _ => v k'
    end.

(** What a loop of [total_coverage] keeps: the four keys, each with
    the default or a float. *)
Definition percentages (data : gmap string pyval) : Prop :=
  exists v, data = coverage_dict v /\ forall k, percent_value (v k).


(** ** Examples for the tools on Java sources *)

(** A class with an import that nothing uses, two methods that start
    on one line, a call of [System.out.println] and the word
    [updated]. *)
Definition java_counter : string :=
  "import java.util.List;" +:+ nl
  +:+ "public class Counter {" +:+ nl
  +:+ "  public int bump(int by) { updated += by; return updated; }"
  +:+ "  public void log() { System.out.println(updated); }" +:+ nl
  +:+ "  private static void reset() {}" +:+ nl
  +:+ "}" +:+ nl.

(** The file system of the examples: [Counter.java] alone. *)
Definition counter_files : string -> outcome string :=
  one_file "Counter.java" java_counter.

(** The methods that [analyze_java_code] reports for it. *)
Definition counter_methods : list (Z * gmap string pyval) :=
  [ (3, <["name" := PyStr "log"]>
          (<["return_type" := PyStr "void"]>
             (<["signature" := PyStr "public void log()"]> ∅)));
    (4, <["name" := PyStr "reset"]>
          (<["return_type" := PyStr "void"]>
             (<["signature" := PyStr "private static void reset()"]> ∅))) ].

(** A [sourcefile] entry with a line that has no [nr]. *)
Definition sourcefile_unnumbered_line : Element :=
  mkElement "sourcefile" {[ "name" := "Calc.java" ]}
    [ line_node "12" "0" "0"; mkElement "line" {[ "ci" := "0" ]} [] ].

Definition report_unnumbered_line : Element :=
  mkElement "report" ∅ [mkElement "package" ∅ [sourcefile_unnumbered_line]].


(** * Properties *)

(** ** Strings *)

Lemma prefix_app (a b : string) :
  String.prefix a b = true <-> exists rest, b = a +:+ rest.
Proof.
  revert b. induction a as [|c a IH]; intros b; simpl.
  - split; [intros _; exists b; reflexivity | intros _; destruct b; reflexivity].
  - destruct b as [|c' b]; simpl.
    + split; [discriminate | intros [rest H]; discriminate].
    + destruct (ascii_dec c c') as [->|Hne].
      * rewrite IH. split; intros [rest H]; exists rest.
        -- rewrite H. reflexivity.
        -- change (String c' b = String c' (a +:+ rest)) in H. congruence.
      * split; [discriminate|]. intros [rest H].
        change (String c' b = String c (a +:+ rest)) in H. congruence.
Qed.

Lemma str_app_empty (s : string) : s +:+ "" = s.
Proof.
  induction s as [|c s IH]; [reflexivity|].
  change (String c (s +:+ "") = String c s). congruence.
Qed.

Lemma str_contains_substring (needle hay : string) :
  str_contains needle hay = true <-> substring_of needle hay.
Proof.
  unfold substring_of. induction hay as [|c hay IH].
  - cbn [str_contains]. rewrite orb_false_r, prefix_app. split.
    + intros [rest H]. exists "", rest. exact H.
    + intros (before & after & H). destruct before; [|discriminate].
      exists after. exact H.
  - cbn [str_contains]. rewrite orb_true_iff, IH, prefix_app. split.
    + intros [[rest H] | (before & after & H)].
      * exists "", rest. exact H.
      * exists (String c before), after. rewrite H. reflexivity.
    + intros (before & after & H). destruct before as [|c' before].
      * left. exists after. exact H.
      * right. exists before, after.
        change (String c hay = String c' (before +:+ needle +:+ after)) in H.
        congruence.
Qed.

(** ** Exceptions and loops *)

Lemma for_each_app {A S} (step : S -> A -> result S) (xs ys : list A) (acc : S) :
  for_each step (xs ++ ys) acc = (acc' <- for_each step xs acc ;; for_each step ys acc').
Proof.
  revert acc. induction xs as [|x xs IH]; intros acc; simpl; [reflexivity|].
  destruct (step acc x); simpl; [apply IH | reflexivity].
Qed.

(** ** Integer division *)

Lemma overflow_threshold_gt_1 : 1 < overflow_threshold.
Proof. reflexivity. Qed.

(** A share of a positive total is never out of the range of a float. *)
Lemma percentage_of_share (covered missed : Z) :
  0 <= covered -> 0 <= missed -> 0 < covered + missed ->
  exists p, percentage covered (covered + missed) = Ret p.
Proof.
  intros Hc Hm Ht. unfold percentage, int_truediv.
  pose proof overflow_threshold_gt_1 as Hthr.
  destruct (Z.eqb_spec (covered + missed) 0) as [?|_]; [lia|].
  destruct (Z.leb_spec (overflow_threshold * Z.abs (covered + missed)) (Z.abs covered))
    as [Hle|_]; [nia|].
  destruct (covered =? 0); simpl; eauto.
Qed.

(** ** The loops of [total_coverage] *)

Section CoverageLoop.
Context (h : Host).

Lemma count_counter_ok key data counter :
  counter_ok h counter = true ->
  count_counter h key data counter =
    Ret (if positive_total h counter
         then match stored h counter with
              | Some v => <[key := v]> data
              | None => data
              end
         else data).
Proof.
  unfold counter_ok, count_counter, positive_total, stored, counts.
  destruct (py_int h (get counter "covered" _)) as [covered|]; simpl; [|discriminate].
  destruct (py_int h (get counter "missed" _)) as [missed|]; simpl; [|discriminate].
  intros [Hc Hm]%andb_true_iff. apply Z.leb_le in Hc, Hm.
  destruct (Z.ltb_spec 0 (covered + missed)) as [Ht|_]; [|reflexivity].
  destruct (percentage_of_share covered missed Hc Hm Ht) as [p ->]. reflexivity.
Qed.

Lemma stored_positive counter :
  counter_ok h counter = true -> positive_total h counter = true ->
  exists p, stored h counter = Some (PyFloat p).
Proof.
  unfold counter_ok, positive_total, stored.
  destruct (counts h counter) as [[covered missed]|]; [|discriminate].
  intros [Hc Hm]%andb_true_iff Ht. apply Z.leb_le in Hc, Hm. rewrite Ht.
  apply Z.ltb_lt in Ht.
  destruct (percentage_of_share covered missed Hc Hm Ht) as [p ->]. eauto.
Qed.

Lemma for_each_count_counter key cs data before :
  forallb (counter_ok h) cs = true ->
  data !! key = Some before ->
  for_each (count_counter h key) cs data = Ret (<[key := after_loop h cs before]> data).
Proof.
  revert data before. induction cs as [|c cs IH]; intros data before Hok Hkey.
  - cbn. rewrite insert_id by assumption. reflexivity.
  - cbn [forallb] in Hok. apply andb_true_iff in Hok as [Hc Hcs].
    cbn [for_each]. rewrite (count_counter_ok _ _ _ Hc). cbn [bind].
    unfold after_loop. rewrite filter_cons.
    destruct (positive_total h c) eqn:Hpos.
    + destruct (stored_positive c Hc Hpos) as [p Hp]. rewrite Hp.
      rewrite (IH _ (PyFloat p)); [|assumption|apply lookup_insert_eq].
      rewrite insert_insert_eq. f_equal. f_equal.
      rewrite decide_True by reflexivity. unfold after_loop.
      destruct (filter _ cs) as [|c' l] eqn:Hf.
      * cbn. rewrite Hp. reflexivity.
      * rewrite last_cons_cons.
        destruct (last (c' :: l)) as [x|] eqn:Hlast;
          [|apply last_None in Hlast; discriminate].
        assert (Hx : x ∈ filter (fun c => positive_total h c = true) cs)
          by (rewrite Hf; apply last_Some_elem_of, Hlast).
        apply list_elem_of_filter in Hx as [Hxpos Hxin].
        assert (Hxok : counter_ok h x = true).
        { apply Is_true_true. apply Is_true_true, forallb_True in Hcs.
          rewrite Forall_forall in Hcs. apply Hcs, Hxin. }
        destruct (stored_positive x Hxok Hxpos) as [q ->]. reflexivity.
    + rewrite (IH _ before) by assumption. rewrite decide_False by discriminate.
      reflexivity.
Qed.

End CoverageLoop.


Lemma well_formed_counters (h : Host) (root : Element) (k : counter_kind) :
  well_formed_report h root = true -> forallb (counter_ok h) (counters root k) = true.
Proof.
  unfold well_formed_report, all_kinds. cbn [forallb].
  rewrite !andb_true_iff. intros (H1 & H2 & H3 & H4 & _). destruct k; assumption.
Qed.


(** The dictionary [total_coverage] returns for a report that is
    located, parsed and well formed. *)
Lemma total_coverage_data (h : Host) (project_path : string) (root : Element) :
  report_located h project_path ->
  ET_parse h (find_jacoco_path h project_path) = Ret root ->
  well_formed_report h root = true ->
  total_coverage h project_path =
    Ret (coverage_dict (fun k => after_loop h (counters root k) (PyInt 0))).
Proof.
  intros Hloc Hparse Hwf. unfold total_coverage. cbv zeta.
  rewrite Hloc, Hparse. cbn [bind].
  pose proof (fun k => well_formed_counters h root k Hwf) as Hok.
  unfold counters in Hok.
  rewrite (for_each_count_counter h "line_coverage" _ _ (PyInt 0));
    [|apply (Hok LINE)|reflexivity]. cbn [bind].
  rewrite (for_each_count_counter h "branch_coverage" _ _ (PyInt 0));
    [|apply (Hok BRANCH)|reflexivity]. cbn [bind].
  rewrite (for_each_count_counter h "method_coverage" _ _ (PyInt 0));
    [|apply (Hok METHOD)|reflexivity]. cbn [bind].
  rewrite (for_each_count_counter h "instruction_coverage" _ _ (PyInt 0));
    [|apply (Hok INSTRUCTION)|reflexivity]. cbn [bind try_except].
  reflexivity.
Qed.

Lemma coverage_dict_lookup (v : counter_kind -> pyval) (k : counter_kind) :
  coverage_dict v !! kind_key k = Some (v k).
Proof. destruct k; reflexivity. Qed.

Lemma coverage_dict_no_error (v : counter_kind -> pyval) :
  coverage_dict v !! "error" = None.
Proof. reflexivity. Qed.

(** Whatever the host does, [total_coverage] returns a dictionary. *)
Lemma total_coverage_returns (h : Host) (project_path : string) :
  exists data, total_coverage h project_path = Ret data.
Proof.
  unfold total_coverage. cbv zeta.
  destruct (str_contains _ _); [eauto|].
  match goal with |- exists d, try_except ?b _ = _ => destruct b as [d|e] end;
    cbn [try_except]; [eauto|].
  destruct (exn_cls e); eauto.
Qed.

(** ** Searching the document *)







(** ** Claims about [total_coverage] *)



(** C2. When the located report is not well-formed XML, so that the
    parser raises [ParseError] with message [msg], [total_coverage]
    returns the dictionary whose only key [error] carries the parser's
    message, and raises nothing past the call. *)
Theorem total_coverage_malformed_report
    (h : Host) (project_path : string) (msg : string) :
  report_located h project_path ->
  ET_parse h (find_jacoco_path h project_path) = Raise (mk_exn ParseError msg) ->
  total_coverage h project_path =
    Ret {[ "error" := PyStr ("Invalid JaCoCo XML: " +:+ msg) ]} /\
  substring_of msg ("Invalid JaCoCo XML: " +:+ msg) /\
  forall e, total_coverage h project_path <> Raise e.
Proof.
  intros Hloc Hparse.
  assert (Hres : total_coverage h project_path =
                 Ret {[ "error" := PyStr ("Invalid JaCoCo XML: " +:+ msg) ]}).
  { unfold total_coverage. cbv zeta. rewrite Hloc, Hparse. reflexivity. }
  split; [exact Hres|]. split.
  - exists "Invalid JaCoCo XML: ", "". rewrite str_app_empty. reflexivity.
  - intros e. rewrite Hres. discriminate.
Qed.

Lemma total_coverage_malformed_report_witness :
  let msg := "no element found: line 1, column 8" in
  let h := project_with (Raise (mk_exn ParseError msg)) in
  report_located h "proj" /\
  ET_parse h (find_jacoco_path h "proj") = Raise (mk_exn ParseError msg) /\
  total_coverage h "proj" =
    Ret {[ "error" := PyStr ("Invalid JaCoCo XML: " +:+ msg) ]} /\
  substring_of msg ("Invalid JaCoCo XML: " +:+ msg) /\
  forall e, total_coverage h "proj" <> Raise e.
Proof.
  intros msg h.
  assert (H1 : report_located h "proj") by (vm_compute; reflexivity).
  assert (H2 : ET_parse h (find_jacoco_path h "proj") = Raise (mk_exn ParseError msg))
    by (vm_compute; reflexivity).
  split; [exact H1|]. split; [exact H2|].
  exact (total_coverage_malformed_report h "proj" msg H1 H2).
Defined.

(** 80.0 is the float of the integer 80. *)
Lemma float_80_value : float_80 = float_of_int 80 /\ 5629499534213120 = 80 * 2 ^ 46.
Proof. split; reflexivity. Qed.



(** ** Counters with a zero total *)

Lemma filter_positive_none (h : Host) (cs : list Element) :
  Forall (fun c => positive_total h c = false) cs ->
  filter (fun c => positive_total h c = true) cs = [].
Proof.
  induction 1 as [|c cs Hc _ IH]; [reflexivity|].
  rewrite filter_cons_False by congruence. exact IH.
Qed.

Lemma zero_counts_not_positive (h : Host) (c : Element) :
  counts h c = Ret (0, 0) -> positive_total h c = false.
Proof. unfold positive_total. intros ->. reflexivity. Qed.

(** A loop body leaves the dictionary as it is on a counter with
    [covered=0] and [missed=0], and divides nothing. *)
Lemma count_counter_zero (h : Host) (key : string) (data : gmap string pyval)
    (c : Element) :
  counts h c = Ret (0, 0) -> count_counter h key data c = Ret data.
Proof.
  unfold counts, count_counter.
  destruct (py_int h (get c "covered" _)) as [covered|]; [|discriminate].
  destruct (py_int h (get c "missed" _)) as [missed|]; [|discriminate].
  cbn [bind]. intros [= -> ->]. reflexivity.
Qed.

(** C3 fails as stated: a positive [LINE] counter comes first, the
    [LINE] counter with [covered=0] and [missed=0] comes last, and
    [line_coverage] is 80.0, not the default. *)
Lemma zero_total_gives_default_counterexample :
  let h := project_with (Ret report_zero_last) in
  report_located h "proj" /\
  ET_parse h (find_jacoco_path h "proj") = Ret report_zero_last /\
  well_formed_report h report_zero_last = true /\
  counters report_zero_last LINE = [counter_node "LINE" "80" "20"; zero_counter] /\
  counts h zero_counter = Ret (0, 0) /\
  (exists data,
     total_coverage h "proj" = Ret data /\
     data !! "line_coverage" = Some (PyFloat float_80)) /\
  ~ zero_total_gives_default h "proj" report_zero_last LINE.
Proof.
  intros h.
  assert (Hcs : counters report_zero_last LINE
                = [counter_node "LINE" "80" "20"; zero_counter])
    by (vm_compute; reflexivity).
  assert (Hres : total_coverage h "proj"
                 = Ret (coverage_dict (fun k => match k with
                                                | LINE => PyFloat float_80
                                                | _ => PyInt 0
                                                end)))
    by (vm_compute; reflexivity).
  do 3 (split; [vm_compute; reflexivity|]).
  split; [exact Hcs|]. split; [reflexivity|]. split.
  - eexists. split; [exact Hres|]. reflexivity.
  - intros Hclaim.
    destruct (Hclaim [counter_node "LINE" "80" "20"] zero_counter [])
      as (data & Hdata & Hkey); [exact Hcs | reflexivity | constructor |].
    rewrite Hres in Hdata. injection Hdata as <-.
    change (kind_key LINE) with "line_coverage" in Hkey.
    vm_compute in Hkey. discriminate.
Qed.

(** C3, amended.  In a report that is located, parsed and well formed,
    a counter of kind [k] with [covered=0] and [missed=0] that no
    counter of the kind with a positive total follows leaves the
    percentage of the kind at what the counters before it gave: the
    default 0 when none of them has a positive total either.  Its loop
    body changes nothing and divides nothing. *)
Theorem zero_total_counter_keeps_percentage
    (h : Host) (project_path : string) (root : Element) (k : counter_kind)
    (before : list Element) (c : Element) (after : list Element) :
  report_located h project_path ->
  ET_parse h (find_jacoco_path h project_path) = Ret root ->
  well_formed_report h root = true ->
  counters root k = (before ++ c :: after)%list ->
  counts h c = Ret (0, 0) ->
  Forall (fun c' => positive_total h c' = false) after ->
  (forall key data, count_counter h key data c = Ret data) /\
  exists data,
    total_coverage h project_path = Ret data /\
    data !! kind_key k = Some (after_loop h before (PyInt 0)) /\
    (Forall (fun c' => positive_total h c' = false) before ->
     data !! kind_key k = Some (PyInt 0)).
Proof.
  intros Hloc Hparse Hwf Hcs Hzero Hafter.
  split; [intros key data; apply count_counter_zero, Hzero|].
  eexists. split; [apply (total_coverage_data h project_path root Hloc Hparse Hwf)|].
  rewrite coverage_dict_lookup.
  assert (Hloop : after_loop h (counters root k) (PyInt 0)
                  = after_loop h before (PyInt 0)).
  { unfold after_loop. rewrite Hcs, filter_app, filter_cons_False, (filter_positive_none h after Hafter), app_nil_r; [reflexivity|].
    rewrite (zero_counts_not_positive h c Hzero). discriminate. }
  rewrite Hloop. split; [reflexivity|].
  intros Hbefore. unfold after_loop.
  rewrite (filter_positive_none h before Hbefore). reflexivity.
Qed.

Lemma zero_total_counter_keeps_percentage_witness :
  let h := project_with (Ret report_zero_last) in
  let before := [counter_node "LINE" "80" "20"] in
  report_located h "proj" /\
  ET_parse h (find_jacoco_path h "proj") = Ret report_zero_last /\
  well_formed_report h report_zero_last = true /\
  counters report_zero_last LINE = (before ++ zero_counter :: [])%list /\
  counts h zero_counter = Ret (0, 0) /\
  Forall (fun c' => positive_total h c' = false) [] /\
  (forall key data, count_counter h key data zero_counter = Ret data) /\
  exists data,
    total_coverage h "proj" = Ret data /\
    data !! kind_key LINE = Some (after_loop h before (PyInt 0)) /\
    (Forall (fun c' => positive_total h c' = false) before ->
     data !! kind_key LINE = Some (PyInt 0)).
Proof.
  intros h before.
  assert (H1 : report_located h "proj") by (vm_compute; reflexivity).
  assert (H2 : ET_parse h (find_jacoco_path h "proj") = Ret report_zero_last)
    by (vm_compute; reflexivity).
  assert (H3 : well_formed_report h report_zero_last = true) by (vm_compute; reflexivity).
  assert (H4 : counters report_zero_last LINE = (before ++ zero_counter :: [])%list)
    by (vm_compute; reflexivity).
  assert (H5 : counts h zero_counter = Ret (0, 0)) by (vm_compute; reflexivity).
  assert (H6 : Forall (fun c' => positive_total h c' = false) []) by constructor.
  repeat (split; [assumption|]).
  exact (zero_total_counter_keeps_percentage h "proj" report_zero_last LINE
           before zero_counter [] H1 H2 H3 H4 H5 H6).
Defined.

(** ** Defaults and unknown kinds *)






(** ** Locating the report *)

Lemma probe_none (h : Host) (paths : list string) :
  (forall path, path ∈ paths -> os_path_exists h path = false) ->
  probe h paths = (paths, None).
Proof.
  induction paths as [|p paths IH]; intros Hnone; [reflexivity|].
  cbn [probe]. rewrite (Hnone p) by apply list_elem_of_here.
  rewrite IH; [reflexivity|]. intros q Hq. apply Hnone, list_elem_of_further, Hq.
Qed.

Lemma probe_first (h : Host) (paths : list string) (i : nat) (path : string) :
  paths !! i = Some path ->
  os_path_exists h path = true ->
  (forall j earlier, (j < i)%nat -> paths !! j = Some earlier ->
                     os_path_exists h earlier = false) ->
  probe h paths = (take (S i) paths, Some path).
Proof.
  revert i. induction paths as [|p paths IH]; intros i Hi Hex Hearlier; [discriminate|].
  destruct i as [|i].
  - injection Hi as ->. cbn [probe]. rewrite Hex. reflexivity.
  - cbn [probe]. rewrite (Hearlier 0%nat p) by (cbn; (lia || reflexivity)).
    rewrite (IH i); [reflexivity | exact Hi | exact Hex |].
    intros j earlier Hj Hlook. apply (Hearlier (S j) earlier); [lia | exact Hlook].
Qed.

(** C4. [find_jacoco_path] asks [os.path.exists] for the three
    candidates [target/site/jacoco/jacoco.xml], [target/jacoco.xml],
    [build/jacoco/jacoco.xml] under the project path, in that order,
    and returns the first that exists, asking for no later one; when
    none exists it returns the not-found string, which holds the hint
    to run the tests first.  It returns a string in every case. *)
Theorem find_jacoco_path_first_existing (h : Host) (project_path : string) :
  jacoco_paths project_path =
    [ project_path +:+ "/target/site/jacoco/jacoco.xml";
      project_path +:+ "/target/jacoco.xml";
      project_path +:+ "/build/jacoco/jacoco.xml" ] /\
  (forall i path,
     jacoco_paths project_path !! i = Some path ->
     os_path_exists h path = true ->
     (forall j earlier, (j < i)%nat -> jacoco_paths project_path !! j = Some earlier ->
                        os_path_exists h earlier = false) ->
     find_jacoco_path h project_path = path /\
     find_jacoco_path_probes h project_path = take (S i) (jacoco_paths project_path)) /\
  ((forall path, path ∈ jacoco_paths project_path -> os_path_exists h path = false) ->
   find_jacoco_path h project_path = not_found_message /\
   find_jacoco_path_probes h project_path = jacoco_paths project_path) /\
  substring_of "Run 'mvn clean test' first" not_found_message.
Proof.
  split; [reflexivity|]. split; [|split].
  - intros i path Hi Hex Hearlier.
    unfold find_jacoco_path, find_jacoco_path_probes.
    rewrite (probe_first h _ i path Hi Hex Hearlier). split; reflexivity.
  - intros Hnone. unfold find_jacoco_path, find_jacoco_path_probes.
    rewrite (probe_none h _ Hnone). split; reflexivity.
  - apply str_contains_substring. reflexivity.
Qed.

Lemma find_jacoco_path_first_existing_witness :
  let h := example_host
             {[ "proj/target/jacoco.xml" := Ret report_80_20;
                "proj/build/jacoco/jacoco.xml" := Ret report_nested ]} in
  find_jacoco_path h "proj" = "proj/target/jacoco.xml" /\
  find_jacoco_path_probes h "proj" =
    ["proj/target/site/jacoco/jacoco.xml"; "proj/target/jacoco.xml"] /\
  find_jacoco_path h "other" = not_found_message /\
  find_jacoco_path_probes h "other" = jacoco_paths "other".
Proof.
  intros h.
  destruct (find_jacoco_path_first_existing h "proj") as (_ & Hfirst & _ & _).
  destruct (find_jacoco_path_first_existing h "other") as (_ & _ & Hnone & _).
  destruct (Hfirst 1%nat "proj/target/jacoco.xml") as [Hpath Hprobes].
  - reflexivity.
  - vm_compute; reflexivity.
  - intros [|j] earlier Hj Hlook; [|lia]. injection Hlook as <-. vm_compute; reflexivity.
  - destruct Hnone as [Hpath' Hprobes'].
    + intros path Hin. cbn in Hin.
      repeat (apply elem_of_cons in Hin as [->|Hin]; [vm_compute; reflexivity|]).
      apply elem_of_nil in Hin. destruct Hin.
    + repeat split; assumption.
Defined.

(** ** Uncovered lines *)

Lemma for_each_check_line (h : Host) (lines : list Element) (acc : list pyval) :
  forallb (line_ok h) lines = true ->
  exists entries,
    for_each (check_line h) lines acc = Ret (acc ++ entries)%list /\
    Forall2 (reports h) (filter (fun l => ci_zero h l = true) lines) entries.
Proof.
  revert acc. induction lines as [|l lines IH]; intros acc Hok.
  - exists []. rewrite app_nil_r. split; [reflexivity | constructor].
  - cbn [forallb] in Hok. apply andb_true_iff in Hok as [Hl Hls].
    unfold line_ok in Hl. apply andb_true_iff in Hl as [Hl Hcb].
    apply andb_true_iff in Hl as [Hnr Hci].
    destruct (py_int h (get l "nr" ArgNone)) as [nr|] eqn:Enr; [|discriminate].
    destruct (py_int h (get l "ci" (ArgInt 0))) as [ci|] eqn:Eci; [|discriminate].
    destruct (py_int h (get l "cb" (ArgInt 0))) as [cb|] eqn:Ecb; [|discriminate].
    assert (Hz : ci_zero h l = (ci =? 0)) by (unfold ci_zero; rewrite Eci; reflexivity).
    cbn [for_each]. unfold check_line at 1. rewrite Eci. cbn [bind].
    destruct (Z.eqb_spec ci 0) as [->|Hne].
    + unfold line_entry. rewrite Enr, Eci, Ecb. cbn [bind].
      destruct (IH (acc ++ [uncovered_entry nr cb])%list Hls) as (entries & Hrun & Hrep).
      exists (uncovered_entry nr cb :: entries). split.
      * unfold uncovered_entry in Hrun. rewrite Hrun, <- app_assoc. reflexivity.
      * rewrite filter_cons_True by exact Hz. constructor; [|exact Hrep].
        exists nr, cb. auto.
    + destruct (IH acc Hls) as (entries & Hrun & Hrep).
      exists entries. rewrite filter_cons_False by (rewrite Hz; discriminate). auto.
Qed.

Lemma for_each_check_sourcefile (h : Host) (file_name file_path : string)
    (sourcefiles : list Element) (acc : list pyval) :
  let inspected :=
    flat_map (fun sf => findall sf "line")
      (filter (fun sf => sourcefile_selected file_name file_path sf = true) sourcefiles) in
  forallb (line_ok h) inspected = true ->
  exists entries,
    for_each (check_sourcefile h file_name file_path) sourcefiles acc
      = Ret (acc ++ entries)%list /\
    Forall2 (reports h) (filter (fun l => ci_zero h l = true) inspected) entries.
Proof.
  cbv zeta. revert acc. induction sourcefiles as [|sf sfs IH]; intros acc Hok.
  - exists []. rewrite app_nil_r. split; [reflexivity | constructor].
  - cbn [for_each]. unfold check_sourcefile at 1. rewrite filter_cons in *.
    destruct (sourcefile_selected file_name file_path sf) eqn:Hsel.
    + rewrite decide_True in * by reflexivity. cbn [flat_map] in *.
      rewrite forallb_app in Hok. apply andb_true_iff in Hok as [Hsf Hrest].
      destruct (for_each_check_line h (findall sf "line") acc Hsf)
        as (es1 & Hrun1 & Hrep1).
      rewrite Hrun1. cbn [bind].
      destruct (IH (acc ++ es1)%list Hrest) as (es2 & Hrun2 & Hrep2).
      exists (es1 ++ es2)%list. split.
      * rewrite Hrun2, <- app_assoc. reflexivity.
      * rewrite filter_app. apply Forall2_app; assumption.
    + rewrite decide_False in * by discriminate. cbn [bind]. apply IH, Hok.
Qed.

(** C7. For the lines of the selected [sourcefile] entries of a report
    that is located and parsed and whose lines conform to the schema,
    [missing_coverage] reports, in document order, exactly the lines
    whose covered-instruction count [ci] is 0, each with its number, a
    zero instruction count and its covered-branch count; the count of
    covered branches plays no part.  When the inspected lines are one
    with [ci] 0 and one with [ci] 3, the result holds one entry, the one
    of the line with [ci] 0. *)
Theorem missing_coverage_zero_instruction_lines
    (h : Host) (file_path project_path : string) (root : Element) :
  report_located h project_path ->
  ET_parse h (find_jacoco_path h project_path) = Ret root ->
  forallb (line_ok h)
    (inspected_lines (target_file_name h file_path) file_path root) = true ->
  exists entries,
    missing_coverage h file_path project_path =
      Ret (<["file" := PyStr file_path]>
          (<["total_uncovered_lines" := PyInt (Z.of_nat (length entries))]>
          (<["uncovered_lines" := PyList entries]> ∅))) /\
    Forall2 (reports h)
      (filter (fun l => ci_zero h l = true)
         (inspected_lines (target_file_name h file_path) file_path root))
      entries /\
    (forall zero three,
       inspected_lines (target_file_name h file_path) file_path root = [zero; three] ->
       py_int h (get zero "ci" (ArgInt 0)) = Ret 0 ->
       py_int h (get three "ci" (ArgInt 0)) = Ret 3 ->
       exists entry, entries = [entry] /\ reports h zero entry).
Proof.
  intros Hloc Hparse Hok.
  destruct (for_each_check_sourcefile h (target_file_name h file_path) file_path
              (findall root "sourcefile") [] Hok) as (entries & Hrun & Hrep).
  exists entries. split; [|split].
  - unfold missing_coverage. cbv zeta. rewrite Hloc, Hparse. cbn [bind].
    rewrite Hrun. reflexivity.
  - exact Hrep.
  - intros zero three Hlines Hzero Hthree. unfold inspected_lines in Hlines.
    rewrite Hlines in Hrep.
    rewrite filter_cons_True in Hrep by (unfold ci_zero; rewrite Hzero; reflexivity).
    rewrite filter_cons_False in Hrep
      by (unfold ci_zero; rewrite Hthree; discriminate).
    rewrite filter_nil in Hrep.
    inversion Hrep as [|? entry ? rest Hentry Hrest]; subst.
    inversion Hrest; subst. exists entry. auto.
Qed.

Lemma missing_coverage_zero_instruction_lines_witness :
  let h := project_with (Ret report_two_lines) in
  report_located h "proj" /\
  ET_parse h (find_jacoco_path h "proj") = Ret report_two_lines /\
  forallb (line_ok h)
    (inspected_lines (target_file_name h "Calc.java") "Calc.java" report_two_lines)
    = true /\
  inspected_lines (target_file_name h "Calc.java") "Calc.java" report_two_lines
    = [line_node "12" "0" "0"; line_node "13" "3" "1"] /\
  exists entries,
    missing_coverage h "Calc.java" "proj" =
      Ret (<["file" := PyStr "Calc.java"]>
          (<["total_uncovered_lines" := PyInt (Z.of_nat (length entries))]>
          (<["uncovered_lines" := PyList entries]> ∅))) /\
    exists entry, entries = [entry] /\ reports h (line_node "12" "0" "0") entry.
Proof.
  intros h.
  assert (H1 : report_located h "proj") by (vm_compute; reflexivity).
  assert (H2 : ET_parse h (find_jacoco_path h "proj") = Ret report_two_lines)
    by (vm_compute; reflexivity).
  assert (H3 : forallb (line_ok h)
                 (inspected_lines (target_file_name h "Calc.java") "Calc.java"
                    report_two_lines) = true) by (vm_compute; reflexivity).
  assert (H4 : inspected_lines (target_file_name h "Calc.java") "Calc.java"
                 report_two_lines
               = [line_node "12" "0" "0"; line_node "13" "3" "1"])
    by (vm_compute; reflexivity).
  repeat (split; [assumption|]).
  destruct (missing_coverage_zero_instruction_lines h "Calc.java" "proj"
              report_two_lines H1 H2 H3) as (entries & Hres & _ & Htwo).
  exists entries. split; [exact Hres|].
  apply (Htwo _ _ H4); vm_compute; reflexivity.
Defined.

(** ** Selecting the entries of a source file *)

Lemma str_app_assoc (a b c : string) : (a +:+ b) +:+ c = a +:+ (b +:+ c).
Proof.
  induction a as [|x a IH]; [reflexivity|].
  change (String x ((a +:+ b) +:+ c) = String x (a +:+ (b +:+ c))). congruence.
Qed.

Lemma str_length_app (a b : string) :
  String.length (a +:+ b) = (String.length a + String.length b)%nat.
Proof.
  induction a as [|x a IH]; [reflexivity|].
  change (S (String.length (a +:+ b)) = S (String.length a + String.length b)).
  congruence.
Qed.

(** A prefix no longer than [x] is decided on [x] alone. *)
Lemma prefix_app_long (p x y : string) :
  (String.length p <= String.length x)%nat ->
  String.prefix p (x +:+ y) = String.prefix p x.
Proof.
  revert x. induction p as [|c p IH]; intros x Hlen.
  - destruct x; [destruct y|]; reflexivity.
  - destruct x as [|c' x]; [cbn in Hlen; lia|].
    change (String c' x +:+ y) with (String c' (x +:+ y)). cbn [String.prefix].
    destruct (ascii_dec c c'); [|reflexivity].
    apply IH. cbn in Hlen. lia.
Qed.

(** Where [.java] occurs in [stem ++ ".java"] at the end only,
    replacing every occurrence replaces the extension. *)
Lemma str_replace_extension (stem : string) :
  str_contains ".java" (stem +:+ ".jav") = false ->
  str_replace (stem +:+ ".java") ".java" ".class" = stem +:+ ".class".
Proof.
  unfold str_replace. induction stem as [|c stem IH]; intros Hno; [reflexivity|].
  change (String c stem +:+ ".jav") with (String c (stem +:+ ".jav")) in Hno.
  cbn [str_contains] in Hno. apply orb_false_iff in Hno as [Hpre Hrest].
  change (String c stem +:+ ".java") with (String c (stem +:+ ".java")).
  cbn [str_replace_from].
  assert (Hpre' : String.prefix ".java" (String c (stem +:+ ".java")) = false).
  { replace (String c (stem +:+ ".java")) with (String c (stem +:+ ".jav") +:+ "a").
    - rewrite prefix_app_long; [exact Hpre|].
      change (String c (stem +:+ ".jav")) with (String c stem +:+ ".jav").
      rewrite str_length_app. cbn. lia.
    - change (String c (stem +:+ ".jav") +:+ "a")
        with (String c ((stem +:+ ".jav") +:+ "a")).
      rewrite str_app_assoc. reflexivity. }
  rewrite Hpre'. rewrite (IH Hrest). reflexivity.
Qed.





(** ** The two copies *)

Lemma for_each_ext {A S} (f g : S -> A -> result S) (xs : list A) (acc : S) :
  (forall s x, f s x = g s x) -> for_each f xs acc = for_each g xs acc.
Proof.
  intros Hfg. revert acc. induction xs as [|x xs IH]; intros acc; [reflexivity|].
  cbn [for_each]. rewrite Hfg. destruct (g acc x); cbn [bind]; [apply IH | reflexivity].
Qed.

Lemma codebase_probe (h : Host) (paths : list string) :
  Codebase.probe h paths = probe h paths.
Proof.
  induction paths as [|p paths IH]; [reflexivity|].
  cbn [Codebase.probe probe]. rewrite IH. reflexivity.
Qed.

Lemma codebase_find_jacoco_path (h : Host) (project_path : string) :
  Codebase.find_jacoco_path h project_path = find_jacoco_path h project_path.
Proof.
  unfold Codebase.find_jacoco_path, find_jacoco_path.
  rewrite codebase_probe. reflexivity.
Qed.

Lemma codebase_count_counter (h : Host) (key : string)
    (data : gmap string pyval) (counter : Element) :
  Codebase.count_counter h key data counter = count_counter h key data counter.
Proof.
  unfold Codebase.count_counter, count_counter, percentage.
  destruct (py_int h (get counter "covered" _)) as [covered|]; [|reflexivity].
  destruct (py_int h (get counter "missed" _)) as [missed|]; [|reflexivity].
  cbn [bind]. destruct (0 <? covered + missed); [|reflexivity].
  destruct (int_truediv covered (covered + missed)); reflexivity.
Qed.

Lemma codebase_check_line (h : Host) (acc : list pyval) (line : Element) :
  Codebase.check_line h acc line = check_line h acc line.
Proof.
  unfold Codebase.check_line, check_line, line_entry.
  destruct (py_int h (get line "ci" _)) as [ci|]; [|reflexivity].
  cbn [bind]. destruct (ci =? 0); [|reflexivity].
  destruct (py_int h (get line "nr" _)) as [nr|]; [|reflexivity].
  cbn [bind]. destruct (py_int h (get line "cb" _)); reflexivity.
Qed.

Lemma codebase_check_sourcefile (h : Host) (file_name file_path : string)
    (acc : list pyval) (sourcefile : Element) :
  Codebase.check_sourcefile h file_name file_path acc sourcefile
  = check_sourcefile h file_name file_path acc sourcefile.
Proof.
  unfold Codebase.check_sourcefile, check_sourcefile, sourcefile_selected.
  destruct (_ || _); [|reflexivity].
  apply for_each_ext. intros s x. apply codebase_check_line.
Qed.

(** C9. The coverage tools of [codebase/server.py] return, for every
    host and every input, what the tools of the same names of
    [server.py] return. *)
Theorem codebase_copy_equivalent :
  (forall h project_path,
     Codebase.find_jacoco_path h project_path = find_jacoco_path h project_path) /\
  (forall h project_path,
     Codebase.total_coverage h project_path = total_coverage h project_path) /\
  (forall h file_path project_path,
     Codebase.missing_coverage h file_path project_path
     = missing_coverage h file_path project_path).
Proof.
  split; [exact codebase_find_jacoco_path|]. split.
  - intros h project_path. unfold Codebase.total_coverage, total_coverage. cbv zeta.
    rewrite codebase_find_jacoco_path.
    destruct (str_contains _ _); [reflexivity|].
    destruct (ET_parse h _) as [root|e]; [|reflexivity]. cbn [bind].
    repeat
      (rewrite (for_each_ext (Codebase.count_counter h _) (count_counter h _))
         by (intros; apply codebase_count_counter);
       match goal with
       | |- context [bind (for_each ?f ?l ?a) _] =>
           destruct (for_each f l a); cbn [bind]; [|reflexivity]
       end).
    reflexivity.
  - intros h file_path project_path.
    unfold Codebase.missing_coverage, missing_coverage, target_file_name. cbv zeta.
    rewrite codebase_find_jacoco_path.
    destruct (str_contains _ _); [reflexivity|].
    destruct (ET_parse h _) as [root|e]; [|reflexivity]. cbn [bind].
    rewrite (for_each_ext (Codebase.check_sourcefile h _ _) (check_sourcefile h _ _))
      by (intros; apply codebase_check_sourcefile).
    reflexivity.
Qed.

(** ** The divide tool *)

Lemma float_eq_zero_iff (b : spec_float) :
  float_eq_zero b = true <-> exists sign, b = S754_zero sign.
Proof.
  split.
  - destruct b as [s|s| |s m e]; try (destruct s; discriminate); [eauto | discriminate].
  - intros [sign ->]. reflexivity.
Qed.

(** C10. [divide] raises nothing: for a divisor equal to 0, of either
    sign, it returns positive infinity whatever the dividend; for any
    other divisor it returns the quotient of the floats. *)
Theorem divide_never_faults :
  (forall a sign, divide a (S754_zero sign) = Ret float_inf) /\
  (forall a b, (forall sign, b <> S754_zero sign) ->
               float_eq_zero b = false /\ divide a b = Ret (float_div a b)) /\
  (forall a b, exists r, divide a b = Ret r) /\
  (forall b, float_eq_zero b = true <-> exists sign, b = S754_zero sign).
Proof.
  assert (Hnz : forall a b, (forall sign, b <> S754_zero sign) ->
                float_eq_zero b = false /\ divide a b = Ret (float_div a b)).
  { intros a b Hb. assert (Hz : float_eq_zero b = false).
    { destruct (float_eq_zero b) eqn:E; [|reflexivity].
      apply float_eq_zero_iff in E as [sign ->]. destruct (Hb sign eq_refl). }
    split; [exact Hz|]. unfold divide. rewrite Hz. unfold float_truediv.
    destruct b; try reflexivity. destruct (Hb s eq_refl). }
  split; [intros a sign; reflexivity|]. split; [exact Hnz|]. split.
  - intros a b. destruct (float_eq_zero b) eqn:E.
    + apply float_eq_zero_iff in E as [sign ->]. eexists. reflexivity.
    + eexists. apply Hnz. intros sign ->. discriminate.
  - exact float_eq_zero_iff.
Qed.

Lemma divide_never_faults_witness :
  divide (float_of_int (-1)) (S754_zero true) = Ret float_inf /\
  divide (float_of_int (-1)) (S754_zero false) = Ret float_inf /\
  divide (float_of_int 6) (float_of_int 3) = Ret (float_of_int 2).
Proof.
  destruct divide_never_faults as (Hzero & Hnz & _ & _).
  split; [apply Hzero|]. split; [apply Hzero|].
  destruct (Hnz (float_of_int 6) (float_of_int 3)) as [_ Hq].
  - intros sign. vm_compute. discriminate.
  - rewrite Hq. vm_compute. reflexivity.
Defined.

(** ** The guard on the located path *)

(** The guard of lines 107 and 190 looks for the words [not found] in
    the path that was located: the claims above are about reports that
    pass it.  A report under a directory whose name holds these words is
    answered with the path as the error, and is not parsed. *)
Remark guard_on_path_words :
  let h := example_host {[ "not found/target/site/jacoco/jacoco.xml" := Ret report_80_20 ]} in
  find_jacoco_path h "not found" = "not found/target/site/jacoco/jacoco.xml" /\
  total_coverage h "not found"
    = Ret {[ "error" := PyStr "not found/target/site/jacoco/jacoco.xml" ]}.
Proof. split; vm_compute; reflexivity. Qed.


(** ** Reading the output of [git status] *)

Lemma ofold_invariant {A S} (P : S -> Prop) (step : S -> A -> outcome S)
    (xs : list A) (acc acc' : S) :
  (forall s x s', P s -> step s x = Done s' -> P s') ->
  P acc -> ofold step xs acc = Done acc' -> P acc'.
Proof.
  intros Hstep. revert acc. induction xs as [|x xs IH]; intros acc Hacc Hrun.
  - injection Hrun as <-. exact Hacc.
  - cbn [ofold] in Hrun. destruct (step acc x) as [s|] eqn:Hs; [|discriminate].
    cbn [obind] in Hrun. apply (IH s); [apply (Hstep acc x s Hacc Hs) | exact Hrun].
Qed.

(** A status of two characters that holds [U] holds it in one of them. *)
Lemma contains_U_two (a b : ascii) :
  str_contains "U" (String a (String b "")) = true ->
  String a "" = "U" \/ String b "" = "U".
Proof.
  cbn [str_contains String.prefix].
  destruct (ascii_dec "U" a) as [<-|Ha]; [auto|].
  destruct (ascii_dec "U" b) as [<-|Hb]; [auto|]. discriminate.
Qed.

(** What a line of two characters or more adds to the lists. *)
Lemma status_line_two (acc : status_lists) (a b : ascii) (rest : string) :
  status_line acc (String a (String b rest)) =
    Done (mk_lists
            (if Ascii.eqb a " " then staged acc
             else staged acc ++ [mk_change (str_drop 1 rest) (String a "")])
            (if Ascii.eqb b " " then unstaged acc
             else unstaged acc ++ [mk_change (str_drop 1 rest) (String b "")])
            (if str_contains "U" (String a (String b ""))
             then conflicted acc ++ [str_drop 1 rest] else conflicted acc)).
Proof.
  unfold status_line. cbn [String.eqb str_take str_index String.get obind].
  change (str_drop 3 (String a (String b rest))) with (str_drop 1 rest).
  destruct acc as [st un cf].
  destruct (Ascii.eqb a " "), (Ascii.eqb b " "),
    (str_contains "U" (String a (String b ""))); reflexivity.
Qed.

Lemma status_line_one (acc : status_lists) (a : ascii) :
  status_line acc (String a "") = Raised "IndexError" "string index out of range".
Proof.
  unfold status_line. cbn [String.eqb str_take str_index String.get obind].
  destruct (Ascii.eqb a " "); reflexivity.
Qed.

Lemma status_line_keeps_conflicts (acc : status_lists) (line : string)
    (acc' : status_lists) :
  conflicts_counted acc -> status_line acc line = Done acc' -> conflicts_counted acc'.
Proof.
  intros Hacc Hline. destruct line as [|a [|b rest]].
  - cbn in Hline. injection Hline as <-. exact Hacc.
  - rewrite status_line_one in Hline. discriminate.
  - rewrite status_line_two in Hline.
    remember (str_contains "U" (String a (String b ""))) as hasU eqn:HU.
    symmetry in HU. injection Hline as <-.
    intros f Hf. unfold conflicted in Hf. unfold staged, unstaged at 1 2.
    assert (Hold : forall g, g ∈ conflicted acc ->
              exists c, c ∈ ((if Ascii.eqb a " " then staged acc
                              else staged acc ++ [mk_change (str_drop 1 rest) (String a "")])
                             ++ (if Ascii.eqb b " " then unstaged acc
                                 else unstaged acc ++ [mk_change (str_drop 1 rest) (String b "")]))%list
                        /\ change_file c = g).
    { intros g Hg. destruct (Hacc g Hg) as (c & Hc & Hfile). exists c.
      split; [|exact Hfile]. apply elem_of_app in Hc as [Hc|Hc]; apply elem_of_app.
      - left. destruct (Ascii.eqb a " "); [exact Hc | apply elem_of_app; left; exact Hc].
      - right. destruct (Ascii.eqb b " "); [exact Hc | apply elem_of_app; left; exact Hc]. }
    destruct hasU; [|apply Hold, Hf].
    apply elem_of_app in Hf as [Hf|Hf]; [apply Hold, Hf|].
    apply list_elem_of_singleton in Hf as ->.
    apply contains_U_two in HU as [Ha|Hb].
    + injection Ha as ->. exists (mk_change (str_drop 1 rest) "U").
      split; [|reflexivity]. apply elem_of_app. left. cbn.
      apply elem_of_app. right. apply list_elem_of_here.
    + injection Hb as ->. exists (mk_change (str_drop 1 rest) "U").
      split; [|reflexivity]. apply elem_of_app. right. cbn.
      apply elem_of_app. right. apply list_elem_of_here.
Qed.

(** X1. In every report of [git_status] the working tree is clean
    exactly when [total_changes] is 0: a conflicted file is always
    counted among the staged or the unstaged changes. *)
Theorem git_status_clean_iff_no_changes {W} (sh : Shell W) (repo_path : string) (w : W)
    (is_clean : bool) (staged_changes unstaged_changes : list change)
    (conflicts : list string) (total_changes : Z) (w' : W) (ran : list command) :
  git_status sh repo_path w
    = (Done (StatusReply is_clean staged_changes unstaged_changes conflicts total_changes),
       w', ran) ->
  total_changes
    = Z.of_nat (length staged_changes) + Z.of_nat (length unstaged_changes) /\
  (is_clean = true <-> total_changes = 0) /\
  (forall f, f ∈ conflicts ->
     exists c, c ∈ (staged_changes ++ unstaged_changes)%list /\ change_file c = f).
Proof.
  unfold git_status, ptry, pbind, run, plift, pret.
  destruct (subprocess_run sh _ repo_path w) as [[result|cls msg] w1]; [|discriminate].
  destruct (ofold status_line _ _) as [lists|cls msg] eqn:Hfold; [|discriminate].
  intros [= <- <- <- <- <- <- <-].
  assert (Hinv : conflicts_counted lists).
  { apply (ofold_invariant conflicts_counted status_line _ _ _
             status_line_keeps_conflicts) in Hfold; [exact Hfold|].
    intros f Hf. cbn in Hf. apply elem_of_nil in Hf. destruct Hf. }
  split; [reflexivity|]. split; [|exact Hinv].
  destruct lists as [st un cf]. cbn [staged unstaged conflicted] in *.
  destruct st as [|c st]; [destruct un as [|c un]|].
  - destruct cf as [|f cf]; [split; reflexivity|].
    destruct (Hinv f) as (c & Hc & _); [apply list_elem_of_here|].
    apply elem_of_nil in Hc. destruct Hc.
  - cbn. split; [discriminate|lia].
  - cbn. split; [discriminate|lia].
Qed.

Lemma git_status_clean_iff_no_changes_witness :
  let out := "M  a.txt" +:+ String newline ("UU b.txt" +:+ String newline "") in
  let a := mk_change "a.txt" "M" in
  let b := mk_change "b.txt" "U" in
  git_status (printing_shell out) "." tt
    = (Done (StatusReply false [a; b] [b] ["b.txt"] 3), tt,
       [(["git"; "status"; "--porcelain"], ".")]) /\
  3 = Z.of_nat (length [a; b]) + Z.of_nat (length [b]) /\
  (false = true <-> 3 = 0) /\
  (forall f, f ∈ ["b.txt"] -> exists c, c ∈ ([a; b] ++ [b])%list /\ change_file c = f).
Proof.
  intros out a b.
  assert (H : git_status (printing_shell out) "." tt
              = (Done (StatusReply false [a; b] [b] ["b.txt"] 3), tt,
                 [(["git"; "status"; "--porcelain"], ".")]))
    by (vm_compute; reflexivity).
  split; [exact H|].
  exact (git_status_clean_iff_no_changes (printing_shell out) "." tt _ _ _ _ _ _ _ H).
Defined.


Lemma ofold_status_line (lines : list string) (acc : status_lists) :
  if existsb (fun line => Nat.eqb (String.length line) 1) lines
  then ofold status_line lines acc = Raised "IndexError" "string index out of range"
  else exists acc', ofold status_line lines acc = Done acc'.
Proof.
  revert acc. induction lines as [|line lines IH]; intros acc; [cbn; eauto|].
  cbn [existsb ofold]. destruct line as [|a [|b rest]].
  - cbn [String.length Nat.eqb orb]. change (status_line acc "") with (Done acc).
    cbn [obind]. apply IH.
  - cbn [String.length Nat.eqb orb]. rewrite status_line_one. reflexivity.
  - cbn [String.length Nat.eqb orb]. rewrite status_line_two. cbn [obind]. apply IH.
Qed.

(** X2. [git_status] runs the one command [git status --porcelain] and
    raises nothing.  It answers with the key [error] in two cases
    only: the command could not be run, or a line of its output, once
    the output is stripped, has exactly one character (the index of the
    second status column is then out of range, and the whole report is
    lost).  In every other case it answers with a report. *)
Theorem git_status_outcomes {W} (sh : Shell W) (repo_path : string) (w : W) :
  let cmd := (["git"; "status"; "--porcelain"], repo_path) in
  match subprocess_run sh ["git"; "status"; "--porcelain"] repo_path w with
  | (Raised cls msg, w') =>
      git_status sh repo_path w
        = (Done (StatusFailed ("Failed to get git status: " +:+ msg)), w', [cmd])
  | (Done result, w') =>
      if existsb (fun line => Nat.eqb (String.length line) 1)
           (str_split newline (str_strip (stdout result)))
      then
        git_status sh repo_path w
          = (Done (StatusFailed "Failed to get git status: string index out of range"),
             w', [cmd])
      else
        exists is_clean staged_changes unstaged_changes conflicts total_changes,
          git_status sh repo_path w
            = (Done (StatusReply is_clean staged_changes unstaged_changes
                       conflicts total_changes), w', [cmd])
  end.
Proof.
  cbv zeta. unfold git_status, ptry, pbind, run, plift, pret.
  destruct (subprocess_run sh _ repo_path w) as [[result|cls msg] w1]; [|reflexivity].
  pose proof (ofold_status_line (str_split newline (str_strip (stdout result)))
                (mk_lists [] [] [])) as Hfold.
  destruct (existsb _ _).
  - rewrite Hfold. reflexivity.
  - destruct Hfold as [lists ->]. eauto 10.
Qed.

(** ** Stripping and splitting *)

Lemma str_rstrip_cons (a : ascii) (s : string) :
  str_rstrip s <> "" -> str_rstrip (String a s) = String a (str_rstrip s).
Proof. intros Hne. cbn [str_rstrip]. destruct (str_rstrip s); [contradiction|reflexivity]. Qed.

Lemma str_rstrip_line (f : string) :
  str_all (fun x => negb (is_space x)) f = true -> f <> "" ->
  str_rstrip (f +:+ String newline "") = f.
Proof.
  induction f as [|c f IH]; [contradiction|]. intros Hall _.
  cbn [str_all] in Hall. apply andb_true_iff in Hall as [Hc Hf].
  change (String c f +:+ String newline "") with (String c (f +:+ String newline "")).
  destruct f as [|c' f'].
  - cbn. apply negb_true_iff in Hc. rewrite Hc. reflexivity.
  - assert (Hrest : str_rstrip (String c' f' +:+ String newline "") = String c' f')
      by (apply IH; [assumption | discriminate]).
    rewrite str_rstrip_cons; rewrite Hrest; [reflexivity | discriminate].
Qed.

Lemma str_split_one_line (s : string) :
  str_all (fun x => negb (Ascii.eqb x newline)) s = true ->
  str_split newline s = [s].
Proof.
  induction s as [|c s IH]; [reflexivity|]. cbn [str_all str_split].
  intros [Hc Hs]%andb_true_iff. apply negb_true_iff in Hc. rewrite Hc, (IH Hs).
  reflexivity.
Qed.

Lemma not_space_not_newline (s : string) :
  str_all (fun x => negb (is_space x)) s = true ->
  str_all (fun x => negb (Ascii.eqb x newline)) s = true.
Proof.
  induction s as [|c s IH]; [reflexivity|]. cbn [str_all].
  intros [Hc Hs]%andb_true_iff. rewrite (IH Hs), andb_true_r.
  destruct (Ascii.eqb_spec c newline) as [->|_]; [discriminate Hc | reflexivity].
Qed.

(** X3. The output is stripped before it is split, so the blank that
    opens the first line is lost.  When the output is the line of a
    file changed in the working tree only (a blank index column, the
    status [y], a blank and the file name), [git_status] reports the
    change as staged, under the file name without its first character,
    and reports no unstaged change. *)
Theorem git_status_blank_first_column {W} (sh : Shell W) (repo_path : string) (w : W)
    (result : completed) (w' : W) (y c : ascii) (name : string) :
  subprocess_run sh ["git"; "status"; "--porcelain"] repo_path w = (Done result, w') ->
  stdout result
    = String " " (String y (String " " (String c name))) +:+ String newline "" ->
  is_space y = false ->
  str_all (fun x => negb (is_space x)) (String c name) = true ->
  git_status sh repo_path w
    = (Done (StatusReply false [mk_change name (String y "")] []
               (if Ascii.eqb y "U" then [name] else []) 1),
       w', [(["git"; "status"; "--porcelain"], repo_path)]).
Proof.
  intros Hrun Hout Hy Hname.
  assert (Hstrip : str_strip (stdout result) = String y (String " " (String c name))).
  { rewrite Hout. unfold str_strip.
    change (String " " (String y (String " " (String c name))) +:+ String newline "")
      with (String " " (String y (String " " (String c name +:+ String newline "")))).
    cbn [str_lstrip]. change (is_space " ") with true. cbv iota. rewrite Hy.
    assert (Hrest : str_rstrip (String c name +:+ String newline "") = String c name)
      by (apply str_rstrip_line; [assumption | discriminate]).
    assert (Hblank : str_rstrip (String " " (String c name +:+ String newline ""))
                     = String " " (String c name))
      by (rewrite str_rstrip_cons; rewrite Hrest; [reflexivity | discriminate]).
    rewrite str_rstrip_cons; rewrite Hblank; [reflexivity | discriminate]. }
  assert (Hsplit : str_split newline (String y (String " " (String c name)))
                   = [String y (String " " (String c name))]).
  { apply str_split_one_line. cbn [str_all].
    apply not_space_not_newline in Hname. cbn [str_all] in Hname. rewrite Hname.
    destruct (Ascii.eqb_spec y newline) as [->|_]; [discriminate Hy | reflexivity]. }
  unfold git_status, ptry, pbind, run, plift, pret.
  rewrite Hrun, Hstrip, Hsplit. cbn [ofold]. rewrite status_line_two. cbn [obind].
  assert (Hy' : Ascii.eqb y " " = false).
  { destruct (Ascii.eqb_spec y " ") as [->|_]; [discriminate Hy | reflexivity]. }
  rewrite Hy'. change (Ascii.eqb " " " ") with true. cbv iota.
  change (str_drop 1 (String " " (String c name))) with name.
  assert (HU : str_contains "U" (String y (String " " "")) = Ascii.eqb y "U").
  { cbn [str_contains String.prefix].
    destruct (ascii_dec "U" y) as [<-|Hne]; [reflexivity|].
    destruct (Ascii.eqb_spec y "U") as [->|_]; [contradiction|].
    destruct (ascii_dec "U" " "); [discriminate | reflexivity]. }
  rewrite HU. destruct (Ascii.eqb y "U"); reflexivity.
Qed.

Lemma git_status_blank_first_column_witness :
  let out := " M src/App.java" +:+ String newline "" in
  subprocess_run (printing_shell out) ["git"; "status"; "--porcelain"] "." tt
    = (Done (mk_completed 0 out ""), tt) /\
  git_status (printing_shell out) "." tt
    = (Done (StatusReply false [mk_change "rc/App.java" "M"] [] [] 1),
       tt, [(["git"; "status"; "--porcelain"], ".")]).
Proof.
  intros out. split; [reflexivity|].
  apply (git_status_blank_first_column (printing_shell out) "." tt
           (mk_completed 0 out "") tt "M" "s" "rc/App.java");
    (reflexivity || (vm_compute; reflexivity)).
Defined.


(** ** Staging *)

Lemma should_exclude_iff (patterns : list string) (file : string) :
  should_exclude patterns file = true <->
  exists pattern, pattern ∈ patterns /\ substring_of pattern file.
Proof.
  induction patterns as [|p patterns IH].
  - split; [discriminate|]. intros (pattern & Hin & _). apply elem_of_nil in Hin. destruct Hin.
  - cbn [should_exclude]. destruct (str_contains p file) eqn:Hp.
    + split; [|reflexivity]. intros _. exists p.
      split; [apply list_elem_of_here | apply str_contains_substring, Hp].
    + rewrite IH. split; intros (pattern & Hin & Hsub); exists pattern.
      * split; [apply list_elem_of_further, Hin | exact Hsub].
      * split; [|exact Hsub]. apply elem_of_cons in Hin as [->|Hin]; [|exact Hin].
        apply str_contains_substring in Hsub. congruence.
Qed.

Lemma fold_add_line (lines : list string) (kept dropped : list string) :
  fold_left add_line lines (kept, dropped) =
    ((kept ++ filter (fun f => should_exclude exclude_patterns f = false)
                (str_drop 3 <$> filter (fun line => line <> "") lines))%list,
     (dropped ++ filter (fun f => should_exclude exclude_patterns f = true)
                   (str_drop 3 <$> filter (fun line => line <> "") lines))%list).
Proof.
  revert kept dropped. induction lines as [|line lines IH]; intros kept dropped.
  - cbn. rewrite !app_nil_r. reflexivity.
  - cbn [fold_left]. unfold add_line at 2. rewrite filter_cons.
    destruct (String.eqb_spec line "") as [->|Hne].
    + rewrite decide_False by (intros H; apply H; reflexivity). apply IH.
    + rewrite decide_True by exact Hne. rewrite fmap_cons, !filter_cons.
      destruct (should_exclude exclude_patterns (str_drop 3 line)) eqn:Hex.
      * rewrite IH, decide_False, decide_True by (discriminate || reflexivity).
        rewrite <- app_assoc. reflexivity.
      * rewrite IH, decide_True, decide_False by (discriminate || reflexivity).
        rewrite <- app_assoc. reflexivity.
Qed.

(** X4. [git_add_all] splits the files of the status lines in two, in
    the order of the lines: a file whose name holds one of the eight
    patterns as a substring is excluded, every other file is staged (the
    pattern [*.pyc] is read letter by letter, star included).  When no
    file is left to stage, [git add] is not run; otherwise it is run
    once, with exactly the staged files, and the reply lists them as
    staged whatever code [git add] returns. *)
Theorem git_add_all_partition {W} (sh : Shell W) (repo_path : string) (w : W)
    (result : completed) (w1 : W) :
  subprocess_run sh ["git"; "status"; "--porcelain"] repo_path w = (Done result, w1) ->
  let files := porcelain_files (stdout result) in
  let kept := filter (fun f => should_exclude exclude_patterns f = false) files in
  let dropped := filter (fun f => should_exclude exclude_patterns f = true) files in
  let status := (["git"; "status"; "--porcelain"], repo_path) in
  let add := ("git" :: "add" :: kept, repo_path) in
  (forall f, f ∈ dropped <->
     f ∈ files /\ exists pattern, pattern ∈ exclude_patterns /\ substring_of pattern f) /\
  match kept with
  | [] =>
      git_add_all sh repo_path w
        = (Done (AddReply [] dropped 0 (Z.of_nat (length dropped))), w1, [status])
  | _ :: _ =>
      match subprocess_run sh ("git" :: "add" :: kept) repo_path w1 with
      | (Done _, w2) =>
          git_add_all sh repo_path w
            = (Done (AddReply kept dropped (Z.of_nat (length kept))
                       (Z.of_nat (length dropped))), w2, [status; add])
      | (Raised _ msg, w2) =>
          git_add_all sh repo_path w
            = (Done (AddFailed ("Failed to stage changes: " +:+ msg)), w2, [status; add])
      end
  end.
Proof.
  intros Hrun. cbv zeta. split.
  - intros f. rewrite list_elem_of_filter, should_exclude_iff. tauto.
  - unfold git_add_all, ptry, pbind, run, pret. rewrite Hrun.
    rewrite fold_add_line. cbn [app]. fold (porcelain_files (stdout result)).
    destruct (filter (fun f => should_exclude exclude_patterns f = false)
                (porcelain_files (stdout result))) as [|f kept] eqn:Hkept.
    + reflexivity.
    + cbn [is_empty].
      destruct (subprocess_run sh _ repo_path w1) as [[done|cls msg] w2]; reflexivity.
Qed.

Lemma git_add_all_partition_witness :
  let out := "M  src/App.java" +:+ nl +:+ "?? cache.pyc" +:+ nl
             +:+ "?? target/App.class" +:+ nl in
  subprocess_run (printing_shell out) ["git"; "status"; "--porcelain"] "." tt
    = (Done (mk_completed 0 out ""), tt) /\
  git_add_all (printing_shell out) "." tt
    = (Done (AddReply ["src/App.java"; "cache.pyc"] ["target/App.class"] 2 1), tt,
       [ (["git"; "status"; "--porcelain"], ".");
         (["git"; "add"; "src/App.java"; "cache.pyc"], ".") ]).
Proof.
  intros out.
  assert (Hrun : subprocess_run (printing_shell out) ["git"; "status"; "--porcelain"]
                   "." tt = (Done (mk_completed 0 out ""), tt)) by reflexivity.
  split; [exact Hrun|].
  destruct (git_add_all_partition (printing_shell out) "." tt _ tt Hrun) as [_ H].
  vm_compute in H. vm_compute. exact H.
Defined.

(** ** Pushing and pull requests *)

Lemma str_in_protected (b : string) :
  str_in b protected_branches = false -> b <> "main" /\ b <> "master".
Proof.
  unfold str_in, protected_branches. cbn [existsb]. rewrite orb_false_r.
  intros [H1 H2]%orb_false_iff.
  split; intros ->; [rewrite String.eqb_refl in H1 | rewrite String.eqb_refl in H2];
    discriminate.
Qed.

(** X5. [git_push] raises nothing and never runs [git push] for the
    branch [main] or [master]: besides [git rev-parse], the only
    command it runs is [git push -u remote b] with [b] neither of the
    two.  For a branch given as [main] or [master] it runs no command
    and answers with the warning. *)
Theorem git_push_protects_main {W} (sh : Shell W) (repo_path remote : string)
    (branch : option string) (w : W) :
  let '(r, _, ran) := git_push sh repo_path remote branch w in
  (exists reply, r = Done reply) /\
  (forall args cwd, (args, cwd) ∈ ran ->
     args = ["git"; "rev-parse"; "--abbrev-ref"; "HEAD"] \/
     exists b, args = ["git"; "push"; "-u"; remote; b] /\ b <> "main" /\ b <> "master") /\
  (forall b, branch = Some b -> str_in b protected_branches = true ->
     ran = [] /\
     r = Done (PushWarning
                 ("Branch '" +:+ b +:+
                  "' is protected. Consider creating a pull request instead.") b)).
Proof.
  unfold git_push, ptry, pbind, run, pret.
  destruct branch as [b|]; [destruct (String.eqb_spec b "") as [->|Hne]|];
    repeat
      (cbv beta iota zeta;
       match goal with
       | |- context [subprocess_run sh ?a ?c ?w0] =>
           destruct (subprocess_run sh a c w0) as [[?res|?cls ?msg] ?w1]
       | |- context [str_in ?x protected_branches] =>
           destruct (str_in x protected_branches) eqn:?Hprot
       | |- context [returncode ?r =? 0] => destruct (returncode r =? 0)
       end);
    cbv beta iota zeta; cbn [app];
    (split; [eauto|]);
    (split;
     [ intros args cwd Hin;
       repeat (apply elem_of_cons in Hin as [Hin|Hin];
               [injection Hin as -> ->;
                first [ left; reflexivity
                      | right; eexists; split;
                        [reflexivity | apply str_in_protected; assumption] ]|]);
       apply elem_of_nil in Hin; destruct Hin
     | intros b' Hb' Hp; try discriminate Hb';
       try (injection Hb' as <-); try discriminate Hp;
       try congruence; auto ]).
Qed.


Lemma git_push_protects_main_witness :
  git_push (branch_shell "main") "." "origin" None tt
    = (Done (PushWarning
               "Branch 'main' is protected. Consider creating a pull request instead."
               "main"),
       tt, [(["git"; "rev-parse"; "--abbrev-ref"; "HEAD"], ".")]) /\
  (forall args cwd,
     (args, cwd) ∈ snd (git_push (branch_shell "fix") "." "origin" None tt) ->
     args = ["git"; "rev-parse"; "--abbrev-ref"; "HEAD"] \/
     exists b, args = ["git"; "push"; "-u"; "origin"; b] /\ b <> "main" /\ b <> "master") /\
  snd (git_push (branch_shell "fix") "." "origin" (Some "master") tt) = [].
Proof.
  split; [vm_compute; reflexivity|].
  pose proof (git_push_protects_main (branch_shell "fix") "." "origin" None tt) as H1.
  pose proof (git_push_protects_main (branch_shell "fix") "." "origin" (Some "master") tt)
    as H2.
  destruct (git_push (branch_shell "fix") "." "origin" None tt) as [[r1 w1] ran1].
  destruct (git_push (branch_shell "fix") "." "origin" (Some "master") tt)
    as [[r2 w2] ran2].
  destruct H1 as (_ & Hran & _). destruct H2 as (_ & _ & Hmaster).
  split; [exact Hran|]. apply (Hmaster "master"); reflexivity.
Defined.

(** X6. [git_pull_request] raises nothing and never asks for a pull
    request from the base branch to itself: the only [gh] command it
    runs is [gh pr create] with a head branch different from the base.
    When the current branch is the base, it runs [git rev-parse] alone
    and answers with the key [error]. *)
Theorem git_pull_request_not_to_itself {W} (sh : Shell W) (fmt : pyval -> string)
    (repo_path base title body : string) (coverage : option (gmap string pyval))
    (w : W) :
  let '(r, _, ran) := git_pull_request sh fmt repo_path base title body coverage w in
  let rev_parse := ["git"; "rev-parse"; "--abbrev-ref"; "HEAD"] in
  (exists reply, r = Done reply) /\
  (forall args cwd, (args, cwd) ∈ ran ->
     args = rev_parse \/
     exists head pr_title pr_body,
       args = gh_pr_create base head pr_title pr_body /\ head <> base) /\
  (forall branch_result w1,
     subprocess_run sh rev_parse repo_path w = (Done branch_result, w1) ->
     str_strip (stdout branch_result) = base ->
     ran = [(rev_parse, repo_path)] /\
     r = Done (PrError ("Cannot create PR from '" +:+ base +:+ "' to itself"))).
Proof.
  unfold git_pull_request, ptry, pbind, run, pret.
  destruct (subprocess_run sh ["git"; "rev-parse"; "--abbrev-ref"; "HEAD"] repo_path w)
    as [[br|cls msg] w1]; cbv beta iota zeta.
  - destruct (String.eqb_spec (str_strip (stdout br)) base) as [Heq|Hne].
    + cbn [app]. split; [eauto|]. split.
      * intros args cwd Hin. apply list_elem_of_singleton in Hin.
        injection Hin as -> ->. left. reflexivity.
      * intros br' w1' _ _. auto.
    + destruct (subprocess_run sh _ repo_path w1) as [[res|cls msg] w2];
        [destruct (returncode res =? 0)|];
        cbv beta iota zeta; cbn [app];
        (split; [eauto|]);
        (split;
         [ intros args cwd Hin;
           repeat (apply elem_of_cons in Hin as [Hin|Hin];
                   [injection Hin as -> ->;
                    first [ left; reflexivity
                          | right; do 3 eexists; split; [reflexivity | exact Hne] ]|]);
           apply elem_of_nil in Hin; destruct Hin
         | intros br' w1' Hrun Heq; assert (br = br') by congruence;
           subst br'; contradiction ]).
  - cbn [app]. split; [eauto|]. split.
    + intros args cwd Hin. apply list_elem_of_singleton in Hin.
      injection Hin as -> ->. left. reflexivity.
    + intros br' w1' Hrun. discriminate.
Qed.

Lemma git_pull_request_not_to_itself_witness :
  git_pull_request (branch_shell "main") (fun _ => "") "." "main" "" "" None tt
    = (Done (PrError "Cannot create PR from 'main' to itself"), tt,
       [(["git"; "rev-parse"; "--abbrev-ref"; "HEAD"], ".")]).
Proof.
  pose proof (git_pull_request_not_to_itself (branch_shell "main") (fun _ => "")
                "." "main" "" "" None tt) as H.
  destruct (git_pull_request (branch_shell "main") (fun _ => "") "." "main" "" "" None tt)
    as [[r w'] ran] eqn:Hrun.
  destruct H as (_ & _ & Hself).
  destruct (Hself (mk_completed 0 ("main" +:+ nl) "") tt) as [-> ->];
    [reflexivity | vm_compute; reflexivity |].
  destruct w'. reflexivity.
Defined.

(** X7. Once the current branch is known and is not the base,
    [git_pull_request] answers by what [gh pr create] does.  When the
    command cannot be run at all, as when [gh] is not installed, the
    answer is the key [error]; the note that [gh] was not found is the
    answer to every run of [gh] that ends with a code other than 0. *)
Theorem git_pull_request_gh_outcomes {W} (sh : Shell W) (fmt : pyval -> string)
    (repo_path base title body : string) (coverage : option (gmap string pyval))
    (w : W) (branch_result : completed) (w1 : W) :
  let rev_parse := ["git"; "rev-parse"; "--abbrev-ref"; "HEAD"] in
  let head := str_strip (stdout branch_result) in
  let gh := gh_pr_create base head (pr_title_text title head)
              (pr_body_text fmt body coverage) in
  let ran := [(rev_parse, repo_path); (gh, repo_path)] in
  subprocess_run sh rev_parse repo_path w = (Done branch_result, w1) ->
  head <> base ->
  match subprocess_run sh gh repo_path w1 with
  | (Raised _ msg, w2) =>
      git_pull_request sh fmt repo_path base title body coverage w
        = (Done (PrError ("Failed to create PR: " +:+ msg)), w2, ran)
  | (Done result, w2) =>
      if returncode result =? 0 then
        git_pull_request sh fmt repo_path base title body coverage w
          = (Done (PrCreated "Pull request created successfully"
                     (str_strip (stdout result)) base head), w2, ran)
      else
        exists steps,
          git_pull_request sh fmt repo_path base title body coverage w
            = (Done (PrManual "GitHub CLI (gh) not found. Manual PR creation required."
                       steps), w2, ran)
  end.
Proof.
  cbv zeta. intros Hrev Hne.
  unfold git_pull_request, ptry, pbind, run, pret. rewrite Hrev. cbv beta iota zeta.
  apply String.eqb_neq in Hne. rewrite Hne.
  destruct (subprocess_run sh _ repo_path w1) as [[res|cls msg] w2];
    [destruct (returncode res =? 0)|]; cbv beta iota zeta; cbn [app]; eauto.
Qed.

Lemma git_pull_request_gh_outcomes_witness :
  exists steps,
    git_pull_request (branch_shell "fix") (fun _ => "") "." "main" "" "" None tt
      = (Done (PrManual "GitHub CLI (gh) not found. Manual PR creation required." steps),
         tt,
         [ (["git"; "rev-parse"; "--abbrev-ref"; "HEAD"], ".");
           (gh_pr_create "main" "fix" (pr_title_text "" "fix")
              (pr_body_text (fun _ => "") "" None), ".") ]).
Proof.
  exact (git_pull_request_gh_outcomes (branch_shell "fix") (fun _ => "")
           "." "main" "" "" None tt (mk_completed 0 ("fix" +:+ nl) "") tt
           eq_refl ltac:(vm_compute; discriminate)).
Defined.

Lemma git_status_outcomes_witness :
  git_status (printing_shell ("M  a.txt" +:+ nl +:+ "U" +:+ nl)) "." tt
    = (Done (StatusFailed "Failed to get git status: string index out of range"), tt,
       [(["git"; "status"; "--porcelain"], ".")]).
Proof.
  exact (git_status_outcomes (printing_shell ("M  a.txt" +:+ nl +:+ "U" +:+ nl)) "." tt).
Defined.

(** ** The matcher finds what the pattern describes *)

Lemma or_else_Some {A} (first second : option A) (a : A) :
  or_else first second = Some a -> first = Some a \/ second = Some a.
Proof. destruct first; cbn; [left|right]; assumption. Qed.

Lemma or_else_None {A} (first second : option A) :
  or_else first second = None <-> first = None /\ second = None.
Proof.
  destruct first; cbn; split.
  - discriminate.
  - intros [H _]; discriminate.
  - auto.
  - intros [_ H]; exact H.
Qed.

Lemma after_literal_split (ignorecase : bool) (lit s rest : string) :
  after_literal ignorecase lit s = Some rest ->
  exists pre, s = pre +:+ rest /\ after_literal ignorecase lit pre = Some "".
Proof.
  revert s. induction lit as [|a lit IH]; intros s H.
  - exists "". cbn in H. injection H as ->. split; reflexivity.
  - destruct s as [|b s]; [discriminate|]. cbn [after_literal] in H |- *.
    destruct (if ignorecase then Ascii.eqb (lower a) (lower b) else Ascii.eqb a b) eqn:E;
      [|discriminate].
    destruct (IH s H) as (pre & -> & Hpre).
    exists (String b pre). split; [reflexivity|].
    cbn [after_literal]. rewrite E. exact Hpre.
Qed.

Lemma after_literal_app (ignorecase : bool) (lit pre rest : string) :
  after_literal ignorecase lit pre = Some "" ->
  after_literal ignorecase lit (pre +:+ rest) = Some rest.
Proof.
  revert pre. induction lit as [|a lit IH]; intros pre H.
  - cbn in H. injection H as ->. reflexivity.
  - destruct pre as [|b pre]; [discriminate|].
    change (String b pre +:+ rest) with (String b (pre +:+ rest)).
    cbn [after_literal] in H |- *.
    destruct (if ignorecase then Ascii.eqb (lower a) (lower b) else Ascii.eqb a b);
      [|discriminate].
    apply IH, H.
Qed.

Lemma rep_split {A} (lazy : bool) (cls : ascii -> bool) (min : nat) (s : string)
    (k : string -> option A) (a : A) :
  rep lazy cls min s k = Some a ->
  exists pre rest, s = pre +:+ rest /\ str_all cls pre = true
    /\ (min <= String.length pre)%nat /\ k rest = Some a.
Proof.
  revert min. induction s as [|c s IH]; intros min H.
  - cbn in H. destruct min; [|discriminate].
    exists "", "". repeat split; [cbn; lia | exact H].
  - assert (Hstop : match min with O => k (String c s) | S _ => None end = Some a ->
              exists pre rest, String c s = pre +:+ rest /\ str_all cls pre = true
                /\ (min <= String.length pre)%nat /\ k rest = Some a).
    { destruct min; [|discriminate]. intros Hk.
      exists "", (String c s). repeat split; [cbn; lia | exact Hk]. }
    assert (Hmore : cls c = true -> rep lazy cls (pred min) s k = Some a ->
              exists pre rest, String c s = pre +:+ rest /\ str_all cls pre = true
                /\ (min <= String.length pre)%nat /\ k rest = Some a).
    { intros Hc Hr. destruct (IH _ Hr) as (pre & rest & -> & Hall & Hlen & Hk).
      exists (String c pre), rest. repeat split.
      - cbn [str_all]. rewrite Hc, Hall. reflexivity.
      - cbn [String.length]. lia.
      - exact Hk. }
    cbn [rep] in H. destruct (cls c) eqn:Hc; [|exact (Hstop H)].
    destruct lazy; apply or_else_Some in H as [H|H]; auto.
Qed.

Lemma rep_app {A} (lazy : bool) (cls : ascii -> bool) (min : nat) (pre rest : string)
    (k : string -> option A) :
  str_all cls pre = true -> (min <= String.length pre)%nat ->
  k rest <> None -> rep lazy cls min (pre +:+ rest) k <> None.
Proof.
  intros Hall Hlen Hk. revert min Hlen.
  induction pre as [|c pre IH]; intros min Hlen.
  - cbn in Hlen. assert (min = O) as -> by lia.
    change ("" +:+ rest) with rest. destruct rest as [|c rest]; [exact Hk|].
    cbn [rep]. destruct (cls c); [|exact Hk].
    destruct lazy; rewrite or_else_None; tauto.
  - cbn [str_all] in Hall. apply andb_true_iff in Hall as [Hc Hall].
    change (String c pre +:+ rest) with (String c (pre +:+ rest)).
    cbn [rep]. rewrite Hc.
    assert (Hrec : rep lazy cls (pred min) (pre +:+ rest) k <> None).
    { apply IH; [exact Hall | cbn [String.length] in Hlen; lia]. }
    destruct lazy; rewrite or_else_None; tauto.
Qed.

Lemma str_take_app (pre rest : string) :
  str_take (String.length pre) (pre +:+ rest) = pre.
Proof.
  induction pre as [|c pre IH]; [destruct rest; reflexivity|].
  change (String c pre +:+ rest) with (String c (pre +:+ rest)).
  cbn [String.length str_take]. rewrite IH. reflexivity.
Qed.

Lemma consumed_app (pre rest : string) : consumed (pre +:+ rest) rest = pre.
Proof.
  unfold consumed. rewrite str_length_app.
  replace (String.length pre + String.length rest - String.length rest)%nat
    with (String.length pre) by lia.
  apply str_take_app.
Qed.

(** Soundness: a success of the matcher is a success of the
    continuation after a text that the pattern matches. *)
Lemma rmatch_sound {A} (r : regex) (s : string) (caps : list string)
    (k : string -> list string -> option A) (a : A) :
  rmatch r s caps k = Some a ->
  exists pre rest caps', s = pre +:+ rest /\ matches r pre caps'
    /\ k rest (caps ++ caps')%list = Some a.
Proof.
  revert s caps k. induction r as [ic lit|lazy min cls|r1 IH1 r2 IH2|r1 IH1 r2 IH2|r1 IH1|r1 IH1];
    intros s caps k H; cbn [rmatch] in H.
  - destruct (after_literal ic lit s) as [rest|] eqn:E; [|discriminate].
    destruct (after_literal_split _ _ _ _ E) as (pre & -> & Hpre).
    exists pre, rest, []. rewrite app_nil_r. repeat split; [|exact H].
    constructor. exact Hpre.
  - destruct (rep_split _ _ _ _ _ _ H) as (pre & rest & -> & Hall & Hlen & Hk).
    exists pre, rest, []. rewrite app_nil_r. repeat split; [|exact Hk].
    constructor; assumption.
  - destruct (IH1 _ _ _ H) as (pre1 & rest1 & caps1 & -> & H1 & Hk1).
    destruct (IH2 _ _ _ Hk1) as (pre2 & rest2 & caps2 & -> & H2 & Hk2).
    exists (pre1 +:+ pre2), rest2, (caps1 ++ caps2)%list.
    rewrite str_app_assoc, app_assoc. repeat split; [|exact Hk2].
    constructor; assumption.
  - apply or_else_Some in H as [H|H].
    + destruct (IH1 _ _ _ H) as (pre & rest & caps' & -> & Hm & Hk).
      exists pre, rest, caps'. repeat split; [|exact Hk]. apply matches_alt_left, Hm.
    + destruct (IH2 _ _ _ H) as (pre & rest & caps' & -> & Hm & Hk).
      exists pre, rest, caps'. repeat split; [|exact Hk]. apply matches_alt_right, Hm.
  - apply or_else_Some in H as [H|H].
    + destruct (IH1 _ _ _ H) as (pre & rest & caps' & -> & Hm & Hk).
      exists pre, rest, caps'. repeat split; [|exact Hk]. apply matches_opt_some, Hm.
    + exists "", s, []. rewrite app_nil_r. repeat split; [|exact H]. apply matches_opt_none.
  - destruct (IH1 _ _ _ H) as (pre & rest & caps' & -> & Hm & Hk).
    rewrite consumed_app in Hk.
    exists pre, rest, (caps' ++ [pre])%list. rewrite app_assoc.
    repeat split; [|exact Hk]. constructor. exact Hm.
Qed.

(** Completeness: where the pattern matches a text after which the
    continuation succeeds, the matcher succeeds. *)
Lemma rmatch_complete {A} (r : regex) (pre : string) (caps' : list string) :
  matches r pre caps' ->
  forall (rest : string) (caps : list string) (k : string -> list string -> option A),
    (forall caps1, k rest caps1 <> None) ->
    rmatch r (pre +:+ rest) caps k <> None.
Proof.
  induction 1 as [ic lit s Hlit|lazy min cls s Hall Hlen|r1 r2 s1 s2 c1 c2 _ IH1 _ IH2
                 |r1 r2 s c _ IH|r1 r2 s c _ IH|r1 s c _ IH|r1|r1 s c _ IH];
    intros rest caps k Hk; cbn [rmatch].
  - rewrite (after_literal_app _ _ _ _ Hlit). apply Hk.
  - apply rep_app; [assumption..|apply Hk].
  - rewrite str_app_assoc. apply IH1. intros caps1. apply IH2, Hk.
  - rewrite or_else_None. intros [H1 _]. revert H1. apply IH, Hk.
  - rewrite or_else_None. intros [_ H2]. revert H2. apply IH, Hk.
  - rewrite or_else_None. intros [H1 _]. revert H1. apply IH, Hk.
  - rewrite or_else_None. intros [_ H2]. revert H2. apply Hk.
  - apply IH. intros caps1. apply Hk.
Qed.

Lemma match_here_sound (r : regex) (pos : nat) (s : string) (m : match_object) :
  match_here r pos s = Some m ->
  s = m_text m +:+ m_rest m /\ m_start m = pos /\ matches r (m_text m) (m_groups m).
Proof.
  unfold match_here. intros H.
  destruct (rmatch_sound _ _ _ _ _ H) as (pre & rest & caps' & -> & Hm & Hk).
  rewrite consumed_app in Hk. injection Hk as <-. cbn. auto.
Qed.

Lemma match_here_complete (r : regex) (pos : nat) (pre rest : string)
    (caps : list string) :
  matches r pre caps -> match_here r pos (pre +:+ rest) <> None.
Proof.
  intros Hm. unfold match_here. apply (rmatch_complete _ _ _ Hm). discriminate.
Qed.

(** [re.search] finds a match exactly when some part of the text is
    matched by the pattern. *)
Lemma search_from_sound (r : regex) (pos : nat) (s : string) (m : match_object) :
  search_from r pos s = Some m ->
  exists before, s = before +:+ m_text m +:+ m_rest m
    /\ m_start m = (pos + String.length before)%nat
    /\ matches r (m_text m) (m_groups m).
Proof.
  revert pos. induction s as [|c s IH]; intros pos H; cbn [search_from] in H;
    apply or_else_Some in H as [H|H]; try discriminate.
  - apply match_here_sound in H as (Hs & Hp & Hm).
    exists "". cbn. repeat split; [exact Hs | lia | exact Hm].
  - apply match_here_sound in H as (Hs & Hp & Hm).
    exists "". cbn [String.length]. repeat split; [exact Hs | lia | exact Hm].
  - destruct (IH _ H) as (before & Hs & Hp & Hm).
    exists (String c before). cbn [String.length]. repeat split; [|lia|exact Hm].
    change (String c s = String c (before +:+ m_text m +:+ m_rest m)). congruence.
Qed.

Lemma search_from_complete (r : regex) (pos : nat) (before pre rest : string)
    (caps : list string) :
  matches r pre caps -> search_from r pos (before +:+ pre +:+ rest) <> None.
Proof.
  intros Hm. revert pos. induction before as [|c before IH]; intros pos.
  - change ("" +:+ pre +:+ rest) with (pre +:+ rest).
    pose proof (match_here_complete r pos pre rest caps Hm) as Hh.
    destruct (pre +:+ rest); cbn [search_from]; rewrite or_else_None; tauto.
  - change (String c before +:+ pre +:+ rest)
      with (String c (before +:+ pre +:+ rest)).
    cbn [search_from]. rewrite or_else_None. intros [_ H]. revert H. apply IH.
Qed.

Lemma re_search_iff (r : regex) (content : string) :
  re_search r content <> None <->
  exists before text after caps,
    content = before +:+ text +:+ after /\ matches r text caps.
Proof.
  unfold re_search. split.
  - destruct (search_from r 0 content) as [m|] eqn:E; [intros _|congruence].
    destruct (search_from_sound _ _ _ _ E) as (before & Hs & _ & Hm).
    exists before, (m_text m), (m_rest m), (m_groups m). auto.
  - intros (before & text & after & caps & -> & Hm).
    eapply search_from_complete, Hm.
Qed.

(** Every match of [re.finditer] is a part of the text that the pattern
    matches, at the position it reports. *)
Lemma finditer_from_sound (r : regex) (skip pos : nat) (s : string) (m : match_object) :
  m ∈ finditer_from r skip pos s ->
  exists before, s = before +:+ m_text m +:+ m_rest m
    /\ m_start m = (pos + String.length before)%nat
    /\ matches r (m_text m) (m_groups m).
Proof.
  revert skip pos. induction s as [|c s IH]; intros skip pos H.
  - destruct skip; cbn [finditer_from] in H; [|apply elem_of_nil in H; tauto].
    destruct (match_here r pos "") as [m'|] eqn:E; [|apply elem_of_nil in H; tauto].
    apply list_elem_of_singleton in H as ->.
    apply match_here_sound in E as (Hs & Hp & Hm).
    exists "". cbn [String.length]. repeat split; [exact Hs | lia | exact Hm].
  - assert (Hrec : forall skip', m ∈ finditer_from r skip' (S pos) s ->
              exists before, String c s = before +:+ m_text m +:+ m_rest m
                /\ m_start m = (pos + String.length before)%nat
                /\ matches r (m_text m) (m_groups m)).
    { intros skip' H'. destruct (IH _ _ H') as (before & Hs & Hp & Hm).
      exists (String c before). cbn [String.length]. repeat split; [|lia|exact Hm].
      change (String c s = String c (before +:+ m_text m +:+ m_rest m)). congruence. }
    destruct skip; cbn [finditer_from] in H; [|eauto].
    destruct (match_here r pos (String c s)) as [m'|] eqn:E; [|eauto].
    apply elem_of_cons in H as [->|H]; [|eauto].
    apply match_here_sound in E as (Hs & Hp & Hm).
    exists "". cbn [String.length]. repeat split; [exact Hs | lia | exact Hm].
Qed.

Lemma re_finditer_sound (r : regex) (content : string) (m : match_object) :
  m ∈ re_finditer r content ->
  exists before, content = before +:+ m_text m +:+ m_rest m
    /\ m_start m = String.length before
    /\ matches r (m_text m) (m_groups m).
Proof.
  intros H. destruct (finditer_from_sound _ _ _ _ _ H) as (before & Hs & Hp & Hm).
  exists before. auto.
Qed.

(** ** The review of a file *)

Ltac invert_matches :=
  repeat match goal with
  | H : matches (Seq _ _) _ _ |- _ => inversion H; subst; clear H
  | H : matches (Group _) _ _ |- _ => inversion H; subst; clear H
  | H : matches (Alt _ _) _ _ |- _ => inversion H; subst; clear H
  | H : matches (Opt _) _ _ |- _ => inversion H; subst; clear H
  | H : matches (Lit _ _) _ _ |- _ => inversion H; subst; clear H
  | H : matches (Rep _ _ _) _ _ |- _ => inversion H; subst; clear H
  end.

Lemma after_literal_exact (lit s : string) :
  after_literal false lit s = Some "" <-> s = lit.
Proof.
  revert s. induction lit as [|a lit IH]; intros s.
  - cbn. split; [intros [= ->]; reflexivity | intros ->; reflexivity].
  - destruct s as [|b s]; cbn [after_literal]; [split; discriminate|].
    destruct (Ascii.eqb a b) eqn:E.
    + apply Ascii.eqb_eq in E as ->. rewrite IH. split; congruence.
    + apply Ascii.eqb_neq in E. split; [discriminate | congruence].
Qed.

Lemma after_literal_lower (lit s : string) :
  after_literal true lit s = Some "" <-> str_lower s = str_lower lit.
Proof.
  revert s. induction lit as [|a lit IH]; intros s.
  - cbn. destruct s; cbn; split; congruence.
  - destruct s as [|b s]; cbn [after_literal str_lower]; [split; discriminate|].
    destruct (Ascii.eqb (lower a) (lower b)) eqn:E.
    + apply Ascii.eqb_eq in E. rewrite IH, E. split; congruence.
    + apply Ascii.eqb_neq in E. split; [discriminate | congruence].
Qed.

Lemma str_split_last (sep : ascii) (s : string) :
  str_split sep s <> [] /\
  exists pre, s = pre +:+ List.last (str_split sep s) ""
    /\ (tail (str_split sep s) = [] -> pre = "").
Proof.
  induction s as [|c s (Hne & pre & Hs & Hone)]; cbn [str_split].
  - split; [discriminate|]. exists "". split; reflexivity.
  - destruct (Ascii.eqb c sep).
    + split; [discriminate|]. exists (String c pre). split.
      * destruct (str_split sep s) as [|piece pieces]; [congruence|].
        change (String c s = String c (pre +:+ List.last (piece :: pieces) "")).
        congruence.
      * cbn [tail]. intros H. congruence.
    + destruct (str_split sep s) as [|piece pieces]; [congruence|].
      split; [discriminate|]. destruct pieces as [|piece' pieces].
      * exists "". cbn [tail List.last] in *. rewrite (Hone eq_refl) in Hs.
        change ("" +:+ piece) with piece in Hs. split; [|reflexivity].
        change (String c s = String c piece). congruence.
      * exists (String c pre). split; [|discriminate].
        change (String c s = String c (pre +:+ List.last (piece :: piece' :: pieces) "")).
        congruence.
Qed.

Lemma last_segment_suffix (i : string) : exists pre, i = pre +:+ last_segment i.
Proof.
  destruct (str_split_last "." i) as (_ & pre & H & _). exists pre. exact H.
Qed.

Lemma substring_of_trans (a b c : string) :
  substring_of a b -> substring_of b c -> substring_of a c.
Proof.
  intros (b1 & b2 & ->) (c1 & c2 & ->).
  exists (c1 +:+ b1), (b2 +:+ c2). rewrite !str_app_assoc. reflexivity.
Qed.

Lemma filter_none {A} (f : A -> bool) (l : list A) :
  (forall x, x ∈ l -> f x = false) -> List.filter f l = [].
Proof.
  induction l as [|x l IH]; intros H; [reflexivity|]. cbn [List.filter].
  rewrite (H x (list_elem_of_here _ _)). apply IH.
  intros y Hy. apply H, list_elem_of_further, Hy.
Qed.

(** Every import that the pattern of line 590 finds is a part of the
    text. *)
Lemma imports_of_substring (content i : string) :
  i ∈ imports_of content -> substring_of i content.
Proof.
  unfold imports_of. intros H. apply list_elem_of_fmap in H as (m & -> & Hm).
  apply re_finditer_sound in Hm as (before & Hc & _ & Hm).
  unfold import_pattern, seq in Hm. unfold group. invert_matches.
  match goal with H : _ = m_text m |- _ => rewrite <- H end.
  cbn [pred app nth].
  match goal with |- substring_of ?g (_ +:+ (?a +:+ ?b +:+ ?g' +:+ ?d) +:+ ?r) =>
    exists (before +:+ a +:+ b), (d +:+ r) end.
  rewrite !str_app_assoc. reflexivity.
Qed.

Lemma unused_imports_none (content : string) : unused_imports content = [].
Proof.
  unfold unused_imports. apply filter_none. intros i Hi.
  apply negb_false_iff, str_contains_substring.
  apply (substring_of_trans _ i); [|apply imports_of_substring, Hi].
  destruct (last_segment_suffix i) as (pre & H).
  exists pre, "". rewrite str_app_empty. exact H.
Qed.

Lemma code_review_Review (open_read : string -> outcome string)
    (file_path file : string) (issues : list issue) (total : Z) :
  code_review open_read file_path = Review file issues total ->
  exists content, open_read file_path = Done content /\ file = file_path
    /\ issues = review_issues content /\ total = Z.of_nat (length issues).
Proof.
  unfold code_review. destruct (open_read file_path) as [content|cls msg]; cbn.
  - intros [= <- <- <-]. exists content. auto.
  - destruct (String.eqb cls "FileNotFoundError"); discriminate.
Qed.

Lemma code_review_Done (open_read : string -> outcome string)
    (file_path content : string) :
  open_read file_path = Done content ->
  code_review open_read file_path
    = Review file_path (review_issues content)
        (Z.of_nat (length (review_issues content))).
Proof. unfold code_review. intros ->. reflexivity. Qed.

Lemma elem_of_search_issue (r : regex) (content : string) (found i : issue) :
  i ∈ search_issue r content found <-> i = found /\ re_search r content <> None.
Proof.
  unfold search_issue. destruct (re_search r content).
  - rewrite list_elem_of_singleton. split; [intros ->; split; congruence | tauto].
  - rewrite elem_of_nil. split; [tauto | intros [_ H]; congruence].
Qed.

Lemma elem_of_long_method_issues (content : string) (i : issue) :
  i ∈ long_method_issues content -> exists method, i = Smell "Long Method" method "Extract methods".
Proof.
  unfold long_method_issues. intros H. apply list_elem_of_In, in_flat_map in H as (m & _ & H).
  destruct (count_lines 1 1 (m_rest m) >? 50); [|destruct H].
  destruct H as [<-|[]]. eauto.
Qed.

Lemma elem_of_documentation_issues (content : string) (i : issue) :
  i ∈ documentation_issues content -> exists text, i = Style "Missing Documentation" text.
Proof.
  unfold documentation_issues.
  destruct (_ >? _); [|intros H; apply elem_of_nil in H; tauto].
  intros H. apply list_elem_of_singleton in H. eauto.
Qed.

Lemma import_issues_none (content : string) : import_issues content = [].
Proof. unfold import_issues. rewrite unused_imports_none. reflexivity. Qed.

(** The security issues of a review are those of the three searches. *)
Lemma review_issues_security (content security fix_ : string) :
  Security security fix_ ∈ review_issues content <->
    (Security security fix_ = Security "SQL Injection" "Use PreparedStatement"
       /\ re_search sql_pattern content <> None)
    \/ (Security security fix_ = Security "Insecure Logging" "Use logger.info()"
       /\ re_search logging_pattern content <> None)
    \/ (Security security fix_ = Security "Command Injection" "Validate input"
       /\ re_search exec_pattern content <> None).
Proof.
  unfold review_issues. rewrite import_issues_none, app_nil_r.
  rewrite !elem_of_app, !elem_of_search_issue. split; [|tauto].
  intros [H|[H|[H|[H|H]]]]; auto.
  - apply elem_of_long_method_issues in H as (method & H). discriminate.
  - apply elem_of_documentation_issues in H as (text & H). discriminate.
Qed.

Lemma lower_is_quote (c : ascii) : lower c = double_quote -> c = double_quote.
Proof.
  destruct c as [[] [] [] [] [] [] [] []]; vm_compute; intros H;
    solve [reflexivity | discriminate H].
Qed.

Lemma lower_is_plus (c : ascii) : lower c = "+"%char -> c = "+"%char.
Proof.
  destruct c as [[] [] [] [] [] [] [] []]; vm_compute; intros H;
    solve [reflexivity | discriminate H].
Qed.

Lemma matches_sql_pattern (text : string) :
  (exists caps, matches sql_pattern text caps) <-> sql_text text.
Proof.
  unfold sql_pattern, seq, sql_text. split.
  - intros (caps & H). invert_matches;
      repeat match goal with
      | H : after_literal true _ _ = Some "" |- _ => apply after_literal_lower in H
      end.
    + right; right.
      match goal with
      | Hq : str_lower ?q = str_lower (String double_quote ""),
        Hp : str_lower ?p = str_lower "+",
        Hs : str_lower ?sel = str_lower "SELECT" |- context [?q +:+ ?a +:+ ?p +:+ ?b +:+ ?sel] =>
          exists a, b, sel;
          destruct q as [|cq [|? ?]]; try discriminate Hq;
          destruct p as [|cp [|? ?]]; try discriminate Hp;
          injection Hq as Hq; injection Hp as Hp;
          apply lower_is_quote in Hq as ->; apply lower_is_plus in Hp as ->
      end.
      repeat split; assumption.
    + left. assumption.
    + right; left. assumption.
  - intros [H|[H|(a & b & sel & -> & Ha & Hb & Hsel)]].
    + exists []. apply matches_alt_right, matches_alt_left, matches_lit.
      apply after_literal_lower. exact H.
    + exists []. apply matches_alt_right, matches_alt_right, matches_lit.
      apply after_literal_lower. exact H.
    + exists ([] ++ [] ++ [] ++ [] ++ [])%list. apply matches_alt_left.
      change (String double_quote a +:+ "+" +:+ b +:+ sel)
        with (String double_quote "" +:+ a +:+ "+" +:+ b +:+ sel).
      repeat apply matches_seq.
      * apply matches_lit. reflexivity.
      * apply matches_rep; [exact Ha | lia].
      * apply matches_lit. reflexivity.
      * apply matches_rep; [exact Hb | lia].
      * apply matches_lit, after_literal_lower. exact Hsel.
Qed.

Lemma matches_literal (lit text : string) :
  (exists caps, matches (Lit false lit) text caps) <-> text = lit.
Proof.
  split.
  - intros (caps & H). invert_matches. apply after_literal_exact. assumption.
  - intros ->. exists []. apply matches_lit, after_literal_exact. reflexivity.
Qed.

Lemma re_search_literal (lit content : string) :
  re_search (Lit false lit) content <> None <-> str_contains lit content = true.
Proof.
  rewrite re_search_iff, str_contains_substring. unfold substring_of. split.
  - intros (before & text & after & caps & -> & H).
    assert (text = lit) as -> by (apply matches_literal; eauto). eauto.
  - intros (before & after & ->). exists before, lit, after, [].
    split; [reflexivity|]. apply matches_lit, after_literal_exact. reflexivity.
Qed.

Lemma re_search_alt (r1 r2 : regex) (content : string) :
  re_search (Alt r1 r2) content <> None <->
  re_search r1 content <> None \/ re_search r2 content <> None.
Proof.
  rewrite !re_search_iff. split.
  - intros (before & text & after & caps & -> & H). inversion H; subst.
    + left. eauto 6.
    + right. eauto 6.
  - intros [(before & text & after & caps & -> & H)|(before & text & after & caps & -> & H)];
      exists before, text, after, caps; split; try reflexivity.
    + apply matches_alt_left, H.
    + apply matches_alt_right, H.
Qed.

(** X8.  [code_review] never reports the style issue [Unused Imports]:
    the last segment of every import that the pattern of line 590 finds
    is itself a part of the text of the file, so that the list [unused]
    of line 591 is empty whatever the file holds. *)
Theorem code_review_never_unused_imports (open_read : string -> outcome string)
    (file_path file : string) (issues : list issue) (total : Z) :
  code_review open_read file_path = Review file issues total ->
  forall fix_, Style "Unused Imports" fix_ ∉ issues.
Proof.
  intros H fix_ Hin.
  apply code_review_Review in H as (content & _ & _ & -> & _).
  unfold review_issues in Hin. rewrite import_issues_none, app_nil_r in Hin.
  rewrite !elem_of_app, !elem_of_search_issue in Hin.
  destruct Hin as [Hin|[[Hin _]|[[Hin _]|[[Hin _]|Hin]]]]; try discriminate Hin.
  - apply elem_of_long_method_issues in Hin as (method & Hin). discriminate.
  - apply elem_of_documentation_issues in Hin as (text & Hin). discriminate.
Qed.

(** X9.  [code_review] reports [SQL Injection] exactly when the file
    holds [update] or [delete] in any letter case, or a double quote
    followed on its line by [+] and then by [select] in any letter
    case: in the pattern of line 572 the alternatives [UPDATE] and
    [DELETE] stand alone, without the quote and the [+]. *)
Theorem code_review_sql_injection (open_read : string -> outcome string)
    (file_path content : string) :
  open_read file_path = Done content ->
  exists issues,
    code_review open_read file_path
      = Review file_path issues (Z.of_nat (length issues))
    /\ (Security "SQL Injection" "Use PreparedStatement" ∈ issues
        <-> exists text, substring_of text content /\ sql_text text).
Proof.
  intros Hread. exists (review_issues content).
  split; [apply code_review_Done, Hread|].
  rewrite review_issues_security, re_search_iff. unfold substring_of. split.
  - intros [[_ (before & text & after & caps & -> & H)]|[[H _]|[H _]]];
      try discriminate H.
    exists text. split; [eauto|]. apply matches_sql_pattern. eauto.
  - intros (text & (before & after & ->) & H).
    apply matches_sql_pattern in H as (caps & H). left. eauto 8.
Qed.

(** X10.  The two other security checks of [code_review] are tests for
    a part of the text: [Insecure Logging] is reported exactly when the
    file holds [System.out.println] or [printStackTrace], [Command
    Injection] exactly when it holds [Runtime.getRuntime().exec],
    wherever they stand, in a comment or a string as well. *)
Theorem code_review_literal_checks (open_read : string -> outcome string)
    (file_path content : string) :
  open_read file_path = Done content ->
  exists issues,
    code_review open_read file_path
      = Review file_path issues (Z.of_nat (length issues))
    /\ (Security "Insecure Logging" "Use logger.info()" ∈ issues
        <-> str_contains "System.out.println" content = true
            \/ str_contains "printStackTrace" content = true)
    /\ (Security "Command Injection" "Validate input" ∈ issues
        <-> str_contains "Runtime.getRuntime().exec" content = true).
Proof.
  intros Hread. exists (review_issues content).
  split; [apply code_review_Done, Hread|].
  rewrite !review_issues_security. unfold logging_pattern, exec_pattern.
  rewrite re_search_alt, !re_search_literal. split; split.
  - intros [[H _]|[[_ H]|[H _]]]; try discriminate H. exact H.
  - intros H. right; left. split; [reflexivity | exact H].
  - intros [[H _]|[[H _]|[_ H]]]; try discriminate H. exact H.
  - intros H. right; right. split; [reflexivity | exact H].
Qed.

(** ** Dictionaries in the order of their keys *)

Section OrderedDict.
Context {K V : Type} `{EqDecision K}.

Lemma odict_set_keys (k : K) (v : V) (d : list (K * V)) :
  (odict_set k v d).*1 = if decide (k ∈ d.*1) then d.*1 else (d.*1 ++ [k])%list.
Proof.
  induction d as [|[k' v'] d IH]; cbn [odict_set fmap list_fmap fst].
  - rewrite decide_False; [reflexivity | apply not_elem_of_nil].
  - destruct (decide (k = k')) as [->|Hne].
    + rewrite decide_True; [reflexivity | apply list_elem_of_here].
    + cbn [fmap list_fmap fst]. fold (@fmap list _ _ _ (@fst K V)). rewrite IH.
      destruct (decide (k ∈ d.*1)) as [Hin|Hnin].
      * rewrite decide_True; [reflexivity | apply list_elem_of_further, Hin].
      * rewrite decide_False; [reflexivity|].
        intros H. apply elem_of_cons in H as [H|H]; tauto.
Qed.

Lemma odict_set_NoDup (k : K) (v : V) (d : list (K * V)) :
  NoDup d.*1 -> NoDup (odict_set k v d).*1.
Proof.
  intros H. rewrite odict_set_keys. destruct (decide (k ∈ d.*1)); [exact H|].
  apply NoDup_app. split; [exact H|]. split.
  - intros x Hx Hk. apply list_elem_of_singleton in Hk as ->. tauto.
  - apply NoDup_singleton.
Qed.

Lemma odict_set_elem (k k' : K) (v v' : V) (d : list (K * V)) :
  NoDup d.*1 ->
  (k', v') ∈ odict_set k v d <-> (k' = k /\ v' = v) \/ (k' <> k /\ (k', v') ∈ d).
Proof.
  induction d as [|[k0 v0] d IH]; intros Hnd; cbn [odict_set].
  - rewrite list_elem_of_singleton, elem_of_nil. split.
    + intros [= -> ->]. auto.
    + intros [[-> ->]|[_ []]]. reflexivity.
  - cbn [fmap list_fmap fst] in Hnd. apply NoDup_cons in Hnd as [Hnew Hnd].
    destruct (decide (k = k0)) as [<-|Hne].
    + rewrite !elem_of_cons. split.
      * intros [[= -> ->]|H]; [auto|]. right. split; [|auto].
        intros ->. apply Hnew. apply list_elem_of_fmap. exists (k, v'). auto.
      * intros [[-> ->]|[Hk [[= -> ->]|H]]]; tauto.
    + rewrite !elem_of_cons, (IH Hnd). split.
      * intros [[= -> ->]|[[-> ->]|[Hk H]]]; auto.
      * intros [[-> ->]|[Hk [[= -> ->]|H]]]; auto.
Qed.

Context {X : Type} (key : X -> K) (val : X -> V).

Lemma fold_odict_set (xs : list X) :
  let d := fold_left (fun d x => odict_set (key x) (val x) d) xs [] in
  NoDup d.*1 /\
  forall k v, (k, v) ∈ d <->
    exists x, last (filter (fun x => key x = k) xs) = Some x /\ v = val x.
Proof.
  induction xs as [|x xs IH] using rev_ind; cbn zeta.
  - cbn. split; [apply NoDup_nil_2|]. intros k v. rewrite elem_of_nil.
    split; [tauto | intros (x & H & _); discriminate].
  - rewrite fold_left_app. cbn [fold_left]. cbn zeta in IH.
    destruct IH as [Hnd IH]. split; [apply odict_set_NoDup, Hnd|].
    intros k v. rewrite (odict_set_elem _ _ _ _ _ Hnd), IH, filter_app.
    destruct (decide (key x = k)) as [Hk|Hk].
    + rewrite filter_cons_True, filter_nil, last_snoc by exact Hk. split.
      * intros [[_ ->]|[Hne _]]; [eauto | congruence].
      * intros (x' & [= <-] & ->). auto.
    + rewrite filter_cons_False, filter_nil, app_nil_r by exact Hk. split.
      * intros [[-> _]|[_ H]]; [congruence | exact H].
      * intros H. right. split; [congruence | exact H].
Qed.

Lemma first_occurrences_ext (seen1 seen2 ks : list K) :
  (forall k, k ∈ seen1 <-> k ∈ seen2) ->
  first_occurrences seen1 ks = first_occurrences seen2 ks.
Proof.
  revert seen1 seen2. induction ks as [|k ks IH]; intros seen1 seen2 H; [reflexivity|].
  cbn [first_occurrences]. destruct (decide (k ∈ seen1)) as [H1|H1].
  - rewrite decide_True by (apply H, H1). apply IH, H.
  - rewrite decide_False by (rewrite <- H; exact H1). f_equal. apply IH.
    intros k'. rewrite !elem_of_cons, H. reflexivity.
Qed.

Lemma fold_odict_set_keys (xs : list X) (d : list (K * V)) :
  (fold_left (fun d x => odict_set (key x) (val x) d) xs d).*1
    = (d.*1 ++ first_occurrences d.*1 (key <$> xs))%list.
Proof.
  revert d. induction xs as [|x xs IH]; intros d.
  - cbn. rewrite app_nil_r. reflexivity.
  - cbn [fold_left fmap list_fmap]. fold (@fmap list _ _ _ key). rewrite IH, odict_set_keys.
    cbn [first_occurrences]. destruct (decide (key x ∈ d.*1)); [reflexivity|].
    rewrite <- app_assoc. cbn [app]. do 2 f_equal.
    apply first_occurrences_ext. intros k.
    rewrite elem_of_app, !elem_of_cons, elem_of_nil. tauto.
Qed.

End OrderedDict.

(** ** The analysis of a Java source *)

Lemma analyze_java_code_Done (open_read : string -> outcome string)
    (file_path content : string) :
  open_read file_path = Done content ->
  let methods :=
    fold_left (record_method content) (re_finditer method_pattern content) [] in
  analyze_java_code open_read file_path
    = Analysis file_path (Z.of_nat (length methods)) methods.
Proof. unfold analyze_java_code. intros ->. reflexivity. Qed.

Lemma analyze_java_code_Analysis (open_read : string -> outcome string)
    (file_path file : string) (total : Z) (methods : list (Z * gmap string pyval)) :
  analyze_java_code open_read file_path = Analysis file total methods ->
  exists content, open_read file_path = Done content.
Proof.
  unfold analyze_java_code. destruct (open_read file_path) as [content|cls msg]; cbn.
  - eauto.
  - destruct (String.eqb cls "FileNotFoundError"); discriminate.
Qed.

(** X11.  [analyze_java_code] keeps one entry for each line on which a
    match of the method pattern starts, and [total_methods] counts
    these entries: of the methods that start on one line the dictionary
    holds the last, since [methods] is keyed by the line number. *)
Theorem analyze_java_code_one_method_per_line (open_read : string -> outcome string)
    (file_path content : string) :
  open_read file_path = Done content ->
  exists methods,
    analyze_java_code open_read file_path
      = Analysis file_path (Z.of_nat (length methods)) methods
    /\ NoDup methods.*1
    /\ forall line entry, (line, entry) ∈ methods <->
         exists m,
           last (filter (fun m => line_of content m = line)
                   (re_finditer method_pattern content)) = Some m
           /\ entry = method_entry m.
Proof.
  intros Hread. eexists. split; [apply analyze_java_code_Done, Hread|].
  apply (fold_odict_set (line_of content) method_entry).
Qed.

Lemma str_nonempty (s : string) : (1 <= String.length s)%nat -> s <> "".
Proof. intros H ->. cbn in H. lia. Qed.

Lemma matches_method_pattern (text : string) (caps : list string) :
  matches method_pattern text caps ->
  exists visibility return_type name,
    caps = [visibility; return_type; name] /\ is_signature text return_type name.
Proof.
  unfold method_pattern, visibility, seq. intros H. invert_matches;
    repeat match goal with
    | H : after_literal false _ _ = Some "" |- _ => apply after_literal_exact in H; subst
    end;
    cbn [app];
    (eexists _, _, _; split; [reflexivity|]);
    unfold is_signature, is_name, is_blank.
  all: match goal with
       | |- context [?v +:+ ?g1 +:+ (?st +:+ ?g) +:+ ?rt +:+ ?g2 +:+ ?n +:+ ?g3 +:+ "(" +:+ ?ps +:+ ")"] =>
           exists v, g1, (st +:+ g), g2, g3, ps
       | |- context [?v +:+ ?g1 +:+ "" +:+ ?rt +:+ ?g2 +:+ ?n +:+ ?g3 +:+ "(" +:+ ?ps +:+ ")"] =>
           exists v, g1, "", g2, g3, ps
       end.
  all: repeat split; try assumption; try (apply str_nonempty; assumption).
  all: try (left; reflexivity).
  all: try (right; eexists; split; [reflexivity|];
            split; [assumption | apply str_nonempty; assumption]).
  all: set_solver.
Qed.

(** Every entry of an analysis is the entry of a match of the method
    pattern in the text of the file, under the line of the match. *)
Lemma analysis_entry_of_match (open_read : string -> outcome string)
    (file_path file : string) (total : Z)
    (methods : list (Z * gmap string pyval)) (line : Z) (entry : gmap string pyval) :
  analyze_java_code open_read file_path = Analysis file total methods ->
  (line, entry) ∈ methods ->
  exists content m,
    open_read file_path = Done content
    /\ m ∈ re_finditer method_pattern content
    /\ line = line_of content m /\ entry = method_entry m.
Proof.
  intros Hrun Hin.
  destruct (analyze_java_code_Analysis _ _ _ _ _ Hrun) as (content & Hread).
  rewrite (analyze_java_code_Done _ _ _ Hread) in Hrun. injection Hrun as _ _ <-.
  apply (fold_odict_set (line_of content) method_entry) in Hin as (m & Hlast & ->).
  apply last_Some_elem_of, list_elem_of_filter in Hlast as [Hline Hm].
  exists content, m. auto.
Qed.

(** X12.  Every entry that [analyze_java_code] reports is read off the
    file: its signature is a part of the text that starts on the line
    of its key and has the shape of the method pattern, and its return
    type and name are the two names of that signature. *)
Theorem analyze_java_code_entries_are_signatures
    (open_read : string -> outcome string) (file_path file : string) (total : Z)
    (methods : list (Z * gmap string pyval)) (line : Z) (entry : gmap string pyval) :
  analyze_java_code open_read file_path = Analysis file total methods ->
  (line, entry) ∈ methods ->
  exists content before signature after return_type name,
    open_read file_path = Done content
    /\ content = before +:+ signature +:+ after
    /\ line = Z.of_nat (str_count newline before) + 1
    /\ entry = <["name" := PyStr name]>
                 (<["return_type" := PyStr return_type]>
                    (<["signature" := PyStr signature]> ∅))
    /\ is_signature signature return_type name.
Proof.
  intros Hrun Hin.
  destruct (analysis_entry_of_match _ _ _ _ _ _ _ Hrun Hin)
    as (content & m & Hread & Hm & -> & ->).
  apply re_finditer_sound in Hm as (before & Hc & Hstart & Hm).
  apply matches_method_pattern in Hm as (visibility & return_type & name & Hcaps & Hsig).
  exists content, before, (m_text m), (m_rest m), return_type, name.
  repeat split; try assumption.
  - unfold line_of. rewrite Hstart, Hc at 1. rewrite str_take_app. reflexivity.
  - unfold method_entry, group. rewrite Hcaps. reflexivity.
Qed.

(** ** Test templates *)

Lemma concat_empty_cons (x : string) (xs : list string) :
  String.concat "" (x :: xs) = x +:+ String.concat "" xs.
Proof. destruct xs; cbn [String.concat]; [rewrite str_app_empty|]; reflexivity. Qed.

Lemma fold_left_append {A} (f : A -> string) (xs : list A) (init : string) :
  fold_left (fun acc x => acc +:+ f x) xs init
    = init +:+ String.concat "" (f <$> xs).
Proof.
  revert init. induction xs as [|x xs IH]; intros init.
  - cbn. rewrite str_app_empty. reflexivity.
  - cbn [fold_left fmap list_fmap]. fold (@fmap list _ _ _ f).
    rewrite IH, concat_empty_cons, str_app_assoc. reflexivity.
Qed.

(** X13.  [generate_specification_tests] writes tests for the first
    five distinct method names of the file, in the order of their first
    occurrence: overloads of a name are tested once, and a sixth name
    and those after it are left without tests. *)
Theorem generate_specification_tests_first_five
    (open_read : string -> outcome string) (java_file_path class_name content : string) :
  open_read java_file_path = Done content ->
  generate_specification_tests open_read java_file_path class_name
    = spec_header class_name
      +:+ String.concat ""
            (spec_tests_of
               <$> take 5 (first_occurrences []
                             ((fun m => group m 3)
                                <$> re_finditer method_pattern content)))
      +:+ "}" +:+ nl.
Proof.
  intros Hread. unfold generate_specification_tests. rewrite Hread.
  cbn [obind otry]. rewrite (fold_left_append spec_tests_of).
  unfold method_types.
  rewrite (fold_odict_set_keys (fun m => group m 3) (fun m => group m 2)).
  cbn [fmap list_fmap app]. rewrite str_app_assoc. reflexivity.
Qed.

Lemma ofold_template_step (capitalize : string -> string) {K}
    (items : list (K * pyval)) (names : list string) (test_class : string) :
  Forall2 (fun item name => exists d, item.2 = PyDict d /\ d !! "name" = Some (PyStr name))
    items names ->
  ofold (template_step capitalize) items test_class
    = Done (test_class
            +:+ String.concat "" ((fun name => template_test (capitalize name)) <$> names)).
Proof.
  intros H. revert test_class.
  induction H as [|[k v] name items names (d & Hv & Hname) _ IH]; intros test_class.
  - cbn. rewrite str_app_empty. reflexivity.
  - cbn [ofold]. unfold template_step at 1. cbn [snd] in *. subst v.
    cbn [subscript_name]. rewrite Hname. cbn [obind call_capitalize].
    rewrite IH. cbn [fmap list_fmap].
    rewrite concat_empty_cons, str_app_assoc. reflexivity.
Qed.

(** X14.  [generate_test_template] accepts what [analyze_java_code]
    returns: on the methods of an analysis it raises nothing and writes
    one test for each entry, named after its capitalized name, in the
    order of the lines. *)
Theorem generate_test_template_of_analysis
    (open_read : string -> outcome string) (capitalize : string -> string)
    (file_path file class_name : string) (total : Z)
    (methods : list (Z * gmap string pyval)) :
  analyze_java_code open_read file_path = Analysis file total methods ->
  exists names,
    Forall2 (fun item name => item.2 !! "name" = Some (PyStr name) /\ is_name name)
      methods names
    /\ generate_test_template capitalize class_name (prod_map id PyDict <$> methods)
       = Done (template_header class_name
               +:+ String.concat ""
                     ((fun name => template_test (capitalize name)) <$> names)
               +:+ "}" +:+ nl).
Proof.
  intros Hrun.
  assert (Hall : Forall (fun item => exists name,
                    item.2 !! "name" = Some (PyStr name) /\ is_name name) methods).
  { apply Forall_forall. intros [line entry] Hin.
    destruct (analysis_entry_of_match _ _ _ _ _ _ _ Hrun Hin)
      as (content & m & _ & Hm & _ & ->).
    apply re_finditer_sound in Hm as (_ & _ & _ & Hm).
    apply matches_method_pattern in Hm as (visibility & return_type & name & Hcaps & Hsig).
    exists name. split.
    - cbn [snd]. unfold method_entry, group. rewrite Hcaps. reflexivity.
    - destruct Hsig as (? & ? & ? & ? & ? & ? & _ & _ & _ & _ & _ & _ & _ & _ & Hname & _).
      exact Hname. }
  clear Hrun.
  assert (Hnames : exists names,
            Forall2 (fun item name => item.2 !! "name" = Some (PyStr name) /\ is_name name)
              methods names).
  { induction Hall as [|item items (name & Hitem) _ (names & IH)].
    - exists []. constructor.
    - exists (name :: names). constructor; assumption. }
  destruct Hnames as (names & Hnames). exists names. split; [exact Hnames|].
  unfold generate_test_template.
  rewrite (ofold_template_step capitalize _ names).
  - cbn [obind]. rewrite str_app_assoc. reflexivity.
  - clear Hall. induction Hnames as [|[line entry] name items names' [Hname _] _ IH];
      cbn [fmap list_fmap]; constructor; [|exact IH].
    exists entry. split; [reflexivity | exact Hname].
Qed.

(** X15.  [generate_test_template] has no handler: on a dictionary of
    methods in which an entry lacks the key [name], after entries that
    have it, the tool raises [KeyError] and returns no template. *)
Theorem generate_test_template_missing_name (capitalize : string -> string) {K}
    (class_name : string) (good rest : list (K * pyval)) (names : list string)
    (k : K) (d : gmap string pyval) :
  Forall2 (fun item name => exists d, item.2 = PyDict d /\ d !! "name" = Some (PyStr name))
    good names ->
  d !! "name" = None ->
  generate_test_template capitalize class_name (good ++ (k, PyDict d) :: rest)
    = Raised "KeyError" "'name'".
Proof.
  intros Hgood Hd. unfold generate_test_template.
  assert (Hfold : forall test_class,
            ofold (template_step capitalize) (good ++ (k, PyDict d) :: rest) test_class
              = Raised "KeyError" "'name'").
  { induction Hgood as [|[k0 v0] name items names' (d0 & Hv & Hname) _ IH];
      intros test_class.
    - cbn [app ofold]. unfold template_step at 1. cbn [snd subscript_name].
      rewrite Hd. reflexivity.
    - cbn [app ofold]. unfold template_step at 1. cbn [snd] in *. subst v0.
      cbn [subscript_name]. rewrite Hname. cbn [obind call_capitalize]. apply IH. }
  rewrite Hfold. reflexivity.
Qed.

(** ** The answers of the coverage tools *)

Lemma for_each_invariant {A S} (P : S -> Prop) (step : S -> A -> result S)
    (xs : list A) (acc acc' : S) :
  (forall s x s', P s -> step s x = Ret s' -> P s') ->
  P acc -> for_each step xs acc = Ret acc' -> P acc'.
Proof.
  intros Hstep. revert acc. induction xs as [|x xs IH]; intros acc Hacc Hrun.
  - injection Hrun as <-. exact Hacc.
  - cbn [for_each] in Hrun. destruct (step acc x) as [s|] eqn:Hs; [|discriminate].
    cbn [bind] in Hrun. apply (IH s); [apply (Hstep acc x s Hacc Hs) | exact Hrun].
Qed.

(** One element on which the step raises makes the loop raise. *)
Lemma for_each_raises {A S} (step : S -> A -> result S) (xs : list A) (x : A) (acc : S) :
  x ∈ xs -> (forall s, exists e, step s x = Raise e) ->
  exists e, for_each step xs acc = Raise e.
Proof.
  intros Hin Hx. revert acc. induction xs as [|y xs IH]; intros acc.
  - apply elem_of_nil in Hin. destruct Hin.
  - cbn [for_each]. destruct (step acc y) as [s|e] eqn:Hs; cbn [bind]; [|eauto].
    apply elem_of_cons in Hin as [->|Hin]; [|apply IH, Hin].
    destruct (Hx acc) as (e & He). congruence.
Qed.

Lemma coverage_dict_insert (v : counter_kind -> pyval) (k : counter_kind) (x : pyval) :
  <[kind_key k := x]> (coverage_dict v) = coverage_dict (with_kind v k x).
Proof. destruct k; reflexivity. Qed.

Lemma count_counter_cases (h : Host) (key : string) (data data' : gmap string pyval)
    (counter : Element) :
  count_counter h key data counter = Ret data' ->
  data' = data \/ exists p, data' = <[key := PyFloat p]> data.
Proof.
  unfold count_counter.
  destruct (py_int h (get counter "covered" _)) as [covered|]; [|discriminate].
  destruct (py_int h (get counter "missed" _)) as [missed|]; [|discriminate].
  cbn [bind]. destruct (0 <? covered + missed); [|intros [= <-]; auto].
  destruct (percentage covered (covered + missed)) as [p|]; [|discriminate].
  cbn [bind]. intros [= <-]. eauto.
Qed.

Lemma for_each_count_counter_percentages (h : Host) (k : counter_kind)
    (cs : list Element) (data data' : gmap string pyval) :
  percentages data ->
  for_each (count_counter h (kind_key k)) cs data = Ret data' ->
  percentages data'.
Proof.
  apply for_each_invariant. intros s c s' (v & -> & Hv) Hstep.
  apply count_counter_cases in Hstep as [->|(p & ->)].
  - exists v. auto.
  - exists (with_kind v k (PyFloat p)). split; [apply coverage_dict_insert|].
    intros k'. destruct k, k'; cbn; first [apply Hv | right; eauto].
Qed.

Lemma total_coverage_cases (h : Host) (project_path : string) :
  exists data, total_coverage h project_path = Ret data
    /\ ((exists msg, data = error_dict msg) \/ percentages data).
Proof.
  unfold total_coverage. cbv zeta.
  destruct (str_contains _ _); [eauto|].
  destruct (ET_parse h _) as [root|e]; cbn [bind].
  2: { cbn [try_except]. destruct (exn_cls e); eauto. }
  assert (H0 : percentages
                 (<["line_coverage" := PyInt 0]>
                  (<["branch_coverage" := PyInt 0]>
                   (<["method_coverage" := PyInt 0]>
                    (<["instruction_coverage" := PyInt 0]> ∅))))).
  { exists (fun _ => PyInt 0). split; [reflexivity|]. intros _. left. reflexivity. }
  revert H0. generalize (<["line_coverage" := PyInt 0]>
                  (<["branch_coverage" := PyInt 0]>
                   (<["method_coverage" := PyInt 0]>
                    (<["instruction_coverage" := PyInt 0]> (∅ : gmap string pyval))))).
  intros d0 H0.
  destruct (for_each (count_counter h "line_coverage") _ d0) as [d1|e] eqn:E1; cbn [bind].
  2: { cbn [try_except]. destruct (exn_cls e); eauto. }
  apply (for_each_count_counter_percentages h LINE _ _ _ H0) in E1.
  destruct (for_each (count_counter h "branch_coverage") _ d1) as [d2|e] eqn:E2; cbn [bind].
  2: { cbn [try_except]. destruct (exn_cls e); eauto. }
  apply (for_each_count_counter_percentages h BRANCH _ _ _ E1) in E2.
  destruct (for_each (count_counter h "method_coverage") _ d2) as [d3|e] eqn:E3; cbn [bind].
  2: { cbn [try_except]. destruct (exn_cls e); eauto. }
  apply (for_each_count_counter_percentages h METHOD _ _ _ E2) in E3.
  destruct (for_each (count_counter h "instruction_coverage") _ d3) as [d4|e] eqn:E4;
    cbn [bind].
  2: { cbn [try_except]. destruct (exn_cls e); eauto. }
  apply (for_each_count_counter_percentages h INSTRUCTION _ _ _ E3) in E4.
  cbn [try_except]. eauto.
Qed.

(** X16.  [total_coverage] raises nothing and answers in one of two
    shapes, never a mix of them: the key [error] alone, or the four
    coverage keys alone, each with the default [0] or a float.  A fault
    in one of the four loops discards what the loops before it
    stored. *)
Theorem total_coverage_error_or_percentages (h : Host) (project_path : string) :
  exists data, total_coverage h project_path = Ret data
    /\ ((exists msg, data = error_dict msg /\ forall k, data !! kind_key k = None)
        \/ (percentages data /\ data !! "error" = None)).
Proof.
  destruct (total_coverage_cases h project_path) as (data & Hrun & [(msg & ->)|Hp]).
  - exists (error_dict msg). split; [exact Hrun|]. left. exists msg.
    split; [reflexivity|]. intros k. destruct k; reflexivity.
  - exists data. split; [exact Hrun|]. right. split; [exact Hp|].
    destruct Hp as (v & -> & _). apply coverage_dict_no_error.
Qed.

Lemma probe_found (h : Host) (paths : list string) (path : string) :
  snd (probe h paths) = Some path -> path ∈ paths.
Proof.
  induction paths as [|p paths IH]; [discriminate|]. cbn [probe].
  destruct (os_path_exists h p).
  - intros [= ->]. apply list_elem_of_here.
  - destruct (probe h paths) as [asked found]. cbn [snd] in *.
    intros H. apply list_elem_of_further, IH, H.
Qed.

(** The string that [find_jacoco_path] returns holds every part of the
    project path, or is the not-found message. *)
Lemma find_jacoco_path_holds (h : Host) (project_path part : string) :
  substring_of part project_path ->
  substring_of part (find_jacoco_path h project_path)
  \/ find_jacoco_path h project_path = not_found_message.
Proof.
  intros (before & after & ->). unfold find_jacoco_path.
  destruct (snd (probe h _)) as [path|] eqn:E; [left | right; reflexivity].
  apply probe_found in E. unfold jacoco_paths in E.
  rewrite !elem_of_cons, elem_of_nil in E.
  destruct E as [->|[->|[->|[]]]]; eexists before, _;
    rewrite !str_app_assoc; reflexivity.
Qed.

(** X17.  For a project path that itself holds the words [not found],
    [total_coverage] and [missing_coverage] answer with the key
    [error] whatever the file system holds: the guard of lines 107 and
    190 reads the located path, which starts with the project path.
    When the report exists, the error text is the path of the report. *)
Theorem coverage_tools_refuse_not_found_in_path (h : Host)
    (file_path project_path : string) :
  str_contains "not found" project_path = true ->
  total_coverage h project_path
    = Ret (error_dict (find_jacoco_path h project_path))
  /\ missing_coverage h file_path project_path
    = Ret (error_dict (find_jacoco_path h project_path))
  /\ (forall path, path ∈ jacoco_paths project_path ->
        os_path_exists h path = true ->
        find_jacoco_path h project_path ∈ jacoco_paths project_path).
Proof.
  intros Hpath.
  assert (Hguard : str_contains "not found" (find_jacoco_path h project_path) = true).
  { apply str_contains_substring in Hpath.
    destruct (find_jacoco_path_holds h project_path _ Hpath) as [H| ->].
    - apply str_contains_substring, H.
    - reflexivity. }
  split; [|split].
  - unfold total_coverage. cbv zeta. rewrite Hguard. reflexivity.
  - unfold missing_coverage. cbv zeta. rewrite Hguard. reflexivity.
  - intros path Hin Hex. unfold find_jacoco_path.
    destruct (snd (probe h _)) as [found|] eqn:E; [apply (probe_found _ _ _ E)|].
    exfalso. clear Hguard. revert E. generalize (jacoco_paths project_path) Hin.
    intros paths. induction paths as [|p paths IH]; intros Hin'.
    + apply elem_of_nil in Hin'. destruct Hin'.
    + cbn [probe]. destruct (os_path_exists h p) eqn:Ep; [discriminate|].
      apply elem_of_cons in Hin' as [->|Hin']; [congruence|].
      destruct (probe h paths) as [asked found]. cbn [snd] in *. apply IH, Hin'.
Qed.

Lemma check_line_without_number (h : Host) (line : Element) (acc : list pyval) :
  ci_zero h line = true -> get line "nr" ArgNone = ArgNone ->
  exists e, check_line h acc line = Raise e.
Proof.
  unfold ci_zero, check_line, line_entry. intros Hci Hnr.
  destruct (py_int h (get line "ci" _)) as [ci|]; [|discriminate].
  cbn [bind]. rewrite Hci, Hnr. cbn [py_int bind]. eauto.
Qed.

(** X18.  One [line] element without the attribute [nr] and with no
    covered instruction, anywhere below a selected [sourcefile], makes
    [missing_coverage] answer with the key [error]: the fault of
    [int(None)] ends both loops, and the uncovered lines found before
    it are not reported. *)
Theorem missing_coverage_line_without_number (h : Host)
    (file_path project_path : string) (root line : Element) :
  report_located h project_path ->
  ET_parse h (find_jacoco_path h project_path) = Ret root ->
  line ∈ inspected_lines (target_file_name h file_path) file_path root ->
  ci_zero h line = true ->
  get line "nr" ArgNone = ArgNone ->
  exists msg,
    missing_coverage h file_path project_path
      = Ret (error_dict ("Coverage analysis failed: " +:+ msg)).
Proof.
  intros Hloc Hparse Hin Hci Hnr.
  unfold inspected_lines in Hin.
  apply list_elem_of_In, in_flat_map in Hin as (sf & Hsf & Hline).
  apply list_elem_of_In, list_elem_of_filter in Hsf as [Hsel Hsf].
  apply list_elem_of_In in Hline.
  assert (Hloop : exists e,
            for_each (check_sourcefile h (target_file_name h file_path) file_path)
              (findall root "sourcefile") [] = Raise e).
  { apply (for_each_raises _ _ sf); [exact Hsf|]. intros acc.
    unfold check_sourcefile. rewrite Hsel.
    apply (for_each_raises _ _ line); [exact Hline|]. intros acc'.
    apply check_line_without_number; assumption. }
  destruct Hloop as (e & Hloop). exists (exn_msg e).
  unfold missing_coverage. cbv zeta. rewrite Hloc, Hparse. cbn [bind].
  rewrite Hloop. reflexivity.
Qed.

(** ** The commit *)

Lemma coverage_text_error (fmt : pyval -> string) (msg : string) (k : counter_kind) :
  coverage_text fmt (error_dict msg) (kind_key k) = "N/A".
Proof. destruct k; reflexivity. Qed.

Lemma coverage_text_percentage (fmt : pyval -> string) (v : counter_kind -> pyval)
    (k : counter_kind) :
  coverage_text fmt (coverage_dict v) (kind_key k) = fmt (v k).
Proof. unfold coverage_text. rewrite coverage_dict_lookup. reflexivity. Qed.

(** X19.  [git_commit] with the answer of [total_coverage] as its
    [coverage] runs the one command [git commit -m] in the repository,
    and its message ends with the coverage report.  For an answer with
    percentages the report holds the four of them; for an answer with
    the key [error], as when no report was found, it holds [N/A] four
    times: the error is not told apart from a coverage. *)
Theorem git_commit_message_of_total_coverage {W} (sh : Shell W) (fmt : pyval -> string)
    (h : Host) (project_path repo_path message : string)
    (data : gmap string pyval) (w : W) :
  total_coverage h project_path = Ret data ->
  exists line branch method instruction,
    snd (git_commit sh fmt repo_path message (Some data) w)
      = [(["git"; "commit"; "-m";
           message +:+ coverage_report line branch method instruction], repo_path)]
    /\ ((exists msg, data = error_dict msg
           /\ line = "N/A" /\ branch = "N/A" /\ method = "N/A" /\ instruction = "N/A")
        \/ (exists v, data = coverage_dict v /\ (forall k, percent_value (v k))
              /\ line = fmt (v LINE) /\ branch = fmt (v BRANCH)
              /\ method = fmt (v METHOD) /\ instruction = fmt (v INSTRUCTION))).
Proof.
  intros Hrun.
  destruct (total_coverage_cases h project_path) as (data' & Hrun' & Hshape).
  assert (data' = data) as -> by congruence.
  exists (coverage_text fmt data "line_coverage"), (coverage_text fmt data "branch_coverage"),
    (coverage_text fmt data "method_coverage"),
    (coverage_text fmt data "instruction_coverage").
  assert (Hne : bool_decide (data = ∅) = false).
  { apply bool_decide_eq_false. destruct Hshape as [(msg & ->)|(v & -> & _)];
      intros H; [apply (f_equal (fun d => d !! "error")) in H
                |apply (f_equal (fun d => d !! "line_coverage")) in H];
      discriminate H. }
  split.
  - unfold git_commit, ptry, pbind, run, pret, commit_msg_text. rewrite Hne.
    destruct (subprocess_run sh _ repo_path w) as [[result|cls msg] w1];
      [destruct (returncode result =? 0)|]; reflexivity.
  - destruct Hshape as [(msg & ->)|(v & -> & Hv)]; [left | right].
    + exists msg. repeat split.
    + exists v. repeat split; try exact Hv.
Qed.

(** ** Long methods *)






(** ** The name that [missing_coverage] looks for *)

Lemma str_contains_longer (needle hay : string) :
  (String.length hay < String.length needle)%nat -> str_contains needle hay = false.
Proof.
  intros Hlen. destruct (str_contains needle hay) eqn:E; [|reflexivity].
  apply str_contains_substring in E as (before & after & ->).
  rewrite !str_length_app in Hlen. lia.
Qed.

Lemma str_contains_empty (hay : string) : str_contains "" hay = true.
Proof. apply str_contains_substring. exists "", hay. reflexivity. Qed.

(** X21.  For a file given with its directory, [missing_coverage]
    passes over the entry that bears the name of the file: with a base
    name [stem.java] it looks for [stem.class] or for the whole path,
    and neither is a part of [stem.java].  The entry is selected when
    the path is the bare file name. *)
Theorem missing_coverage_passes_over_java_entry (h : Host) (file_path stem : string)
    (sourcefile : Element) :
  os_path_basename h file_path = stem +:+ ".java" ->
  str_contains ".java" (stem +:+ ".jav") = false ->
  get_str sourcefile "name" "" = stem +:+ ".java" ->
  ((String.length (stem +:+ ".java") < String.length file_path)%nat ->
   sourcefile_selected (target_file_name h file_path) file_path sourcefile = false)
  /\ (file_path = stem +:+ ".java" ->
      sourcefile_selected (target_file_name h file_path) file_path sourcefile = true).
Proof.
  intros Hbase Hstem Hname. unfold sourcefile_selected, target_file_name.
  rewrite Hbase, Hname, (str_replace_extension stem Hstem).
  assert (Hclass : str_contains (stem +:+ ".class") (stem +:+ ".java") = false).
  { apply str_contains_longer. rewrite !str_length_app. cbn. lia. }
  rewrite Hclass. cbn [orb]. split.
  - apply str_contains_longer.
  - intros ->. apply str_contains_substring. exists "", "".
    rewrite str_app_empty. reflexivity.
Qed.

Lemma missing_coverage_passes_over_java_entry_witness :
  let h := project_with (Ret report_two_lines) in
  os_path_basename h "src/main/java/Calc.java" = "Calc.java"
  /\ get_str sourcefile_two_lines "name" "" = "Calc.java"
  /\ sourcefile_selected (target_file_name h "src/main/java/Calc.java")
       "src/main/java/Calc.java" sourcefile_two_lines = false
  /\ missing_coverage h "src/main/java/Calc.java" "proj"
     = Ret (<["file" := PyStr "src/main/java/Calc.java"]>
           (<["total_uncovered_lines" := PyInt 0]>
           (<["uncovered_lines" := PyList []]> ∅))).
Proof.
  cbv zeta. split; [vm_compute; reflexivity|]. split; [vm_compute; reflexivity|].
  split; [|vm_compute; reflexivity].
  apply (missing_coverage_passes_over_java_entry (project_with (Ret report_two_lines))
           "src/main/java/Calc.java" "Calc" sourcefile_two_lines).
  - vm_compute. reflexivity.
  - vm_compute. reflexivity.
  - vm_compute. reflexivity.
  - vm_compute. lia.
Defined.

Lemma filter_all {A} (P : A -> Prop) `{forall x, Decision (P x)} (l : list A) :
  (forall x, x ∈ l -> P x) -> filter P l = l.
Proof.
  induction l as [|x l IH]; intros Hall; [reflexivity|].
  rewrite filter_cons_True by apply Hall, list_elem_of_here.
  rewrite IH; [reflexivity|]. intros y Hy. apply Hall, list_elem_of_further, Hy.
Qed.

(** X22.  For a path with an empty base name, as a directory written
    with its final slash, [missing_coverage] selects every [sourcefile]
    entry: the empty name is a part of every name.  It then reports the
    lines without covered instructions of the whole report under the
    one path. *)
Theorem missing_coverage_empty_base_name (h : Host) (file_path project_path : string)
    (root : Element) :
  let lines := flat_map (fun sf => findall sf "line") (findall root "sourcefile") in
  report_located h project_path ->
  ET_parse h (find_jacoco_path h project_path) = Ret root ->
  os_path_basename h file_path = "" ->
  forallb (line_ok h) lines = true ->
  exists entries,
    missing_coverage h file_path project_path =
      Ret (<["file" := PyStr file_path]>
          (<["total_uncovered_lines" := PyInt (Z.of_nat (length entries))]>
          (<["uncovered_lines" := PyList entries]> ∅))) /\
    Forall2 (reports h) (filter (fun l => ci_zero h l = true) lines) entries.
Proof.
  cbv zeta. intros Hloc Hparse Hbase Hok.
  assert (Hname : target_file_name h file_path = "").
  { unfold target_file_name. rewrite Hbase. reflexivity. }
  assert (Hall : filter (fun sf => sourcefile_selected "" file_path sf = true)
                   (findall root "sourcefile") = findall root "sourcefile").
  { apply filter_all. intros sf _. unfold sourcefile_selected.
    rewrite str_contains_empty. reflexivity. }
  destruct (for_each_check_sourcefile h "" file_path (findall root "sourcefile") [])
    as (entries & Hrun & Hrep).
  { rewrite Hall. exact Hok. }
  rewrite Hall in Hrep. exists entries. split; [|exact Hrep].
  unfold missing_coverage. cbv zeta. rewrite Hloc, Hparse, Hname. cbn [bind].
  rewrite Hrun. reflexivity.
Qed.

Lemma missing_coverage_empty_base_name_witness :
  let h := project_with (Ret report_two_lines) in
  os_path_basename h "src/" = ""
  /\ exists entries,
       missing_coverage h "src/" "proj" =
         Ret (<["file" := PyStr "src/"]>
             (<["total_uncovered_lines" := PyInt (Z.of_nat (length entries))]>
             (<["uncovered_lines" := PyList entries]> ∅))) /\
       Forall2 (reports h)
         (filter (fun l => ci_zero h l = true)
            (flat_map (fun sf => findall sf "line")
               (findall report_two_lines "sourcefile")))
         entries.
Proof.
  cbv zeta. split; [vm_compute; reflexivity|].
  apply (missing_coverage_empty_base_name (project_with (Ret report_two_lines))
           "src/" "proj" report_two_lines); vm_compute; reflexivity.
Defined.

(** ** The theorems on the examples *)

Lemma code_review_never_unused_imports_witness :
  code_review counter_files "Counter.java"
    = Review "Counter.java"
        [ Security "SQL Injection" "Use PreparedStatement";
          Security "Insecure Logging" "Use logger.info()";
          Style "Missing Documentation" "Add 2 Javadoc comments" ] 3
  /\ forall fix_,
       Style "Unused Imports" fix_
         ∉ [ Security "SQL Injection" "Use PreparedStatement";
             Security "Insecure Logging" "Use logger.info()";
             Style "Missing Documentation" "Add 2 Javadoc comments" ].
Proof.
  split; [vm_compute; reflexivity|].
  apply (code_review_never_unused_imports counter_files "Counter.java" "Counter.java" _ 3).
  vm_compute. reflexivity.
Defined.

Lemma code_review_sql_injection_witness :
  exists issues,
    code_review counter_files "Counter.java"
      = Review "Counter.java" issues (Z.of_nat (length issues))
    /\ (Security "SQL Injection" "Use PreparedStatement" ∈ issues
        <-> exists text, substring_of text java_counter /\ sql_text text).
Proof.
  apply (code_review_sql_injection counter_files "Counter.java" java_counter).
  reflexivity.
Defined.

Lemma code_review_literal_checks_witness :
  exists issues,
    code_review counter_files "Counter.java"
      = Review "Counter.java" issues (Z.of_nat (length issues))
    /\ (Security "Insecure Logging" "Use logger.info()" ∈ issues
        <-> str_contains "System.out.println" java_counter = true
            \/ str_contains "printStackTrace" java_counter = true)
    /\ (Security "Command Injection" "Validate input" ∈ issues
        <-> str_contains "Runtime.getRuntime().exec" java_counter = true).
Proof.
  apply (code_review_literal_checks counter_files "Counter.java" java_counter).
  reflexivity.
Defined.

Lemma analyze_java_code_one_method_per_line_witness :
  exists methods,
    analyze_java_code counter_files "Counter.java"
      = Analysis "Counter.java" (Z.of_nat (length methods)) methods
    /\ NoDup methods.*1
    /\ forall line entry, (line, entry) ∈ methods <->
         exists m,
           last (filter (fun m => line_of java_counter m = line)
                   (re_finditer method_pattern java_counter)) = Some m
           /\ entry = method_entry m.
Proof.
  apply (analyze_java_code_one_method_per_line counter_files "Counter.java" java_counter).
  reflexivity.
Defined.

Lemma analyze_java_code_entries_are_signatures_witness :
  analyze_java_code counter_files "Counter.java"
    = Analysis "Counter.java" 2 counter_methods
  /\ exists content before signature after return_type name,
       counter_files "Counter.java" = Done content
       /\ content = before +:+ signature +:+ after
       /\ 3 = Z.of_nat (str_count newline before) + 1
       /\ (<["name" := PyStr "log"]>
             (<["return_type" := PyStr "void"]>
                (<["signature" := PyStr "public void log()"]> ∅))
           : gmap string pyval)
          = <["name" := PyStr name]>
              (<["return_type" := PyStr return_type]>
                 (<["signature" := PyStr signature]> ∅))
       /\ is_signature signature return_type name.
Proof.
  split; [vm_compute; reflexivity|].
  apply (analyze_java_code_entries_are_signatures counter_files "Counter.java"
           "Counter.java" 2 counter_methods).
  - vm_compute. reflexivity.
  - apply list_elem_of_here.
Defined.

Lemma generate_specification_tests_first_five_witness :
  generate_specification_tests counter_files "Counter.java" "Counter"
    = spec_header "Counter"
      +:+ String.concat ""
            (spec_tests_of
               <$> take 5 (first_occurrences []
                             ((fun m => group m 3)
                                <$> re_finditer method_pattern java_counter)))
      +:+ "}" +:+ nl.
Proof.
  apply (generate_specification_tests_first_five counter_files "Counter.java" "Counter"
           java_counter).
  reflexivity.
Defined.

Lemma generate_test_template_of_analysis_witness :
  analyze_java_code counter_files "Counter.java"
    = Analysis "Counter.java" 2 counter_methods
  /\ exists names,
       Forall2 (fun item name => item.2 !! "name" = Some (PyStr name) /\ is_name name)
         counter_methods names
       /\ generate_test_template (fun s => s) "Counter"
            (prod_map id PyDict <$> counter_methods)
          = Done (template_header "Counter"
                  +:+ String.concat "" ((fun name => template_test name) <$> names)
                  +:+ "}" +:+ nl).
Proof.
  split; [vm_compute; reflexivity|].
  apply (generate_test_template_of_analysis counter_files (fun s => s) "Counter.java"
           "Counter.java" "Counter" 2 counter_methods).
  vm_compute. reflexivity.
Defined.

Lemma generate_test_template_missing_name_witness :
  generate_test_template (fun s => s) "Counter"
    ([(3, PyDict {[ "name" := PyStr "log" ]})] ++ [(4, PyDict ∅)])
    = Raised "KeyError" "'name'".
Proof.
  apply (generate_test_template_missing_name (fun s => s) "Counter"
           [(3, PyDict {[ "name" := PyStr "log" ]})] [] ["log"] 4 ∅).
  - constructor; [|constructor]. eexists. split; reflexivity.
  - reflexivity.
Defined.

Lemma coverage_tools_refuse_not_found_in_path_witness :
  let h := example_host {[ "not found/target/site/jacoco/jacoco.xml" := Ret report_80_20 ]} in
  str_contains "not found" "not found" = true
  /\ total_coverage h "not found"
     = Ret (error_dict (find_jacoco_path h "not found"))
  /\ missing_coverage h "Calc.java" "not found"
     = Ret (error_dict (find_jacoco_path h "not found"))
  /\ (forall path, path ∈ jacoco_paths "not found" ->
        os_path_exists h path = true ->
        find_jacoco_path h "not found" ∈ jacoco_paths "not found").
Proof.
  cbv zeta. split; [reflexivity|].
  apply (coverage_tools_refuse_not_found_in_path
           (example_host {[ "not found/target/site/jacoco/jacoco.xml" := Ret report_80_20 ]})
           "Calc.java" "not found").
  reflexivity.
Defined.

Lemma missing_coverage_line_without_number_witness :
  let h := project_with (Ret report_unnumbered_line) in
  let line := mkElement "line" {[ "ci" := "0" ]} [] in
  report_located h "proj"
  /\ ET_parse h (find_jacoco_path h "proj") = Ret report_unnumbered_line
  /\ inspected_lines (target_file_name h "Calc.java") "Calc.java" report_unnumbered_line
     = [line_node "12" "0" "0"; line]
  /\ ci_zero h line = true
  /\ get line "nr" ArgNone = ArgNone
  /\ exists msg,
       missing_coverage h "Calc.java" "proj"
         = Ret (error_dict ("Coverage analysis failed: " +:+ msg)).
Proof.
  cbv zeta.
  assert (Hlines :
    inspected_lines
      (target_file_name (project_with (Ret report_unnumbered_line)) "Calc.java")
      "Calc.java" report_unnumbered_line
    = [line_node "12" "0" "0"; mkElement "line" {[ "ci" := "0" ]} []])
    by (vm_compute; reflexivity).
  do 5 (split; [vm_compute; reflexivity|]).
  apply (missing_coverage_line_without_number (project_with (Ret report_unnumbered_line))
           "Calc.java" "proj" report_unnumbered_line
           (mkElement "line" {[ "ci" := "0" ]} [])).
  - vm_compute. reflexivity.
  - vm_compute. reflexivity.
  - rewrite Hlines. apply list_elem_of_further, list_elem_of_here.
  - vm_compute. reflexivity.
  - vm_compute. reflexivity.
Defined.

Lemma git_commit_message_of_total_coverage_witness :
  total_coverage (example_host ∅) "proj" = Ret (error_dict not_found_message)
  /\ exists line branch method instruction,
       snd (git_commit (printing_shell "") (fun _ => "") "." "Add tests"
              (Some (error_dict not_found_message)) tt)
         = [(["git"; "commit"; "-m";
              "Add tests" +:+ coverage_report line branch method instruction], ".")]
       /\ ((exists msg, error_dict not_found_message = error_dict msg
              /\ line = "N/A" /\ branch = "N/A" /\ method = "N/A" /\ instruction = "N/A")
           \/ (exists v, error_dict not_found_message = coverage_dict v
                 /\ (forall k, percent_value (v k))
                 /\ line = "" /\ branch = "" /\ method = "" /\ instruction = "")).
Proof.
  split; [vm_compute; reflexivity|].
  apply (git_commit_message_of_total_coverage (printing_shell "") (fun _ => "")
           (example_host ∅) "proj" "." "Add tests" (error_dict not_found_message) tt).
  vm_compute. reflexivity.
Defined.
